(** * Enrollment, access-control and progress engine of the learning platform

    A shallow embedding of
    - [supabase/migrations/20251115132526_create_learning_platform_schema.sql]
      (tables, constraints and row-level-security policies),
    - [src/components/player/CoursePlayer.tsx],
    - [src/components/courses/CourseDetail.tsx] ([handleEnroll]),
    - [src/components/student/StudentDashboard.tsx]
      ([handleGenerateCertificate]), and
    - [src/App.tsx] (how the player is mounted).

    The database is a record of tables, every table a list of rows.  A
    Supabase client call is a function from the database and the
    authenticated identity to an error or a new database; the PostgreSQL
    checks it goes through (row-level security, CHECK, UNIQUE, foreign
    keys) are written out in the order the server performs them.  React
    component state is a record; a handler is a function of the state of
    the render that created it. *)

From Stdlib Require Import ZArith Ascii String.
From Stdlib Require Import Floats.SpecFloat.
From Stdlib Require Import Sorting.Sorted.
From stdpp Require Import gmap strings list.

Local Open Scope Z_scope.
Local Open Scope string_scope.

(** ** Column types *)

(** A [uuid] value is kept as the text the server prints for it: 32
    lower-case hexadecimal digits in groups of 8-4-4-4-12.  This is how
    every stored uuid, and [auth.uid()], reach the client, and two values
    are equal exactly when these texts are.  [timestamptz] is a point on
    a clock. *)
Abbreviation uuid := string (only parsing).
Abbreviation timestamptz := Z (only parsing).

Definition isxdigit (c : ascii) : bool :=
  let n := N_of_ascii c in
  ((48 <=? n) && (n <=? 57) || (97 <=? n) && (n <=? 102) ||
   (65 <=? n) && (n <=? 70))%N.

(** A hexadecimal digit as the server prints it. *)
Definition tolower (c : ascii) : ascii :=
  let n := N_of_ascii c in
  if ((65 <=? n) && (n <=? 90))%N then ascii_of_N (n + 32) else c.

(** The input function of the [uuid] type reads sixteen bytes of two
    hexadecimal digits each, in either case; after the byte of an odd
    index other than the last, that is after any group of four digits,
    one hyphen is skipped.  [i] is the index of the next byte and [left]
    the number of bytes still to read; the result is the digits, in
    lower case, and the text after them. *)
Fixpoint uuid_bytes (left i : nat) (src : string) : option (string * string) :=
  match left with
  | O => Some (EmptyString, src)
  | S left' =>
      match src with
      | String a (String b rest) =>
          if isxdigit a && isxdigit b then
            let rest' :=
              match rest with
              | String c after =>
                  if Ascii.eqb c "-"%char && Nat.odd i && (i <? 15)%nat
                  then after else rest
              | EmptyString => rest
              end in
            match uuid_bytes left' (S i) rest' with
            | Some (digits, tail) =>
                Some (String (tolower a) (String (tolower b) digits), tail)
            | None => None
            end
          else None
      | _ => None
      end
  end.

(** The output function: the 32 digits in groups of 8-4-4-4-12. *)
Definition uuid_out (digits : string) : uuid :=
  substring 0 8 digits ++ "-" ++ substring 8 4 digits ++ "-" ++
  substring 12 4 digits ++ "-" ++ substring 16 4 digits ++ "-" ++
  substring 20 12 digits.

(** The cast of a text to [uuid]: the value the text denotes, or nothing
    when the server answers "invalid input syntax for type uuid".  The
    digits may stand in braces, and nothing may follow them. *)
Definition uuid_in (text : string) : option uuid :=
  let '(braces, src) :=
    match text with
    | String "{"%char rest => (true, rest)
    | _ => (false, text)
    end in
  match uuid_bytes 16 0 src with
  | Some (digits, tail) =>
      if (tail =? (if braces then "}" else ""))%string
      then Some (uuid_out digits) else None
  | None => None
  end.

(** The text is a uuid in the form the server prints: the cast gives it
    back as it is. *)
Definition is_uuid (s : string) : bool :=
  match uuid_in s with
  | Some u => (u =? s)%string
  | None => false
  end.

(** The digits the server prints. *)
Definition lower_hex (c : ascii) : bool :=
  let n := N_of_ascii c in
  ((48 <=? n) && (n <=? 57) || (97 <=? n) && (n <=? 102))%N.

Fixpoint all_lower_hex (s : string) : bool :=
  match s with
  | EmptyString => true
  | String c rest => lower_hex c && all_lower_hex rest
  end.

(** The range of an [integer] column. *)
Definition int4 (n : Z) : bool :=
  (-2147483648 <=? n)%Z && (n <=? 2147483647)%Z.

(** ** Server errors, by SQLSTATE *)

Inductive PgError :=
| invalid_text_representation                 (* 22P02 *)
| numeric_value_out_of_range                  (* 22003 *)
| insufficient_privilege (table : string)     (* 42501, row-level security *)
| check_violation (constraint : string)       (* 23514 *)
| unique_violation (constraint : string)      (* 23505 *)
| foreign_key_violation (constraint : string) (* 23503 *).

Inductive result (A : Type) :=
| Ok (a : A)
| Err (e : PgError).
Arguments Ok {A} a.
Arguments Err {A} e.

#[global] Instance result_ret : MRet result := fun A a => Ok a.
#[global] Instance result_bind : MBind result := fun A B k r =>
  match r with
  | Ok a => k a
  | Err e => Err e
  end.

(** A server-side check: go on when it holds, abort the statement with
    [e] when it does not. *)
Definition require (b : bool) (e : PgError) : result unit :=
  if b then Ok tt else Err e.

(** The text a request carries for a [uuid] column or filter: the
    statement goes on with the value, or fails in the cast. *)
Definition cast_uuid (text : string) : result uuid :=
  match uuid_in text with
  | Some u => Ok u
  | None => Err invalid_text_representation
  end.

(** The number a request body carries for an [integer] column.  The
    body is JSON, where an integer below 10^21 in magnitude is written
    in digits: it is converted when it is in the range of the type and
    is out of range when it is not.  A larger one is written with an
    exponent, which is no syntax of an integer. *)
Definition cast_integer (n : Z) : result Z :=
  if int4 n then Ok n
  else if (Z.abs n <? 10 ^ 21)%Z then Err numeric_value_out_of_range
  else Err invalid_text_representation.

Definition is_ok {A} (r : result A) : bool :=
  match r with Ok _ => true | Err _ => false end.

(** The spec's [Conflict] class: a uniqueness violation. *)
Definition is_conflict {A} (r : result A) : bool :=
  match r with Err (unique_violation _) => true | _ => false end.

(** ** Tables *)

Inductive Role := student | instructor.
Inductive Level := Beginner | Intermediate | Advanced.

Module Profile.
Record t := mk {
    id : uuid;
    email : string;
    full_name : string;
    role : Role;
    bio : option string;
    avatar_url : option string;
    created_at : timestamptz }.
End Profile.

Module Course.
Record t := mk {
    id : uuid;
    instructor_id : uuid;
    title : string;
    description : string;
    thumbnail_url : option string;
    price : Z;                       (* decimal(10,2), in hundredths *)
    level : Level;
    category : string;
    is_published : bool;
    created_at : timestamptz;
    updated_at : timestamptz }.
End Course.

Module CourseSection.
Record t := mk {
    id : uuid;
    course_id : uuid;
    title : string;
    order_index : Z;
    created_at : timestamptz }.
End CourseSection.

Module Lesson.
Record t := mk {
    id : uuid;
    section_id : uuid;
    title : string;
    description : option string;
    video_url : string;
    duration_seconds : Z;
    order_index : Z;
    is_preview : bool;
    created_at : timestamptz }.
End Lesson.

Module Enrollment.
Record t := mk {
    id : uuid;
    student_id : uuid;
    course_id : uuid;
    enrolled_at : timestamptz;
    completed_at : option timestamptz;
    progress_percentage : Z }.
End Enrollment.

Module LessonProgress.
Record t := mk {
    id : uuid;
    enrollment_id : uuid;
    lesson_id : uuid;
    watched_seconds : Z;
    is_completed : bool;
    last_watched_at : timestamptz }.
End LessonProgress.

Module Certificate.
Record t := mk {
    id : uuid;
    enrollment_id : uuid;
    certificate_url : option string;
    issued_at : timestamptz }.
End Certificate.

Record DB := mkDB {
  profiles : list Profile.t;
  courses : list Course.t;
  course_sections : list CourseSection.t;
  lessons : list Lesson.t;
  enrollments : list Enrollment.t;
  lesson_progress : list LessonProgress.t;
  certificates : list Certificate.t }.

Definition set_enrollments (db : DB) (es : list Enrollment.t) : DB :=
  mkDB (profiles db) (courses db) (course_sections db) (lessons db)
       es (lesson_progress db) (certificates db).

Definition set_lesson_progress (db : DB) (ps : list LessonProgress.t) : DB :=
  mkDB (profiles db) (courses db) (course_sections db) (lessons db)
       (enrollments db) ps (certificates db).

Definition set_certificates (db : DB) (cs : list Certificate.t) : DB :=
  mkDB (profiles db) (courses db) (course_sections db) (lessons db)
       (enrollments db) (lesson_progress db) cs.

(** ** Row-level security

    Row-level security is enabled on every table and every policy is
    [TO authenticated]; [uid] below is [auth.uid()], the id of the
    signed-in user.  The policies of one command on one table are
    permissive, so they are joined by [||]; a command with no policy is
    denied.  A sub-select inside a policy runs with the caller's rights,
    so the table it reads is first filtered by that table's own SELECT
    policies: these filtered tables are the [visible_*] lists. *)

Section Policies.
Variable db : DB.
Variable uid : uuid.

  (** courses *)
Definition Anyone_can_view_published_courses (c : Course.t) : bool :=
    Course.is_published c || (Course.instructor_id c =? uid)%string.

Definition courses_select_using (c : Course.t) : bool :=
    Anyone_can_view_published_courses c.

Definition visible_courses : list Course.t :=
    List.filter courses_select_using (courses db).

  (** course_sections *)
Definition Users_can_view_sections_of_accessible_courses
      (cs : CourseSection.t) : bool :=
    existsb (fun c =>
        (Course.id c =? CourseSection.course_id cs)%string &&
        (Course.is_published c || (Course.instructor_id c =? uid)%string))
      visible_courses.

Definition Instructors_can_manage_own_course_sections
      (cs : CourseSection.t) : bool :=
    existsb (fun c =>
        (Course.id c =? CourseSection.course_id cs)%string &&
        (Course.instructor_id c =? uid)%string)
      visible_courses.

Definition course_sections_select_using (cs : CourseSection.t) : bool :=
    Users_can_view_sections_of_accessible_courses cs ||
    Instructors_can_manage_own_course_sections cs.

Definition visible_course_sections : list CourseSection.t :=
    List.filter course_sections_select_using (course_sections db).

  (** enrollments *)
Definition Students_can_view_own_enrollments (e : Enrollment.t) : bool :=
    (Enrollment.student_id e =? uid)%string.

Definition Students_can_create_enrollments (e : Enrollment.t) : bool :=
    (Enrollment.student_id e =? uid)%string.

Definition Students_can_update_own_enrollments (e : Enrollment.t) : bool :=
    (Enrollment.student_id e =? uid)%string.

Definition Instructors_can_view_course_enrollments
      (e : Enrollment.t) : bool :=
    existsb (fun c =>
        (Course.id c =? Enrollment.course_id e)%string &&
        (Course.instructor_id c =? uid)%string)
      visible_courses.

Definition enrollments_select_using (e : Enrollment.t) : bool :=
    Students_can_view_own_enrollments e ||
    Instructors_can_view_course_enrollments e.

Definition enrollments_insert_check (e : Enrollment.t) : bool :=
    Students_can_create_enrollments e.

  (** The UPDATE policy has the same expression as USING and WITH CHECK. *)
Definition enrollments_update_using (e : Enrollment.t) : bool :=
    Students_can_update_own_enrollments e.

Definition enrollments_update_check (e : Enrollment.t) : bool :=
    Students_can_update_own_enrollments e.

Definition visible_enrollments : list Enrollment.t :=
    List.filter enrollments_select_using (enrollments db).

  (** lessons *)
Definition Users_can_view_lessons_of_accessible_courses
      (l : Lesson.t) : bool :=
    existsb (fun cs =>
        (CourseSection.id cs =? Lesson.section_id l)%string &&
        existsb (fun c =>
            (Course.id c =? CourseSection.course_id cs)%string &&
            (Course.is_published c ||
             (Course.instructor_id c =? uid)%string ||
             existsb (fun e =>
                 (Enrollment.course_id e =? Course.id c)%string &&
                 (Enrollment.student_id e =? uid)%string)
               visible_enrollments))
          visible_courses)
      visible_course_sections.

Definition Instructors_can_manage_own_course_lessons
      (l : Lesson.t) : bool :=
    existsb (fun cs =>
        (CourseSection.id cs =? Lesson.section_id l)%string &&
        existsb (fun c =>
            (Course.id c =? CourseSection.course_id cs)%string &&
            (Course.instructor_id c =? uid)%string)
          visible_courses)
      visible_course_sections.

Definition lessons_select_using (l : Lesson.t) : bool :=
    Users_can_view_lessons_of_accessible_courses l ||
    Instructors_can_manage_own_course_lessons l.

Definition visible_lessons : list Lesson.t :=
    List.filter lessons_select_using (lessons db).

  (** lesson_progress: one SELECT policy and one [FOR ALL] policy, which
      has a USING expression only and so checks new rows with it too. *)
Definition Students_can_view_own_progress (p : LessonProgress.t) : bool :=
    existsb (fun e =>
        (Enrollment.id e =? LessonProgress.enrollment_id p)%string &&
        (Enrollment.student_id e =? uid)%string)
      visible_enrollments.

Definition Students_can_manage_own_progress (p : LessonProgress.t) : bool :=
    existsb (fun e =>
        (Enrollment.id e =? LessonProgress.enrollment_id p)%string &&
        (Enrollment.student_id e =? uid)%string)
      visible_enrollments.

Definition lesson_progress_select_using (p : LessonProgress.t) : bool :=
    Students_can_view_own_progress p || Students_can_manage_own_progress p.

Definition lesson_progress_insert_check (p : LessonProgress.t) : bool :=
    Students_can_manage_own_progress p.

Definition lesson_progress_update_using (p : LessonProgress.t) : bool :=
    Students_can_manage_own_progress p.

Definition lesson_progress_update_check (p : LessonProgress.t) : bool :=
    Students_can_manage_own_progress p.

  (** certificates: a SELECT and an INSERT policy.  No policy is written
    for UPDATE (or DELETE); with row-level security enabled, a command
    without a policy is denied on every row. *)
Definition Students_can_view_own_certificates (c : Certificate.t) : bool :=
    existsb (fun e =>
        (Enrollment.id e =? Certificate.enrollment_id c)%string &&
        (Enrollment.student_id e =? uid)%string)
      visible_enrollments.

Definition System_can_create_certificates (c : Certificate.t) : bool :=
    existsb (fun e =>
        (Enrollment.id e =? Certificate.enrollment_id c)%string &&
        (Enrollment.student_id e =? uid)%string)
      visible_enrollments.

Definition certificates_select_using (c : Certificate.t) : bool :=
    Students_can_view_own_certificates c.

Definition certificates_insert_check (c : Certificate.t) : bool :=
    System_can_create_certificates c.

Definition certificates_update_using (c : Certificate.t) : bool := false.

Definition certificates_update_check (c : Certificate.t) : bool := false.
End Policies.

(** ** Statements issued through the Supabase client

    Each function is one statement as PostgreSQL runs it for the signed-in
    caller [actor] ([None]: no session, to which no policy applies).
    What the request carries is converted to the column types first: a
    text for a [uuid] column is cast, and the rows, filters and
    comparisons that follow use the value of the cast; a number for an
    [integer] column has to be in range.  Then, for a new row, the WITH
    CHECK policies, the CHECK constraints, the unique indexes and at the
    end of the statement the foreign keys.  [new_id] is the
    value of [gen_random_uuid()] and [now] the reading of the clock. *)

Definition authenticated (actor : option uuid) (table : string) : result uuid :=
  match actor with
  | Some uid => Ok uid
  | None => Err (insufficient_privilege table)
  end.

Definition progress_percentage_check (p : Z) : bool :=
  (0 <=? p)%Z && (p <=? 100)%Z.

(** The same pair of student and course. *)
Definition same_enrollment_key (student_id course_id : uuid)
    (e : Enrollment.t) : bool :=
  (Enrollment.student_id e =? student_id)%string &&
  (Enrollment.course_id e =? course_id)%string.

(** [from('enrollments').insert({student_id, course_id}).select().single()] *)
Definition insert_enrollment (db : DB) (actor : option uuid)
    (new_id : uuid) (now : timestamptz) (student_id course_id : string)
    : result (DB * Enrollment.t) :=
  student_id ← cast_uuid student_id;
  course_id ← cast_uuid course_id;
  uid ← authenticated actor "enrollments";
  let row := Enrollment.mk new_id student_id course_id now None 0 in
  _ ← require (enrollments_insert_check uid row)
        (insufficient_privilege "enrollments");
  _ ← require (progress_percentage_check (Enrollment.progress_percentage row))
        (check_violation "enrollments_progress_percentage_check");
  _ ← require (negb (existsb (fun e => (Enrollment.id e =? new_id)%string)
                       (enrollments db)))
        (unique_violation "enrollments_pkey");
  _ ← require (negb (existsb (same_enrollment_key student_id course_id)
                       (enrollments db)))
        (unique_violation "enrollments_student_id_course_id_key");
  _ ← require (existsb (fun p => (Profile.id p =? student_id)%string)
                 (profiles db))
        (foreign_key_violation "enrollments_student_id_fkey");
  _ ← require (existsb (fun c => (Course.id c =? course_id)%string)
                 (courses db))
        (foreign_key_violation "enrollments_course_id_fkey");
  let db' := set_enrollments db (enrollments db ++ [row]) in
  _ ← require (enrollments_select_using db' uid row)
        (insufficient_privilege "enrollments");
  Ok (db', row).

Definition same_progress_key (enrollment_id lesson_id : uuid)
    (p : LessonProgress.t) : bool :=
  (LessonProgress.enrollment_id p =? enrollment_id)%string &&
  (LessonProgress.lesson_id p =? lesson_id)%string.

(** [from('lesson_progress').upsert({...}, {onConflict:
    'enrollment_id,lesson_id'}).select().single()]: INSERT ... ON CONFLICT
    (enrollment_id, lesson_id) DO UPDATE SET every supplied column. *)
Definition upsert_lesson_progress (db : DB) (actor : option uuid)
    (new_id : uuid) (enrollment_id lesson_id : string) (watched_seconds : Z)
    (is_completed : bool) (last_watched_at : timestamptz)
    : result (DB * LessonProgress.t) :=
  enrollment_id ← cast_uuid enrollment_id;
  lesson_id ← cast_uuid lesson_id;
  watched_seconds ← cast_integer watched_seconds;
  uid ← authenticated actor "lesson_progress";
  let proposed := LessonProgress.mk new_id enrollment_id lesson_id
                    watched_seconds is_completed last_watched_at in
  _ ← require (lesson_progress_insert_check db uid proposed)
        (insufficient_privilege "lesson_progress");
  match List.find (same_progress_key enrollment_id lesson_id)
          (lesson_progress db) with
  | Some old =>
      _ ← require (lesson_progress_update_using db uid old &&
                   lesson_progress_select_using db uid old)
            (insufficient_privilege "lesson_progress");
      let row := LessonProgress.mk (LessonProgress.id old) enrollment_id
                   lesson_id watched_seconds is_completed last_watched_at in
      _ ← require (lesson_progress_update_check db uid row &&
                   lesson_progress_select_using db uid row)
            (insufficient_privilege "lesson_progress");
      Ok (set_lesson_progress db
            (map (fun p => if same_progress_key enrollment_id lesson_id p
                           then row else p)
               (lesson_progress db)),
          row)
  | None =>
      _ ← require (negb (existsb
                     (fun p => (LessonProgress.id p =? new_id)%string)
                     (lesson_progress db)))
            (unique_violation "lesson_progress_pkey");
      _ ← require (existsb
                     (fun e => (Enrollment.id e =? enrollment_id)%string)
                     (enrollments db))
            (foreign_key_violation "lesson_progress_enrollment_id_fkey");
      _ ← require (existsb (fun l => (Lesson.id l =? lesson_id)%string)
                     (lessons db))
            (foreign_key_violation "lesson_progress_lesson_id_fkey");
      _ ← require (lesson_progress_select_using db uid proposed)
            (insufficient_privilege "lesson_progress");
      Ok (set_lesson_progress db (lesson_progress db ++ [proposed]),
          proposed)
  end.

(** [from('certificates').upsert({enrollment_id, certificate_url},
    {onConflict: 'enrollment_id'})]: INSERT ... ON CONFLICT (enrollment_id)
    DO UPDATE.  On a conflict the existing row has to pass the UPDATE
    policies, and the table has none. *)
Definition upsert_certificate (db : DB) (actor : option uuid)
    (new_id : uuid) (now : timestamptz) (enrollment_id : string)
    (certificate_url : string) : result DB :=
  enrollment_id ← cast_uuid enrollment_id;
  uid ← authenticated actor "certificates";
  let proposed := Certificate.mk new_id enrollment_id
                    (Some certificate_url) now in
  _ ← require (certificates_insert_check db uid proposed)
        (insufficient_privilege "certificates");
  match List.find
          (fun c => (Certificate.enrollment_id c =? enrollment_id)%string)
          (certificates db) with
  | Some old =>
      _ ← require (certificates_update_using old &&
                   certificates_select_using db uid old)
            (insufficient_privilege "certificates");
      let row := Certificate.mk (Certificate.id old) enrollment_id
                   (Some certificate_url) (Certificate.issued_at old) in
      _ ← require (certificates_update_check row &&
                   certificates_select_using db uid row)
            (insufficient_privilege "certificates");
      Ok (set_certificates db
            (map (fun c =>
                    if (Certificate.enrollment_id c =? enrollment_id)%string
                    then row else c)
               (certificates db)))
  | None =>
      _ ← require (negb (existsb
                     (fun c => (Certificate.id c =? new_id)%string)
                     (certificates db)))
            (unique_violation "certificates_pkey");
      _ ← require (existsb
                     (fun e => (Enrollment.id e =? enrollment_id)%string)
                     (enrollments db))
            (foreign_key_violation "certificates_enrollment_id_fkey");
      Ok (set_certificates db (certificates db ++ [proposed]))
  end.

(** The enrollment row after SET progress_percentage = ..., completed_at
    = ... *)
Definition with_progress (e : Enrollment.t) (progress_percentage : Z)
    (completed_at : option timestamptz) : Enrollment.t :=
  Enrollment.mk (Enrollment.id e) (Enrollment.student_id e)
    (Enrollment.course_id e) (Enrollment.enrolled_at e)
    completed_at progress_percentage.

(** [from('enrollments').update({progress_percentage, completed_at})
    .eq('id', id)]: the rows the caller may see and update are rewritten,
    the others are passed over in silence.  The percentage is taken in
    the range of the [integer] type: the player sends a rounded ratio of
    two counts, which leaves that range only with more than 21 million
    completed rows in its progress map. *)
Definition update_enrollment (db : DB) (actor : option uuid)
    (progress_percentage : Z) (completed_at : option timestamptz)
    (id : string) : result DB :=
  id ← cast_uuid id;
  match actor with
  | None => Ok db
  | Some uid =>
      let targeted e :=
        (Enrollment.id e =? id)%string &&
        enrollments_select_using db uid e &&
        enrollments_update_using uid e in
      let updated e := with_progress e progress_percentage completed_at in
      _ ← require (forallb (fun e => implb (targeted e)
                              (enrollments_update_check uid (updated e)))
                     (enrollments db))
            (insufficient_privilege "enrollments");
      _ ← require (forallb (fun e => implb (targeted e)
                              (progress_percentage_check
                                 (Enrollment.progress_percentage (updated e))))
                     (enrollments db))
            (check_violation "enrollments_progress_percentage_check");
      Ok (set_enrollments db
            (map (fun e => if targeted e then updated e else e)
               (enrollments db)))
  end.

(** ** JavaScript numbers

    A JavaScript number is an IEEE 754 binary64 value: [spec_float] with
    53 bits of precision, with the round-to-nearest-even operations of
    [SpecFloat]. *)

Definition prec : Z := 53.
Definition emax : Z := 1024.

(** The number that a length or a count is: exact below 2^53. *)
Definition Number (n : Z) : spec_float := binary_normalize prec emax n 0 false.

Definition js_div (x y : spec_float) : spec_float := SFdiv prec emax x y.
Definition js_mul (x y : spec_float) : spec_float := SFmul prec emax x y.

(** [Math.round]: the closest integer, a tie going towards +infinity.
    A finite number is [(-1)^s * m * 2^e]; for what is not finite (not
    reached from a division by a positive count) the value is 0. *)
Definition Math_round (x : spec_float) : Z :=
  match x with
  | S754_finite s m e =>
      let n := cond_Zopp s (Zpos m) in
      if (0 <=? e)%Z then n * 2 ^ e
      else (2 * n + 2 ^ (- e)) / (2 * 2 ^ (- e))
  | _ => 0
  end.

(** [totalLessons > 0 ? Math.round((completedLessons / totalLessons) * 100)
    : 0] *)
Definition progressPercentage (completedLessons totalLessons : Z) : Z :=
  if (totalLessons >? 0)%Z
  then Math_round
         (js_mul (js_div (Number completedLessons) (Number totalLessons))
            (Number 100))
  else 0.

(** ** Queries *)

(** A stable sort by an integer key: [.order('order_index', {ascending:
    true})] and [.sort((a, b) => a.order_index - b.order_index)]. *)
Fixpoint insert_by {A} (key : A -> Z) (x : A) (l : list A) : list A :=
  match l with
  | [] => [x]
  | y :: l' => if (key x <=? key y)%Z then x :: y :: l'
               else y :: insert_by key x l'
  end.

Definition sort_by {A} (key : A -> Z) (l : list A) : list A :=
  fold_right (insert_by key) [] l.

(** The TypeScript type [Section]: a course_sections row with its
    embedded lessons. *)
Record Section_ := mkSection {
  section_row : CourseSection.t;
  section_lessons : list Lesson.t }.

Definition rows_for (actor : option uuid) {A} (visible : uuid -> list A)
    : list A :=
  match actor with
  | Some uid => visible uid
  | None => []
  end.

(** The query of [loadCourseContent]: the [course_sections] rows with
    [course_id = courseId], each with its embedded [lessons] rows,
    ordered by [order_index]. *)
Definition select_sections_with_lessons (db : DB) (actor : option uuid)
    (courseId : string) : result (list Section_) :=
  courseId ← cast_uuid courseId;
  Ok (map (fun cs =>
             mkSection cs
               (List.filter
                  (fun l => (Lesson.section_id l =? CourseSection.id cs)%string)
                  (rows_for actor (visible_lessons db))))
        (sort_by CourseSection.order_index
           (List.filter
              (fun cs => (CourseSection.course_id cs =? courseId)%string)
              (rows_for actor (visible_course_sections db))))).

(** The query of [loadProgress]: the [lesson_progress] rows with
    [enrollment_id = enrollmentId]. *)
Definition select_lesson_progress (db : DB) (actor : option uuid)
    (enrollmentId : string) : result (list LessonProgress.t) :=
  enrollmentId ← cast_uuid enrollmentId;
  Ok (List.filter
        (fun p => (LessonProgress.enrollment_id p =? enrollmentId)%string)
        (rows_for actor
           (fun uid => List.filter (lesson_progress_select_using db uid)
                         (lesson_progress db)))).

(** ** CoursePlayer.tsx *)

Record CoursePlayerProps := mkProps {
  courseId : string;
  enrollmentId : string }.

(** The component's [useState] cells. *)
Record CoursePlayerState := mkState {
  sections : list Section_;
  currentLesson : option Lesson.t;
  progress : gmap string LessonProgress.t;
  expandedSections : gset string;
  loading : bool }.

Definition initialState : CoursePlayerState :=
  mkState [] None ∅ ∅ true.

(** What a handler leaves behind: the component state for the next
    render and what went to [console.error]. *)
Definition loadCourseContent (props : CoursePlayerProps) (db : DB)
    (actor : option uuid) (st : CoursePlayerState)
    : CoursePlayerState * option PgError :=
  match select_sections_with_lessons db actor (courseId props) with
  | Err error =>
      (mkState (sections st) (currentLesson st) (progress st)
         (expandedSections st) false, Some error)
  | Ok sectionsData =>
      let sortedSections :=
        map (fun section =>
               mkSection (section_row section)
                 (sort_by Lesson.order_index (section_lessons section)))
          sectionsData in
      match sortedSections with
      | first :: _ =>
          match section_lessons first with
          | lesson :: _ =>
              (mkState sortedSections (Some lesson) (progress st)
                 {[ CourseSection.id (section_row first) ]} false, None)
          | [] =>
              (mkState sortedSections (currentLesson st) (progress st)
                 (expandedSections st) false, None)
          end
      | [] =>
          (mkState sortedSections (currentLesson st) (progress st)
             (expandedSections st) false, None)
      end
  end.

Definition loadProgress (props : CoursePlayerProps) (db : DB)
    (actor : option uuid) (st : CoursePlayerState)
    : CoursePlayerState * option PgError :=
  match select_lesson_progress db actor (enrollmentId props) with
  | Err error => (st, Some error)
  | Ok data =>
      let progressMap :=
        fold_left (fun m p => <[LessonProgress.lesson_id p := p]> m) data
          (∅ : gmap string LessonProgress.t) in
      (mkState (sections st) (currentLesson st) progressMap
         (expandedSections st) (loading st), None)
  end.

(** The effect on [courseId, enrollmentId]: both loaders run against the
    freshly initialised component. *)
Definition mount (props : CoursePlayerProps) (db : DB) (actor : option uuid)
    : CoursePlayerState :=
  (loadProgress props db actor
     (loadCourseContent props db actor initialState).1).1.

(** [Object.values(progress)] *)
Definition Object_values (m : gmap string LessonProgress.t)
    : list LessonProgress.t :=
  (map_to_list m).*2.

Definition totalLessons (st : CoursePlayerState) : Z :=
  fold_left (fun sum section => sum + Z.of_nat (length (section_lessons section)))
    (sections st) 0.

Definition completedLessons (st : CoursePlayerState) : Z :=
  Z.of_nat (length (List.filter LessonProgress.is_completed
                      (Object_values (progress st)))).

(** [updateEnrollmentProgress] reads [sections] and [progress] of the
    render whose closure it belongs to. *)
Definition updateEnrollmentProgress (props : CoursePlayerProps)
    (st : CoursePlayerState) (db : DB) (actor : option uuid)
    (now : timestamptz) : DB * option PgError :=
  let percentage :=
    progressPercentage (completedLessons st) (totalLessons st) in
  match update_enrollment db actor percentage
          (if (percentage =? 100)%Z then Some now else None)
          (enrollmentId props) with
  | Err error => (db, Some error)
  | Ok db' => (db', None)
  end.

(** [handleProgressUpdate(lessonId, watchedSeconds, isCompleted)], for
    a whole number of seconds.
    [setProgress] only schedules the next render: the call of
    [updateEnrollmentProgress] that follows still belongs to the render
    that created this handler and is given its state [st]. *)
Definition handleProgressUpdate (props : CoursePlayerProps)
    (st : CoursePlayerState) (db : DB) (actor : option uuid)
    (new_id : uuid) (now now' : timestamptz)
    (lessonId : string) (watchedSeconds : Z) (isCompleted : bool)
    : DB * CoursePlayerState * option PgError :=
  match upsert_lesson_progress db actor new_id (enrollmentId props) lessonId
          watchedSeconds isCompleted now with
  | Err error => (db, st, Some error)
  | Ok (db1, data) =>
      let st' :=
        mkState (sections st) (currentLesson st)
          (<[lessonId := data]> (progress st))
          (expandedSections st) (loading st) in
      let '(db2, error) := updateEnrollmentProgress props st db1 actor now' in
      (db2, st', error)
  end.

(** ** App.tsx *)

Record AppState := mkApp {
  view : string;
  selectedCourseId : option string;
  selectedEnrollmentId : option string }.

Definition handleStartLearning (enrollmentId : string) (st : AppState)
    : AppState :=
  mkApp "player" (selectedCourseId st) (Some enrollmentId).


(** ** CourseDetail.tsx *)

(** [handleEnroll]; [user] is the signed-in user's id, [course] the
    course on screen and [enrollment] the component's state cell. *)
Definition handleEnroll (user : option uuid) (course : option Course.t)
    (enrollment : option Enrollment.t) (db : DB)
    (new_id : uuid) (now : timestamptz)
    : DB * option Enrollment.t * option PgError :=
  match user, course with
  | Some u, Some c =>
      match insert_enrollment db (Some u) new_id now u (Course.id c) with
      | Err error => (db, enrollment, Some error)
      | Ok (db', data) => (db', Some data, None)
      end
  | _, _ => (db, enrollment, None)
  end.

(** ** StudentDashboard.tsx *)

(** [loadCertificates]: the caller's enrollments with [completed_at] not
    null, each paired with its certificate if there is one. *)
Definition loadCertificates (user : uuid) (db : DB)
    : list (Enrollment.t * option Certificate.t) :=
  let enrollmentsData :=
    List.filter
      (fun e => (Enrollment.student_id e =? user)%string &&
                bool_decide (Enrollment.completed_at e ≠ None))
      (visible_enrollments db user) in
  let certsData :=
    List.filter
      (fun c => existsb
                  (fun e => (Enrollment.id e =? Certificate.enrollment_id c)%string)
                  enrollmentsData)
      (List.filter (certificates_select_using db user) (certificates db)) in
  map (fun enrollment =>
         (enrollment,
          List.find
            (fun c => (Certificate.enrollment_id c =? Enrollment.id enrollment)%string)
            (rev certsData)))
    enrollmentsData.

(** [handleGenerateCertificate(certificateDataUrl, enrollmentId)]; the
    state cell [certificates] is reloaded after a successful upsert. *)
Definition handleGenerateCertificate (user : uuid)
    (certificates : list (Enrollment.t * option Certificate.t)) (db : DB)
    (new_id : uuid) (now : timestamptz)
    (certificateDataUrl : string) (enrollmentId : string)
    : DB * list (Enrollment.t * option Certificate.t) * option PgError :=
  match upsert_certificate db (Some user) new_id now enrollmentId
          certificateDataUrl with
  | Err error => (db, certificates, Some error)
  | Ok db' => (db', loadCertificates user db', None)
  end.

(** ** A small platform, used for the worked examples

    One instructor, one student, a published course with one section
    and four lessons, and a second course of the same instructor. *)

Module Ex.
Definition instructor_id : string := "00000000-0000-0000-0000-0000000000a1".
Definition student_id : string := "00000000-0000-0000-0000-0000000000b1".
Definition course_id : string := "00000000-0000-0000-0000-0000000000c1".
Definition other_course_id : string := "00000000-0000-0000-0000-0000000000c2".
Definition section_id : string := "00000000-0000-0000-0000-0000000000d1".
Definition other_section_id : string := "00000000-0000-0000-0000-0000000000d2".
Definition enrollment_id : string := "00000000-0000-0000-0000-0000000000e1".
Definition lesson_id (n : nat) : string :=
  "00000000-0000-0000-0000-00000000010" ++ String (ascii_of_nat (48 + n)) "".
Definition other_lesson_id : string := "00000000-0000-0000-0000-000000000201".
Definition progress_id (n : nat) : string :=
  "00000000-0000-0000-0000-00000000030" ++ String (ascii_of_nat (48 + n)) "".
Definition certificate_id (n : nat) : string :=
  "00000000-0000-0000-0000-00000000040" ++ String (ascii_of_nat (48 + n)) "".

Definition teacher : Profile.t :=
  Profile.mk instructor_id "ada@example.com" "Ada" instructor None None 0.
Definition learner : Profile.t :=
  Profile.mk student_id "bob@example.com" "Bob" student None None 0.

Definition course (published : bool) : Course.t :=
  Course.mk course_id instructor_id "Rocq" "Proofs" None 0 Beginner "cs"
    published 0 0.
Definition other_course : Course.t :=
  Course.mk other_course_id instructor_id "OCaml" "Programs" None 0
    Beginner "cs" true 0 0.

Definition section : CourseSection.t :=
  CourseSection.mk section_id course_id "Basics" 1 0.
Definition other_section : CourseSection.t :=
  CourseSection.mk other_section_id other_course_id "Intro" 1 0.

Definition lesson (n : nat) (preview : bool) : Lesson.t :=
  Lesson.mk (lesson_id n) section_id "Lesson" None "https://v" 60
    (Z.of_nat n) preview 0.
Definition other_lesson : Lesson.t :=
  Lesson.mk other_lesson_id other_section_id "Elsewhere" None "https://v" 60
    1 false 0.

Definition enrollment (completed_at : option Z) (percentage : Z)
    : Enrollment.t :=
  Enrollment.mk enrollment_id student_id course_id 10 completed_at percentage.

Definition watched (n : nat) (is_completed : bool) : LessonProgress.t :=
  LessonProgress.mk (progress_id n) enrollment_id (lesson_id n) 60
    is_completed 20.

(** The catalogue with lessons 1..[n] of the course, the first of them
    a free preview. *)
Definition catalogue (published : bool) (n : nat) (es : list Enrollment.t)
    (ps : list LessonProgress.t) (cs : list Certificate.t) : DB :=
  mkDB [teacher; learner] [course published; other_course]
    [section; other_section]
    (map (fun k => lesson k (k =? 1)%nat) (seq 1 n) ++ [other_lesson])
    es ps cs.

Definition props : CoursePlayerProps := mkProps course_id enrollment_id.

(** The student's database: enrolled in the course of [n] lessons, the
    first [k] of them completed. *)
Definition enrolled_db (n k : nat) (completed_at : option Z) (percentage : Z)
    : DB :=
  catalogue true n [enrollment completed_at percentage]
    (map (fun n => watched n true) (seq 1 k)) [].

(** A player that shows the other course for the same enrollment. *)
Definition mismatched_props : CoursePlayerProps :=
  mkProps other_course_id enrollment_id.
End Ex.

(** ** The specification's notions, for comparison with the code *)

(** "all lessons reachable through the course's sections" *)
Definition course_lessons (db : DB) (course_id : uuid) : list Lesson.t :=
  List.filter
    (fun l => existsb
                (fun cs =>
                   (CourseSection.id cs =? Lesson.section_id l)%string &&
                   (CourseSection.course_id cs =? course_id)%string)
                (course_sections db))
    (lessons db).

(** "the lesson belongs to the enrollment's course" *)
Definition lesson_in_course (db : DB) (lesson_id course_id : uuid) : bool :=
  existsb (fun l => (Lesson.id l =? lesson_id)%string)
    (course_lessons db course_id).

(** The lesson is under course [c]: its section is a section of [c]. *)
Definition lesson_under (db : DB) (l : Lesson.t) (c : Course.t) : Prop :=
  In c (courses db) /\
  exists cs, In cs (course_sections db) /\
             CourseSection.id cs = Lesson.section_id l /\
             CourseSection.course_id cs = Course.id c.

Definition enrolled (db : DB) (uid course_id : uuid) : Prop :=
  exists e, In e (enrollments db) /\ Enrollment.student_id e = uid /\
            Enrollment.course_id e = course_id.

(** "percentage = round(100 * completed_count / total_lesson_count) over
    all lessons reachable through the course's sections ...  If
    total_lesson_count == 0, percentage = 0", a half rounding up, computed
    on the database as it is when asked. *)
Definition spec_percentage (db : DB) (e : Enrollment.t) : Z :=
  let ls := course_lessons db (Enrollment.course_id e) in
  let total_lesson_count := Z.of_nat (length ls) in
  let completed_count :=
    Z.of_nat (length (List.filter
      (fun l => existsb
                  (fun p =>
                     (LessonProgress.enrollment_id p =? Enrollment.id e)%string &&
                     (LessonProgress.lesson_id p =? Lesson.id l)%string &&
                     LessonProgress.is_completed p)
                  (lesson_progress db))
      ls)) in
  if (total_lesson_count =? 0)%Z then 0
  else (200 * completed_count + total_lesson_count) / (2 * total_lesson_count).

(** The caller owns the enrollment [eid]. *)
Definition owns (db : DB) (uid eid : uuid) : Prop :=
  exists e, In e (enrollments db) /\ Enrollment.id e = eid /\
            Enrollment.student_id e = uid.

(** "A Certificate can exist only if its Enrollment.completed_at is
    non-null", as a property of a database. *)
Definition certificates_only_for_completed (db : DB) : Prop :=
  forall c e, In c (certificates db) -> In e (enrollments db) ->
              Enrollment.id e = Certificate.enrollment_id c ->
              Enrollment.completed_at e <> None.

(** "At most one Certificate row exists per enrollment": the UNIQUE
    constraint on [certificates.enrollment_id]. *)
Definition one_certificate_per_enrollment (db : DB) : Prop :=
  NoDup (map Certificate.enrollment_id (certificates db)).

(** ** CoursePlayer.tsx, the side bar *)

(** [toggleSection(sectionId)] *)
Definition toggleSection (sectionId : string) (st : CoursePlayerState)
    : CoursePlayerState :=
  mkState (sections st) (currentLesson st) (progress st)
    (if bool_decide (sectionId ∈ expandedSections st)
     then expandedSections st ∖ {[ sectionId ]}
     else expandedSections st ∪ {[ sectionId ]})
    (loading st).

(** [progress[lesson.id]?.is_completed || false], the check mark of a
    lesson in the side bar. *)
Definition isCompleted (st : CoursePlayerState) (lesson : Lesson.t) : bool :=
  match progress st !! Lesson.id lesson with
  | Some lessonProgress => LessonProgress.is_completed lessonProgress
  | None => false
  end.

(** [progress[currentLesson.id]?.watched_seconds || 0], where the video
    player resumes. *)
Definition initialProgress (st : CoursePlayerState) (lesson : Lesson.t) : Z :=
  match progress st !! Lesson.id lesson with
  | Some lessonProgress => LessonProgress.watched_seconds lessonProgress
  | None => 0
  end.

(** The uniqueness constraint of [lesson_progress], as a property of a
    database. *)
Definition progress_key (p : LessonProgress.t) : string * string :=
  (LessonProgress.enrollment_id p, LessonProgress.lesson_id p).

Definition one_progress_row_per_lesson (db : DB) : Prop :=
  NoDup (map progress_key (lesson_progress db)).

(** ** App.tsx, the views *)

Definition handleNavigate (newView : string) (st : AppState) : AppState :=
  mkApp newView None None.

Definition handleCourseClick (courseId : string) (st : AppState) : AppState :=
  mkApp "course-detail" (Some courseId) (selectedEnrollmentId st).

(** [handleEnroll] of App.tsx, which CourseDetail receives as [onEnroll]. *)
Definition App_handleEnroll (st : AppState) : AppState :=
  mkApp "dashboard" (selectedCourseId st) (selectedEnrollmentId st).

Inductive Screen :=
| Home
| LoginForm
| RegisterForm
| CourseBrowser
| CourseDetail (courseId : string)
| CoursePlayer (props : CoursePlayerProps)
| StudentDashboard
| InstructorDashboard.

(** [x && ...] on a [string | null]: null and the empty string are falsy. *)
Definition truthy (x : option string) : option string :=
  match x with
  | Some s => if (s =? "")%string then None else Some s
  | None => None
  end.

(** What [AppContent] puts under the header: nothing but a spinner while
    the session is loading, then one conditional per view. *)
Definition AppContent (loading : bool) (profile : option Profile.t)
    (st : AppState) : list Screen :=
  if loading then []
  else
    ((if (view st =? "home")%string then [Home] else []) ++
     (if (view st =? "login")%string then [LoginForm] else []) ++
     (if (view st =? "register")%string then [RegisterForm] else []) ++
     (if (view st =? "courses")%string then [CourseBrowser] else []) ++
     (if (view st =? "course-detail")%string then
        match truthy (selectedCourseId st) with
        | Some courseId => [CourseDetail courseId]
        | None => []
        end
      else []) ++
     (if (view st =? "player")%string then
        match truthy (selectedEnrollmentId st) with
        | Some enrollmentId => [CoursePlayer (mkProps "" enrollmentId)]
        | None => []
        end
      else []) ++
     (if (view st =? "dashboard")%string then
        match profile with
        | Some p => match Profile.role p with
                    | student => [StudentDashboard]
                    | instructor => []
                    end
        | None => []
        end
      else []) ++
     (if (view st =? "dashboard")%string then
        match profile with
        | Some p => match Profile.role p with
                    | instructor => [InstructorDashboard]
                    | student => []
                    end
        | None => []
        end
      else []))%list.

(** ** CourseDetail.tsx, the enrollment of the viewer *)

(** What the client library itself reports, besides the server's errors. *)
Inductive ClientError :=
| server_error (e : PgError)
| multiple_rows   (* PGRST116: more than one row for [maybeSingle] *).

(** [checkEnrollment]: the caller's enrollment in the course on screen,
    read with [maybeSingle()]; [user] is the id of the session, which is
    [auth.uid()], and [enrollment] is the state cell. *)
Definition checkEnrollment (user : uuid) (courseId : string)
    (enrollment : option Enrollment.t) (db : DB)
    : option Enrollment.t * option ClientError :=
  match cast_uuid courseId with
  | Ok courseId =>
      match List.filter (same_enrollment_key user courseId)
              (visible_enrollments db user) with
      | [] => (None, None)
      | [data] => (Some data, None)
      | _ => (enrollment, Some multiple_rows)
      end
  | Err error => (enrollment, Some (server_error error))
  end.

(** The embedded [enrollments (id)] of a course row, as [loadCourses],
    [loadCourseDetails] and [loadDashboardData] select it: the
    enrollments of the course that the caller may read. *)
Definition embedded_enrollments (db : DB) (actor : option uuid)
    (course_id : uuid) : list Enrollment.t :=
  List.filter (fun e => (Enrollment.course_id e =? course_id)%string)
    (rows_for actor (visible_enrollments db)).

(** [course.enrollments?.length || 0] *)
Definition enrollmentCount (db : DB) (actor : option uuid) (course : Course.t)
    : Z :=
  Z.of_nat (length (embedded_enrollments db actor (Course.id course))).

(** The uniqueness constraint of [enrollments] on (student_id, course_id). *)
Definition enrollment_key (e : Enrollment.t) : string * string :=
  (Enrollment.student_id e, Enrollment.course_id e).

Definition one_enrollment_per_course (db : DB) : Prop :=
  NoDup (map enrollment_key (enrollments db)).

(** ** StudentDashboard.tsx, the lists *)

Definition is_set (completed_at : option timestamptz) : bool :=
  match completed_at with Some _ => true | None => false end.

(** [loadEnrollments]: the caller's enrollments, newest first. *)
Definition loadEnrollments (user : uuid) (db : DB) : list Enrollment.t :=
  sort_by (fun e => - Enrollment.enrolled_at e)
    (List.filter (fun e => (Enrollment.student_id e =? user)%string)
       (visible_enrollments db user)).

(** [enrollments.filter(e => !e.completed_at)] *)
Definition inProgressCourses (enrollments : list Enrollment.t)
    : list Enrollment.t :=
  List.filter (fun e => negb (is_set (Enrollment.completed_at e))) enrollments.

(** [enrollments.filter(e => e.completed_at)] *)
Definition completedCourses (enrollments : list Enrollment.t)
    : list Enrollment.t :=
  List.filter (fun e => is_set (Enrollment.completed_at e)) enrollments.

(** ** InstructorDashboard.tsx *)

Module Review.
Record t := mk {
  id : uuid;
  course_id : uuid;
  student_id : uuid;
  rating : Z;
  comment : option string;
  created_at : timestamptz }.
End Review.

(** "Anyone can view reviews": [USING (true)]. *)
Definition Anyone_can_view_reviews (r : Review.t) : bool := true.

Definition js_add (x y : spec_float) : spec_float := SFadd prec emax x y.

Record CourseStats := mkStats {
  stats_id : string;
  stats_title : string;
  stats_enrollments : Z;
  revenue : spec_float;
  avgRating : spec_float;
  completionRate : spec_float }.

(** [loadDashboardData]: one [CourseStats] per course of the caller, the
    total number of enrollments and the total revenue.  [reviews] is the
    reviews table; a price, a [decimal(10,2)], arrives as the double
    nearest to it. *)
Definition loadDashboardData (user : uuid) (db : DB) (reviews : list Review.t)
    : list CourseStats * Z * spec_float :=
  let courses :=
    List.filter (fun c => (Course.instructor_id c =? user)%string)
      (visible_courses db user) in
  let courseStats :=
    map (fun course =>
           let enrollments :=
             embedded_enrollments db (Some user) (Course.id course) in
           let reviews :=
             List.filter
               (fun r => (Review.course_id r =? Course.id course)%string)
               (List.filter Anyone_can_view_reviews reviews) in
           let enrollmentCount := Z.of_nat (length enrollments) in
           let revenue :=
             js_mul (Number enrollmentCount)
               (js_div (Number (Course.price course)) (Number 100)) in
           let avgRating :=
             if (0 <? Z.of_nat (length reviews))%Z
             then js_div
                    (fold_left (fun sum r => js_add sum (Number (Review.rating r)))
                       reviews (Number 0))
                    (Number (Z.of_nat (length reviews)))
             else Number 0 in
           let completedCount :=
             Z.of_nat (length (List.filter
                         (fun e => is_set (Enrollment.completed_at e))
                         enrollments)) in
           let completionRate :=
             if (0 <? enrollmentCount)%Z
             then js_mul (js_div (Number completedCount) (Number enrollmentCount))
                    (Number 100)
             else Number 0 in
           mkStats (Course.id course) (Course.title course) enrollmentCount
             revenue avgRating completionRate)
      courses in
  (courseStats,
   fold_left (fun totalEnroll s => totalEnroll + stats_enrollments s)
     courseStats 0,
   fold_left (fun totalRev s => js_add totalRev (revenue s))
     courseStats (Number 0)).

(** ** CourseBrowser.tsx *)

(** [s.includes(sub)] *)
Fixpoint includes (s sub : string) : bool :=
  String.prefix sub s ||
  match s with
  | EmptyString => false
  | String _ rest => includes rest sub
  end.

Definition level_text (l : Level) : string :=
  match l with
  | Beginner => "Beginner"
  | Intermediate => "Intermediate"
  | Advanced => "Advanced"
  end.

(** [loadCourses]: the published courses, newest first. *)
Definition loadCourses (db : DB) (actor : option uuid) : list Course.t :=
  sort_by (fun c => - Course.created_at c)
    (List.filter Course.is_published (rows_for actor (visible_courses db))).

(** [[...new Set(data.map(c => c.category))]]: every category once, in
    the order of its first course. *)
Definition uniqueCategories (data : list Course.t) : list string :=
  fold_left (fun seen category =>
               if existsb (String.eqb category) seen then seen
               else (seen ++ [category])%list)
    (map Course.category data) [].

Section Browser.
Variable toLowerCase : string -> string.

(** [filteredCourses], for the search box and the two selectors. *)
Definition filteredCourses (courses : list Course.t)
    (searchQuery selectedCategory selectedLevel : string) : list Course.t :=
  List.filter
    (fun course =>
       let matchesSearch :=
         includes (toLowerCase (Course.title course)) (toLowerCase searchQuery) ||
         includes (toLowerCase (Course.description course))
           (toLowerCase searchQuery) in
       let matchesCategory :=
         (selectedCategory =? "all")%string ||
         (Course.category course =? selectedCategory)%string in
       let matchesLevel :=
         (selectedLevel =? "all")%string ||
         (level_text (Course.level course) =? selectedLevel)%string in
       matchesSearch && matchesCategory && matchesLevel)
    courses.
End Browser.

(** * Properties *)

(** ** Basic facts about statements and policies *)

Lemma bind_require {A} (b : bool) (e : PgError) (k : unit -> result A) :
  (require b e ≫= k) = if b then k tt else Err e.
Proof. by destruct b. Qed.

Lemma bind_Ok {A B} (a : A) (k : A -> result B) : (Ok a ≫= k) = k a.
Proof. done. Qed.

Lemma bind_cast {A} (text : string) (k : string -> result A) :
  (cast_uuid text ≫= k) =
  match uuid_in text with
  | Some u => k u
  | None => Err invalid_text_representation
  end.
Proof. unfold cast_uuid. by destruct (uuid_in text). Qed.

Lemma bind_integer {A} (n : Z) (k : Z -> result A) :
  (cast_integer n ≫= k) =
  if int4 n then k n
  else Err (if (Z.abs n <? 10 ^ 21)%Z then numeric_value_out_of_range
            else invalid_text_representation).
Proof. unfold cast_integer. destruct (int4 n); [done|]. by destruct (_ <? _)%Z. Qed.

Lemma cast_uuid_Ok (text u : string) :
  cast_uuid text = Ok u <-> uuid_in text = Some u.
Proof.
  unfold cast_uuid. destruct (uuid_in text); split; congruence.
Qed.

(** A uuid as the server prints it denotes itself. *)
Lemma is_uuid_in (s : string) : is_uuid s = true <-> uuid_in s = Some s.
Proof.
  unfold is_uuid. destruct (uuid_in s) as [u|]; [|by split].
  rewrite String.eqb_eq. split; congruence.
Qed.

(** ** The cast to uuid gives a uuid as the server prints it *)

Lemma tolower_hex c : isxdigit c = true -> lower_hex (tolower c) = true.
Proof.
  revert c.
  assert (forallb (fun n => implb (isxdigit (ascii_of_nat n))
                              (lower_hex (tolower (ascii_of_nat n))))
            (seq 0 256) = true) as H by (vm_compute; reflexivity).
  intros c Hc. rewrite forallb_forall in H.
  specialize (H (nat_of_ascii c)).
  rewrite ascii_nat_embedding, Hc in H. apply H.
  apply in_seq. pose proof (nat_ascii_bounded c). lia.
Qed.

Lemma lower_hex_facts c :
  lower_hex c = true ->
  isxdigit c = true /\ tolower c = c /\ Ascii.eqb c "-" = false /\
  Ascii.eqb c "{" = false.
Proof.
  revert c.
  assert (forallb (fun n =>
            let c := ascii_of_nat n in
            implb (lower_hex c)
              (isxdigit c && Ascii.eqb (tolower c) c &&
               negb (Ascii.eqb c "-") && negb (Ascii.eqb c "{")))
            (seq 0 256) = true) as H by (vm_compute; reflexivity).
  intros c Hc. rewrite forallb_forall in H.
  specialize (H (nat_of_ascii c)).
  cbv zeta in H. rewrite ascii_nat_embedding, Hc in H.
  assert (In (nat_of_ascii c) (seq 0 256)) as Hin
    by (apply in_seq; pose proof (nat_ascii_bounded c); lia).
  specialize (H Hin). simpl in H.
  apply andb_true_iff in H as [[[H1 H2]%andb_true_iff H3]%andb_true_iff H4].
  apply Ascii.eqb_eq in H2. apply negb_true_iff in H3, H4. done.
Qed.

Lemma uuid_bytes_digits left i src digits tail :
  uuid_bytes left i src = Some (digits, tail) ->
  String.length digits = (2 * left)%nat /\ all_lower_hex digits = true.
Proof.
  revert i src digits tail.
  induction left as [|left IH]; intros i src digits tail.
  - simpl. by intros [= <- <-].
  - simpl. destruct src as [|a [|b rest]]; try done.
    destruct (isxdigit a) eqn:Ha; [|done].
    destruct (isxdigit b) eqn:Hb; [|done]. simpl.
    destruct (uuid_bytes left (S i) _) as [[d t]|] eqn:E; [|done].
    intros [= <- <-]. apply IH in E as [E1 E2]. simpl.
    rewrite E1, E2, !tolower_hex by done. split; [lia|done].
Qed.

Lemma uuid_in_unbraced a rest :
  Ascii.eqb a "{" = false ->
  uuid_in (String a rest) =
  match uuid_bytes 16 0 (String a rest) with
  | Some (digits, tail) =>
      if (tail =? "")%string then Some (uuid_out digits) else None
  | None => None
  end.
Proof.
  intros Ha. unfold uuid_in.
  destruct a as [[] [] [] [] [] [] [] []]; try reflexivity.
  discriminate Ha.
Qed.

Lemma uuid_bytes_next left i a b c rest :
  lower_hex a = true -> lower_hex b = true ->
  Ascii.eqb c "-" && Nat.odd i && (i <? 15)%nat = false ->
  uuid_bytes (S left) i (String a (String b (String c rest))) =
  match uuid_bytes left (S i) (String c rest) with
  | Some (digits, tail) => Some (String a (String b digits), tail)
  | None => None
  end.
Proof.
  intros (Ha & Ta & _)%lower_hex_facts (Hb & Tb & _)%lower_hex_facts Hc.
  cbn [uuid_bytes]. by rewrite Ha, Hb, Hc, Ta, Tb.
Qed.

Lemma uuid_bytes_hyphen left i a b rest :
  lower_hex a = true -> lower_hex b = true ->
  Nat.odd i && (i <? 15)%nat = true ->
  uuid_bytes (S left) i (String a (String b (String "-" rest))) =
  match uuid_bytes left (S i) rest with
  | Some (digits, tail) => Some (String a (String b digits), tail)
  | None => None
  end.
Proof.
  intros (Ha & Ta & _)%lower_hex_facts (Hb & Tb & _)%lower_hex_facts Hi.
  cbn [uuid_bytes]. rewrite Ha, Hb, Ta, Tb. cbn [andb].
  change (Ascii.eqb "-" "-") with true. cbn [andb]. by rewrite Hi.
Qed.

Lemma uuid_bytes_last i a b :
  lower_hex a = true -> lower_hex b = true ->
  uuid_bytes 1 i (String a (String b EmptyString)) =
  Some (String a (String b EmptyString), EmptyString).
Proof.
  intros (Ha & Ta & _)%lower_hex_facts (Hb & Tb & _)%lower_hex_facts.
  cbn [uuid_bytes]. by rewrite Ha, Hb, Ta, Tb.
Qed.

(** What the server prints, it reads back as the same value. *)
Lemma uuid_out_in digits :
  String.length digits = 32%nat -> all_lower_hex digits = true ->
  uuid_in (uuid_out digits) = Some (uuid_out digits).
Proof.
  intros Hlen Hall.
  do 32 (destruct digits as [|? digits]; [done|]).
  destruct digits; [|done]. clear Hlen.
  simpl in Hall.
  repeat match type of Hall with
         | (_ && _) = true => apply andb_true_iff in Hall as [? Hall]
         end.
  clear Hall.
  cbv [uuid_out substring String.append].
  rewrite uuid_in_unbraced by (by apply lower_hex_facts).
  repeat first
    [ rewrite uuid_bytes_last by done
    | rewrite uuid_bytes_hyphen by done
    | rewrite uuid_bytes_next
        by (first
              [ assumption
              | match goal with
                | |- Ascii.eqb ?c _ && _ && _ = false =>
                    by rewrite (proj1 (proj2 (proj2
                                  (lower_hex_facts c ltac:(assumption)))))
                end ]) ].
  done.
Qed.

(** The value of a cast is a uuid as the server prints it: whatever the
    spelling of the text, what is stored and compared is in that form. *)
Lemma uuid_in_is_uuid text u : uuid_in text = Some u -> is_uuid u = true.
Proof.
  unfold uuid_in at 1.
  destruct (match text with
            | String "{"%char rest => (true, rest)
            | _ => (false, text)
            end) as [braces src].
  destruct (uuid_bytes 16 0 src) as [[digits tail]|] eqn:E; [|done].
  destruct (_ =? _)%string; [|done]. intros [= <-].
  apply uuid_bytes_digits in E as [E1 E2].
  unfold is_uuid. rewrite (uuid_out_in digits E1 E2). apply String.eqb_refl.
Qed.

(** The spellings of one value that the cast accepts, and texts it
    refuses. *)
Example uuid_in_spellings :
  uuid_in "00000000-0000-0000-0000-0000000000E1" = Some Ex.enrollment_id /\
  uuid_in "000000000000000000000000000000e1" = Some Ex.enrollment_id /\
  uuid_in "{00000000-0000-0000-0000-0000000000e1}" = Some Ex.enrollment_id /\
  uuid_in "0000-0000-0000-0000-0000-0000-0000-00e1" = Some Ex.enrollment_id /\
  uuid_in Ex.enrollment_id = Some Ex.enrollment_id /\
  uuid_in "" = None /\
  uuid_in "00000000-0000-0000-0000-0000000000e1 " = None /\
  uuid_in "00000000--0000-0000-0000-0000000000e1" = None /\
  uuid_in "{00000000-0000-0000-0000-0000000000e1" = None /\
  uuid_in "00000000-0000-0000-0000-0000000000g1" = None /\
  is_uuid Ex.enrollment_id = true /\
  is_uuid "00000000-0000-0000-0000-0000000000E1" = false.
Proof. repeat split; reflexivity. Qed.

(** The next check of a statement: it passes, or the statement has
    failed and the goal (about a statement that succeeded) is void. *)
Ltac passes :=
  rewrite bind_require;
  match goal with
  | |- context [if ?b then _ else Err _] => destruct b; [|done]
  end.

Ltac passed H :=
  rewrite bind_require in H;
  match type of H with
  | (if ?b then _ else Err _) = _ => destruct b; [|discriminate H]
  end.

(** The next cast of a statement, in the same way; [u] and [E] name the
    value and the equation of the cast. *)
Ltac casts u E :=
  rewrite bind_cast;
  match goal with
  | |- context [match uuid_in ?t with _ => _ end] =>
      destruct (uuid_in t) as [u|] eqn:E; [|done]
  end.

Ltac casted H u E :=
  rewrite bind_cast in H;
  match type of H with
  | match uuid_in ?t with _ => _ end = _ =>
      destruct (uuid_in t) as [u|] eqn:E; [|discriminate H]
  end.

Lemma eqb_true (a b : string) : (a =? b)%string = true <-> a = b.
Proof. apply String.eqb_eq. Qed.

Lemma own_row_visible db uid e :
  In e (enrollments db) -> Enrollment.student_id e = uid ->
  In e (visible_enrollments db uid).
Proof.
  intros Hin Hs. apply filter_In. split; [done|].
  unfold enrollments_select_using, Students_can_view_own_enrollments.
  rewrite Hs, String.eqb_refl. done.
Qed.

(** The sub-select shared by the lesson_progress and certificates
    policies: an enrollment with this id that belongs to the caller. *)
Lemma owns_iff db uid eid :
  existsb (fun e => (Enrollment.id e =? eid)%string &&
                    (Enrollment.student_id e =? uid)%string)
    (visible_enrollments db uid) = true <-> owns db uid eid.
Proof.
  rewrite existsb_exists. split.
  - intros (e & Hin & He). apply andb_true_iff in He as [H1 H2].
    apply filter_In in Hin as [Hin _].
    exists e. by rewrite <- !eqb_true.
  - intros (e & Hin & H1 & H2). exists e. split.
    + by apply own_row_visible.
    + by rewrite H1, H2, !String.eqb_refl.
Qed.

Lemma owns_fk db uid eid :
  owns db uid eid ->
  existsb (fun e => (Enrollment.id e =? eid)%string) (enrollments db) = true.
Proof.
  intros (e & Hin & H1 & _). apply existsb_exists. exists e.
  by rewrite H1, String.eqb_refl.
Qed.

Lemma find_none_iff {A} (f : A -> bool) (l : list A) :
  List.find f l = None <-> forall x, In x l -> f x = false.
Proof.
  split; [apply find_none|].
  induction l as [|y l IH]; [done|]. intros H. simpl.
  rewrite (H y) by (by left). apply IH. intros x Hx. apply H. by right.
Qed.

Lemma existsb_false_iff {A} (f : A -> bool) (l : list A) :
  existsb f l = false <-> forall x, In x l -> f x = false.
Proof.
  induction l as [|y l IH]; simpl; [done|].
  rewrite orb_false_iff, IH. split.
  - intros [H1 H2] x [<-|Hx]; auto.
  - intros H. split; [apply H; by left|]. intros x Hx. apply H. by right.
Qed.

(** ** Certificates: who may create one *)

Lemma upsert_certificate_owner db actor new_id now text url :
  is_ok (upsert_certificate db actor new_id now text url) = true ->
  exists uid eid, actor = Some uid /\ uuid_in text = Some eid /\
                  owns db uid eid.
Proof.
  unfold upsert_certificate. casts eid E.
  destruct actor as [uid|]; [|done]. simpl. rewrite bind_require.
  destruct (certificates_insert_check db uid _) eqn:Hpol; [|done].
  intros _. exists uid, eid. split; [done|]. split; [done|].
  by apply owns_iff.
Qed.

Lemma upsert_certificate_first db uid new_id now text eid url :
  uuid_in text = Some eid ->
  owns db uid eid ->
  (forall c, In c (certificates db) -> Certificate.enrollment_id c <> eid) ->
  (forall c, In c (certificates db) -> Certificate.id c <> new_id) ->
  upsert_certificate db (Some uid) new_id now text url =
  Ok (set_certificates db
        (certificates db ++ [Certificate.mk new_id eid (Some url) now])).
Proof.
  intros Hid Hown Hnone Hfresh. unfold upsert_certificate.
  rewrite bind_cast, Hid. simpl. rewrite bind_require.
  assert (certificates_insert_check db uid
            (Certificate.mk new_id eid (Some url) now) = true) as ->
    by (by apply owns_iff).
  assert (List.find
            (fun c => (Certificate.enrollment_id c =? eid)%string)
            (certificates db) = None) as ->.
  { apply find_none_iff. intros c Hc. apply String.eqb_neq. by apply Hnone. }
  rewrite bind_require.
  assert (existsb (fun c => (Certificate.id c =? new_id)%string)
            (certificates db) = false) as ->.
  { apply existsb_false_iff. intros c Hc. apply String.eqb_neq. by apply Hfresh. }
  simpl. rewrite bind_require, (owns_fk db uid eid Hown). done.
Qed.

(** The dashboard offers certificates for the caller's completed
    enrollments only. *)
Lemma loadCertificates_completed user db e c :
  In (e, c) (loadCertificates user db) ->
  In e (enrollments db) /\ Enrollment.student_id e = user /\
  Enrollment.completed_at e <> None.
Proof.
  unfold loadCertificates.
  intros (e0 & [= <- _] & [[Hin _]%filter_In H]%filter_In)%in_map_iff.
  apply andb_true_iff in H as [H1%eqb_true H2%bool_decide_eq_true].
  done.
Qed.

(** C2, as the code has it.  For an enrollment that has no certificate
    yet, the upsert of [handleGenerateCertificate] is accepted exactly
    when the caller is signed in, the text sent as [enrollment_id] is one
    the server reads as a uuid (in whatever spelling), and the caller is
    the student of the enrollment with that id; it then adds the row.
    [completed_at] plays no part in the decision of the database; it is
    only the dashboard that lists nothing but the caller's completed
    enrollments. *)
Theorem certificate_creation_needs_only_ownership
    db actor new_id now text url :
  (forall c, In c (certificates db) ->
             uuid_in text <> Some (Certificate.enrollment_id c)) ->
  (forall c, In c (certificates db) -> Certificate.id c <> new_id) ->
  (is_ok (upsert_certificate db actor new_id now text url) = true <->
   exists uid eid, actor = Some uid /\ uuid_in text = Some eid /\
                   owns db uid eid) /\
  (forall uid eid, actor = Some uid -> uuid_in text = Some eid ->
     owns db uid eid ->
     upsert_certificate db actor new_id now text url =
     Ok (set_certificates db
           (certificates db ++ [Certificate.mk new_id eid (Some url) now]))) /\
  (forall user e c, In (e, c) (loadCertificates user db) ->
     Enrollment.student_id e = user /\ Enrollment.completed_at e <> None).
Proof.
  intros Hnone Hfresh.
  assert (forall uid eid, uuid_in text = Some eid -> owns db uid eid ->
            upsert_certificate db (Some uid) new_id now text url =
            Ok (set_certificates db
                  (certificates db ++
                   [Certificate.mk new_id eid (Some url) now]))) as Hfirst.
  { intros uid eid Hid Hown. apply upsert_certificate_first; try done.
    intros c Hc E. apply (Hnone c Hc). by rewrite E. }
  split; [split|split].
  - apply upsert_certificate_owner.
  - intros (uid & eid & -> & Hid & Hown). by rewrite (Hfirst uid eid).
  - intros uid eid -> Hid Hown. by apply Hfirst.
  - intros user e c H. by apply loadCertificates_completed in H as (_ & ? & ?).
Qed.

Lemma certificate_creation_needs_only_ownership_witness :
  let db := Ex.catalogue true 4 [Ex.enrollment None 50] [] [] in
  upsert_certificate db (Some Ex.student_id) (Ex.certificate_id 1) 99
    Ex.enrollment_id "data:image/png;base64,AAAA" =
  Ok (set_certificates db
        [Certificate.mk (Ex.certificate_id 1) Ex.enrollment_id
           (Some "data:image/png;base64,AAAA") 99]).
Proof.
  intros db.
  refine (proj1 (proj2 (certificate_creation_needs_only_ownership db
            (Some Ex.student_id) (Ex.certificate_id 1) 99 Ex.enrollment_id
            "data:image/png;base64,AAAA" _ _)) Ex.student_id
            Ex.enrollment_id _ _ _).
  - intros c [].
  - intros c [].
  - reflexivity.
  - reflexivity.
  - exists (Ex.enrollment None 50). vm_compute. auto.
Defined.

(** C2, as the specification states it, fails: the student of an
    enrollment that is not completed is allowed to create its
    certificate, after which a certificate row references an enrollment
    whose [completed_at] is null. *)
Lemma certificate_for_uncompleted_enrollment :
  let db := Ex.catalogue true 4 [Ex.enrollment None 50] [] [] in
  let cert := Certificate.mk (Ex.certificate_id 1) Ex.enrollment_id
                (Some "data:image/png;base64,AAAA") 99 in
  certificates_only_for_completed db /\
  System_can_create_certificates db Ex.student_id cert = true /\
  handleGenerateCertificate Ex.student_id [] db (Ex.certificate_id 1) 99
    "data:image/png;base64,AAAA" Ex.enrollment_id =
  (set_certificates db [cert], [], None) /\
  ~ certificates_only_for_completed (set_certificates db [cert]).
Proof.
  intros db cert. split; [|split; [|split]].
  - intros c e [].
  - reflexivity.
  - reflexivity.
  - intros H. apply (H cert (Ex.enrollment None 50)); simpl; auto.
Qed.

(** ** Lessons: who may read one *)

Lemma visible_course_readable db uid c :
  In c (visible_courses db uid) ->
  In c (courses db) /\
  (Course.is_published c = true \/ Course.instructor_id c = uid).
Proof.
  intros [Hin H]%filter_In. split; [done|].
  apply orb_true_iff in H as [H|H]; [by left|right]. by apply eqb_true.
Qed.

(** C3, as the code has it.  A caller who is not the instructor of, and
    has no enrollment in, the unpublished course a lesson is under
    cannot read that lesson, whatever the lesson's [is_preview] flag
    is: the SELECT policies of [lessons] never look at it. *)
Theorem unpublished_lessons_hidden_preview_or_not db uid l :
  (forall c, lesson_under db l c ->
     Course.is_published c = false /\ Course.instructor_id c <> uid /\
     ~ enrolled db uid (Course.id c)) ->
  lessons_select_using db uid l = false /\ ~ In l (visible_lessons db uid).
Proof.
  intros Hunder.
  assert (forall cs c, In cs (visible_course_sections db uid) ->
            In c (visible_courses db uid) ->
            ((CourseSection.id cs =? Lesson.section_id l)%string &&
             (Course.id c =? CourseSection.course_id cs)%string) = false)
    as Hno.
  { intros cs c [Hcs _]%filter_In Hc.
    destruct (visible_course_readable _ _ _ Hc) as [Hin Hread].
    destruct (_ && _) eqn:E; [|done]. exfalso.
    apply andb_true_iff in E as [E1%eqb_true E2%eqb_true].
    destruct (Hunder c) as (Hpub & Hins & _).
    { split; [done|]. by exists cs. }
    destruct Hread as [Hread|Hread]; congruence. }
  assert (lessons_select_using db uid l = false) as Hdeny.
  { unfold lessons_select_using. apply orb_false_iff. split.
    - apply existsb_false_iff. intros cs Hcs.
      destruct (_ =? _)%string eqn:E1; [simpl|done].
      apply existsb_false_iff. intros c Hc.
      specialize (Hno cs c Hcs Hc). rewrite E1 in Hno. simpl in Hno.
      by rewrite Hno.
    - apply existsb_false_iff. intros cs Hcs.
      destruct (_ =? _)%string eqn:E1; [simpl|done].
      apply existsb_false_iff. intros c Hc.
      specialize (Hno cs c Hcs Hc). rewrite E1 in Hno. simpl in Hno.
      by rewrite Hno. }
  split; [done|]. intros [_ H]%filter_In. congruence.
Qed.

Lemma unpublished_lessons_hidden_preview_or_not_witness :
  Lesson.is_preview (Ex.lesson 1 true) = true /\
  lessons_select_using (Ex.catalogue false 4 [] [] []) Ex.student_id
    (Ex.lesson 1 true) = false /\
  ~ In (Ex.lesson 1 true)
      (visible_lessons (Ex.catalogue false 4 [] [] []) Ex.student_id).
Proof.
  split; [reflexivity|].
  apply (unpublished_lessons_hidden_preview_or_not
           (Ex.catalogue false 4 [] [] []) Ex.student_id (Ex.lesson 1 true)).
  intros c [Hc (cs & Hcs & H1 & H2)].
  destruct Hc as [<-|[<-|[]]].
  - split; [reflexivity|]. split; [discriminate|]. intros (e & [] & _).
  - destruct Hcs as [<-|[<-|[]]]; discriminate.
Defined.

(** C3, as the specification states it, fails in its second half: the
    preview lesson of an unpublished course is in the table, and a
    student without an enrollment is refused it like any other lesson. *)
Lemma preview_lesson_of_unpublished_course_is_denied :
  In (Ex.lesson 1 true) (lessons (Ex.catalogue false 4 [] [] [])) /\
  Lesson.is_preview (Ex.lesson 1 true) = true /\
  Course.is_published (Ex.course false) = false /\
  lessons_select_using (Ex.catalogue false 4 [] [] []) Ex.student_id
    (Ex.lesson 1 true) = false /\
  visible_lessons (Ex.catalogue false 4 [] [] []) Ex.student_id =
  [Ex.other_lesson].
Proof. repeat split; vm_compute; auto. Qed.

(** The third disjunct of the lessons policy sits inside a sub-select
    on [course_sections] and [courses], and neither shows an unpublished
    course to its students: enrolled or not, a student reads the lessons
    of published courses only.  The instructor reads all of them. *)
Example lessons_of_unpublished_course :
  visible_lessons (Ex.catalogue false 4 [Ex.enrollment None 0] [] [])
    Ex.student_id = [Ex.other_lesson] /\
  length (visible_lessons (Ex.catalogue false 4 [Ex.enrollment None 0] [] [])
            Ex.instructor_id) = 5%nat /\
  length (visible_lessons (Ex.catalogue true 4 [] [] []) Ex.student_id)
  = 5%nat.
Proof. repeat split; vm_compute; reflexivity. Qed.

(** ** Lesson progress: what the upsert does *)

Lemma manage_progress_iff db uid p :
  Students_can_manage_own_progress db uid p = true <->
  owns db uid (LessonProgress.enrollment_id p).
Proof. apply owns_iff. Qed.

Lemma progress_policies_of_owner db uid p :
  owns db uid (LessonProgress.enrollment_id p) ->
  lesson_progress_insert_check db uid p = true /\
  lesson_progress_update_using db uid p = true /\
  lesson_progress_update_check db uid p = true /\
  lesson_progress_select_using db uid p = true.
Proof.
  intros H%manage_progress_iff.
  unfold lesson_progress_insert_check, lesson_progress_update_using,
    lesson_progress_update_check, lesson_progress_select_using.
  rewrite H, orb_true_r. done.
Qed.

Lemma same_progress_key_true eid lid p :
  same_progress_key eid lid p = true <->
  LessonProgress.enrollment_id p = eid /\ LessonProgress.lesson_id p = lid.
Proof. unfold same_progress_key. by rewrite andb_true_iff, !eqb_true. Qed.

(** The conflicting row exists: every supplied column is overwritten. *)
Lemma upsert_lesson_progress_conflict
    db uid new_id etext ltext eid lid w c now old :
  uuid_in etext = Some eid -> uuid_in ltext = Some lid -> int4 w = true ->
  owns db uid eid ->
  List.find (same_progress_key eid lid) (lesson_progress db) = Some old ->
  upsert_lesson_progress db (Some uid) new_id etext ltext w c now =
  Ok (set_lesson_progress db
        (map (fun p => if same_progress_key eid lid p
                       then LessonProgress.mk (LessonProgress.id old) eid lid w c now
                       else p)
           (lesson_progress db)),
      LessonProgress.mk (LessonProgress.id old) eid lid w c now).
Proof.
  intros He Hl Hw Hown Hfind. unfold upsert_lesson_progress.
  rewrite bind_cast, He, bind_cast, Hl, bind_integer, Hw.
  simpl. rewrite bind_require.
  destruct (progress_policies_of_owner db uid
              (LessonProgress.mk new_id eid lid w c now) Hown) as (-> & _).
  rewrite Hfind, bind_require.
  apply find_some in Hfind as [_ [Hk _]%same_progress_key_true].
  destruct (progress_policies_of_owner db uid old) as (_ & -> & _ & ->);
    [by rewrite Hk|]. simpl. rewrite bind_require.
  destruct (progress_policies_of_owner db uid
              (LessonProgress.mk (LessonProgress.id old) eid lid w c now) Hown)
    as (_ & _ & -> & ->).
  done.
Qed.

(** No row for the key yet: the proposed row is appended, provided the
    enrollment is the caller's and the lesson exists. *)
Lemma upsert_lesson_progress_fresh db uid new_id etext ltext eid lid w c now :
  uuid_in etext = Some eid -> uuid_in ltext = Some lid -> int4 w = true ->
  owns db uid eid ->
  (exists l, In l (lessons db) /\ Lesson.id l = lid) ->
  (forall p, In p (lesson_progress db) -> same_progress_key eid lid p = false) ->
  (forall p, In p (lesson_progress db) -> LessonProgress.id p <> new_id) ->
  upsert_lesson_progress db (Some uid) new_id etext ltext w c now =
  Ok (set_lesson_progress db
        (lesson_progress db ++ [LessonProgress.mk new_id eid lid w c now]),
      LessonProgress.mk new_id eid lid w c now).
Proof.
  intros He Hl Hw Hown (l & Hin & Hlid) Hnone Hfresh.
  unfold upsert_lesson_progress.
  rewrite bind_cast, He, bind_cast, Hl, bind_integer, Hw.
  simpl. rewrite bind_require.
  destruct (progress_policies_of_owner db uid
              (LessonProgress.mk new_id eid lid w c now) Hown) as (-> & _ & _ & ->).
  apply find_none_iff in Hnone. rewrite Hnone, bind_require.
  assert (existsb (fun p => (LessonProgress.id p =? new_id)%string)
            (lesson_progress db) = false) as ->.
  { apply existsb_false_iff. intros p Hp. apply String.eqb_neq. by apply Hfresh. }
  simpl. rewrite bind_require, (owns_fk db uid eid Hown), bind_require.
  assert (existsb (fun l => (Lesson.id l =? lid)%string) (lessons db) = true) as ->.
  { apply existsb_exists. exists l. by rewrite Hlid, String.eqb_refl. }
  done.
Qed.

(** A position outside the range of the [integer] column: the request
    is refused when its body is converted, before any row is looked at. *)
Lemma upsert_lesson_progress_out_of_range
    db actor new_id etext ltext eid lid w c now :
  uuid_in etext = Some eid -> uuid_in ltext = Some lid -> int4 w = false ->
  upsert_lesson_progress db actor new_id etext ltext w c now =
  Err (if (Z.abs w <? 10 ^ 21)%Z then numeric_value_out_of_range
       else invalid_text_representation).
Proof.
  intros He Hl Hw. unfold upsert_lesson_progress.
  by rewrite bind_cast, He, bind_cast, Hl, bind_integer, Hw.
Qed.

(** The errors the upsert can end in. *)
Lemma upsert_lesson_progress_errors
    db actor new_id etext ltext w c now error :
  upsert_lesson_progress db actor new_id etext ltext w c now = Err error ->
  In error [invalid_text_representation; numeric_value_out_of_range;
            insufficient_privilege "lesson_progress";
            unique_violation "lesson_progress_pkey";
            foreign_key_violation "lesson_progress_enrollment_id_fkey";
            foreign_key_violation "lesson_progress_lesson_id_fkey"].
Proof.
  unfold upsert_lesson_progress. rewrite bind_cast.
  destruct (uuid_in etext) as [eid|]; [|intros [= <-]; simpl; auto].
  rewrite bind_cast.
  destruct (uuid_in ltext) as [lid|]; [|intros [= <-]; simpl; auto].
  rewrite bind_integer.
  destruct (int4 w);
    [|destruct (_ <? _)%Z; intros [= <-]; simpl; auto].
  destruct actor as [uid|]; [|intros [= <-]; simpl; auto].
  cbn [authenticated]. rewrite bind_Ok, bind_require.
  destruct (lesson_progress_insert_check _ _ _); [|intros [= <-]; simpl; auto].
  destruct (List.find _ _) as [old|].
  - rewrite bind_require.
    destruct (_ && _); [|intros [= <-]; simpl; auto].
    rewrite bind_require.
    destruct (_ && _); [done|intros [= <-]; simpl; auto].
  - rewrite bind_require.
    destruct (negb _); [|intros [= <-]; simpl; auto].
    rewrite bind_require.
    destruct (existsb _ (enrollments db)); [|intros [= <-]; simpl; auto 10].
    rewrite bind_require.
    destruct (existsb _ (lessons db)); [|intros [= <-]; simpl; auto 10].
    rewrite bind_require.
    destruct (lesson_progress_select_using _ _ _);
      [done|intros [= <-]; simpl; auto].
Qed.

(** The enrollment update leaves the other tables alone. *)
Lemma update_enrollment_frame db actor p c id db' :
  update_enrollment db actor p c id = Ok db' ->
  lesson_progress db' = lesson_progress db /\
  certificates db' = certificates db /\
  lessons db' = lessons db /\
  length (enrollments db') = length (enrollments db).
Proof.
  unfold update_enrollment. casts id' E.
  destruct actor as [uid|]; [|by intros [= <-]].
  do 2 passes. intros [= <-]. simpl. by rewrite length_map.
Qed.

Lemma updateEnrollmentProgress_frame props st db actor now :
  lesson_progress (updateEnrollmentProgress props st db actor now).1 =
  lesson_progress db.
Proof.
  unfold updateEnrollmentProgress.
  destruct (update_enrollment _ _ _ _ _) as [db'|e] eqn:E; [|done].
  apply update_enrollment_frame in E as [E _]. by simpl.
Qed.

Lemma handleProgressUpdate_after_upsert
    props st db actor new_id now now' lid w c db1 data :
  upsert_lesson_progress db actor new_id (enrollmentId props) lid w c now =
  Ok (db1, data) ->
  handleProgressUpdate props st db actor new_id now now' lid w c =
  ((updateEnrollmentProgress props st db1 actor now').1,
   mkState (sections st) (currentLesson st) (<[lid := data]> (progress st))
     (expandedSections st) (loading st),
   (updateEnrollmentProgress props st db1 actor now').2).
Proof.
  intros H. unfold handleProgressUpdate. rewrite H.
  by destruct (updateEnrollmentProgress _ _ _ _ _).
Qed.

(** C4, as the code has it.  When a row for (enrollment, lesson) exists,
    a progress update by the enrollment's student, with a position in
    the range of the [integer] column, overwrites it: after the call
    every row of that key carries the supplied [isCompleted] flag, the
    supplied [watchedSeconds] and the new timestamp, whatever the row
    held before; a call with [isCompleted = false] therefore resets a
    completed lesson.  With a position outside that range the request is
    refused, as out of range when the number is written in digits, and
    nothing is written.  The enrollment and the lesson are the ones the
    two texts denote, in whatever spelling. *)
Theorem progress_update_overwrites_completed_flag
    props st db uid new_id now now' lid w c old :
  uuid_in (enrollmentId props) = Some (LessonProgress.enrollment_id old) ->
  uuid_in lid = Some (LessonProgress.lesson_id old) ->
  owns db uid (LessonProgress.enrollment_id old) ->
  In old (lesson_progress db) ->
  let r := handleProgressUpdate props st db (Some uid) new_id now now'
             lid w c in
  (int4 w = true ->
   (exists p, In p (lesson_progress r.1.1) /\
              LessonProgress.enrollment_id p = LessonProgress.enrollment_id old /\
              LessonProgress.lesson_id p = LessonProgress.lesson_id old) /\
   (forall p, In p (lesson_progress r.1.1) ->
              LessonProgress.enrollment_id p = LessonProgress.enrollment_id old ->
              LessonProgress.lesson_id p = LessonProgress.lesson_id old ->
              LessonProgress.is_completed p = c /\
              LessonProgress.watched_seconds p = w /\
              LessonProgress.last_watched_at p = now)) /\
  (int4 w = false ->
   exists error,
     r = (db, st, Some error) /\
     (Z.abs w < 10 ^ 21 -> error = numeric_value_out_of_range)).
Proof.
  intros He Hl Hown Hold r.
  set (eid := LessonProgress.enrollment_id old) in *.
  set (l := LessonProgress.lesson_id old) in *.
  split.
  2:{ intros Hw. unfold r, handleProgressUpdate.
      rewrite (upsert_lesson_progress_out_of_range db (Some uid) new_id
                 (enrollmentId props) lid eid l w c now He Hl Hw).
      eexists. split; [reflexivity|].
      intros Hsmall. apply Z.ltb_lt in Hsmall. by rewrite Hsmall. }
  intros Hw.
  assert (same_progress_key eid l old = true) as Hkey
    by (by apply same_progress_key_true).
  destruct (List.find (same_progress_key eid l) (lesson_progress db))
    as [old0|] eqn:Hfind.
  2:{ apply find_none with (x := old) in Hfind; [|done]. congruence. }
  assert (lesson_progress r.1.1 =
          map (fun p => if same_progress_key eid l p
                        then LessonProgress.mk (LessonProgress.id old0)
                               eid l w c now
                        else p) (lesson_progress db)) as Hdb'.
  { unfold r.
    rewrite (handleProgressUpdate_after_upsert props st db (Some uid) new_id
               now now' lid w c _ _
               (upsert_lesson_progress_conflict db uid new_id
                  (enrollmentId props) lid eid l w c now
                  old0 He Hl Hw Hown Hfind)).
    cbn [fst]. by rewrite updateEnrollmentProgress_frame. }
  rewrite Hdb'. split.
  - exists (LessonProgress.mk (LessonProgress.id old0) eid l w c now).
    split; [|done]. apply in_map_iff. exists old. split; [|done].
    by rewrite Hkey.
  - intros p (q & Hq & _)%in_map_iff Hp1 Hp2.
    destruct (same_progress_key eid l q) eqn:E.
    + by subst p.
    + subst p. assert (same_progress_key eid l q = true)
        by (by apply same_progress_key_true). congruence.
Qed.

Lemma progress_update_overwrites_completed_flag_witness :
  LessonProgress.is_completed (Ex.watched 1 true) = true /\
  exists p,
    In p (lesson_progress
            (handleProgressUpdate Ex.props initialState
               (Ex.enrolled_db 4 1 None 25) (Some Ex.student_id)
               (Ex.progress_id 9) 30 31 (Ex.lesson_id 1) 12 false).1.1) /\
    LessonProgress.enrollment_id p = Ex.enrollment_id /\
    LessonProgress.lesson_id p = Ex.lesson_id 1 /\
    LessonProgress.is_completed p = false /\
    LessonProgress.watched_seconds p = 12 /\
    LessonProgress.last_watched_at p = 30.
Proof.
  split; [reflexivity|].
  destruct (progress_update_overwrites_completed_flag Ex.props
              initialState (Ex.enrolled_db 4 1 None 25) Ex.student_id
              (Ex.progress_id 9) 30 31 (Ex.lesson_id 1) 12 false
              (Ex.watched 1 true)) as [H _].
  - reflexivity.
  - reflexivity.
  - exists (Ex.enrollment None 25). vm_compute. auto.
  - vm_compute. auto.
  - destruct (H eq_refl) as [(p & Hp & H1 & H2) Hall].
    exists p. repeat split; try assumption; by apply Hall.
Defined.

(** C4, as the specification states it, fails: lesson 1 is stored as
    completed, the player reports a playback position with
    [isCompleted = false], and the stored row is no longer completed. *)
Lemma completed_lesson_is_reset :
  lesson_progress (Ex.enrolled_db 4 1 None 25) = [Ex.watched 1 true] /\
  LessonProgress.is_completed (Ex.watched 1 true) = true /\
  lesson_progress
    (handleProgressUpdate Ex.props
       (mount Ex.props (Ex.enrolled_db 4 1 None 25) (Some Ex.student_id))
       (Ex.enrolled_db 4 1 None 25) (Some Ex.student_id)
       (Ex.progress_id 9) 30 31 (Ex.lesson_id 1) 12 false).1.1 =
  [LessonProgress.mk (Ex.progress_id 1) Ex.enrollment_id (Ex.lesson_id 1)
     12 false 30].
Proof. repeat split; vm_compute; reflexivity. Qed.

(** The column is an [integer]: the largest position goes through, the
    next one is refused and the stored row stays as it was. *)
Example position_out_of_range_is_refused :
  lesson_progress
    (handleProgressUpdate Ex.props initialState (Ex.enrolled_db 4 1 None 25)
       (Some Ex.student_id) (Ex.progress_id 9) 30 31 (Ex.lesson_id 1)
       2147483647 false).1.1 =
  [LessonProgress.mk (Ex.progress_id 1) Ex.enrollment_id (Ex.lesson_id 1)
     2147483647 false 30] /\
  handleProgressUpdate Ex.props initialState (Ex.enrolled_db 4 1 None 25)
    (Some Ex.student_id) (Ex.progress_id 9) 30 31 (Ex.lesson_id 1)
    2147483648 false =
  (Ex.enrolled_db 4 1 None 25, initialState, Some numeric_value_out_of_range).
Proof. split; vm_compute; reflexivity. Qed.

(** C6, as the code has it.  [handleProgressUpdate] looks at no course:
    when the caller owns the enrollment, the lesson exists (in whatever
    course) and the position is in the range of the [integer] column, a
    first progress update for the pair appends its row.  The upsert ends
    in no other error than those of the conversion of the request (a
    text that is no uuid, a number out of range), of the policies and of
    the keys. *)
Theorem progress_update_checks_no_course
    props st db uid new_id now now' lid w c eid l :
  uuid_in (enrollmentId props) = Some eid ->
  uuid_in lid = Some (Lesson.id l) ->
  int4 w = true ->
  owns db uid eid ->
  In l (lessons db) ->
  (forall p, In p (lesson_progress db) ->
             same_progress_key eid (Lesson.id l) p = false) ->
  (forall p, In p (lesson_progress db) -> LessonProgress.id p <> new_id) ->
  lesson_progress
    (handleProgressUpdate props st db (Some uid) new_id now now' lid w c).1.1 =
  (lesson_progress db ++
   [LessonProgress.mk new_id eid (Lesson.id l) w c now])%list /\
  (forall actor etext ltext w' c' error,
     upsert_lesson_progress db actor new_id etext ltext w' c' now = Err error ->
     In error [invalid_text_representation; numeric_value_out_of_range;
               insufficient_privilege "lesson_progress";
               unique_violation "lesson_progress_pkey";
               foreign_key_violation "lesson_progress_enrollment_id_fkey";
               foreign_key_violation "lesson_progress_lesson_id_fkey"]).
Proof.
  intros He Hl Hw Hown Hlesson Hnone Hfresh. split.
  - rewrite (handleProgressUpdate_after_upsert props st db (Some uid) new_id
               now now' lid w c _ _
               (upsert_lesson_progress_fresh db uid new_id
                  (enrollmentId props) lid eid (Lesson.id l) w c now
                  He Hl Hw Hown (ex_intro _ l (conj Hlesson eq_refl))
                  Hnone Hfresh)).
    cbn [fst]. by rewrite updateEnrollmentProgress_frame.
  - intros actor etext ltext w' c' error.
    apply upsert_lesson_progress_errors.
Qed.

Lemma progress_update_checks_no_course_witness :
  lesson_in_course (Ex.enrolled_db 4 0 None 0) Ex.other_lesson_id Ex.course_id
  = false /\
  lesson_progress
    (handleProgressUpdate Ex.props initialState (Ex.enrolled_db 4 0 None 0)
       (Some Ex.student_id) (Ex.progress_id 9) 30 31 Ex.other_lesson_id
       12 true).1.1 =
  [LessonProgress.mk (Ex.progress_id 9) Ex.enrollment_id Ex.other_lesson_id
     12 true 30].
Proof.
  split; [reflexivity|].
  refine (proj1 (progress_update_checks_no_course Ex.props initialState
           (Ex.enrolled_db 4 0 None 0) Ex.student_id (Ex.progress_id 9) 30 31
           Ex.other_lesson_id 12 true Ex.enrollment_id Ex.other_lesson
           _ _ _ _ _ _ _)).
  - reflexivity.
  - reflexivity.
  - reflexivity.
  - exists (Ex.enrollment None 0). vm_compute. auto.
  - vm_compute. auto 10.
  - intros p [].
  - intros p [].
Defined.

(** C6, as the specification states it, fails: the enrollment is in one
    course, the lesson on screen belongs to another, and the update goes
    through without an error and creates the row. *)
Lemma progress_recorded_for_lesson_of_another_course :
  Enrollment.course_id (Ex.enrollment None 0) = Ex.course_id /\
  lesson_in_course (Ex.enrolled_db 4 0 None 0) Ex.other_lesson_id Ex.course_id
  = false /\
  currentLesson
    (mount Ex.mismatched_props (Ex.enrolled_db 4 0 None 0) (Some Ex.student_id))
  = Some Ex.other_lesson /\
  lesson_progress (Ex.enrolled_db 4 0 None 0) = [] /\
  (let r := handleProgressUpdate Ex.mismatched_props
              (mount Ex.mismatched_props (Ex.enrolled_db 4 0 None 0)
                 (Some Ex.student_id))
              (Ex.enrolled_db 4 0 None 0) (Some Ex.student_id)
              (Ex.progress_id 9) 30 31 Ex.other_lesson_id 12 true in
   r.2 = None /\
   lesson_progress r.1.1 =
   [LessonProgress.mk (Ex.progress_id 9) Ex.enrollment_id Ex.other_lesson_id
      12 true 30]).
Proof. repeat split; vm_compute; reflexivity. Qed.

(** ** Enrollments: what the update does *)

Lemma targeted_iff_own db uid id e :
  (Enrollment.id e =? id)%string && enrollments_select_using db uid e &&
  enrollments_update_using uid e =
  (Enrollment.id e =? id)%string && (Enrollment.student_id e =? uid)%string.
Proof.
  unfold enrollments_select_using, enrollments_update_using,
    Students_can_view_own_enrollments, Students_can_update_own_enrollments.
  destruct (Enrollment.id e =? id)%string; [simpl|done].
  by destruct (Enrollment.student_id e =? uid)%string;
    [|rewrite andb_false_r].
Qed.

(** The caller's own row with this id is rewritten, every other row is
    kept, when the new percentage passes the CHECK constraint. *)
Lemma update_enrollment_in_range db uid p c text id :
  uuid_in text = Some id -> progress_percentage_check p = true ->
  update_enrollment db (Some uid) p c text =
  Ok (set_enrollments db
        (map (fun e => if (Enrollment.id e =? id)%string &&
                          (Enrollment.student_id e =? uid)%string
                       then with_progress e p c else e)
           (enrollments db))).
Proof.
  intros Hid Hp. unfold update_enrollment. rewrite bind_cast, Hid.
  rewrite bind_require.
  assert (forallb _ (enrollments db) = true) as ->.
  { apply forallb_forall. intros e _. rewrite targeted_iff_own.
    destruct (_ && _) eqn:E; [simpl|done].
    by apply andb_true_iff in E as [_ E]. }
  rewrite bind_require.
  assert (forallb _ (enrollments db) = true) as ->.
  { apply forallb_forall. intros e _. simpl. rewrite Hp. by destruct (_ && _). }
  do 2 f_equal. apply map_ext. intros e. by rewrite targeted_iff_own.
Qed.

(** A row that is not the caller's own is never changed, and an update
    that is refused changes nothing. *)
Lemma update_enrollment_keeps_foreign_rows db actor p c id e :
  In e (enrollments db) -> actor <> Some (Enrollment.student_id e) ->
  In e (enrollments
          (match update_enrollment db actor p c id with
           | Ok db' => db'
           | Err _ => db
           end)).
Proof.
  intros Hin Hne. unfold update_enrollment. casts id' E.
  destruct actor as [uid|]; [|done]. do 2 passes.
  simpl. apply in_map_iff. exists e. split; [|done].
  rewrite targeted_iff_own.
  assert ((Enrollment.student_id e =? uid)%string = false) as ->.
  { apply String.eqb_neq. congruence. }
  by rewrite andb_false_r.
Qed.

Lemma percentage_in_range p :
  0 <= p <= 100 -> progress_percentage_check p = true.
Proof. unfold progress_percentage_check. lia. Qed.

Lemma updateEnrollmentProgress_in_range props st db uid now id :
  uuid_in (enrollmentId props) = Some id ->
  0 <= progressPercentage (completedLessons st) (totalLessons st) <= 100 ->
  updateEnrollmentProgress props st db (Some uid) now =
  (set_enrollments db
     (map (fun e =>
             if (Enrollment.id e =? id)%string &&
                (Enrollment.student_id e =? uid)%string
             then with_progress e
                    (progressPercentage (completedLessons st) (totalLessons st))
                    (if (progressPercentage (completedLessons st)
                           (totalLessons st) =? 100)%Z
                     then Some now else None)
             else e)
        (enrollments db)),
   None).
Proof.
  intros Hid Hp. unfold updateEnrollmentProgress.
  by rewrite (update_enrollment_in_range db uid _ _ (enrollmentId props) id)
    by (by try apply percentage_in_range).
Qed.

Lemma rewritten_rows db uid eid p c e :
  In e (enrollments db) -> Enrollment.id e = eid ->
  Enrollment.student_id e = uid ->
  let es := map (fun e => if (Enrollment.id e =? eid)%string &&
                             (Enrollment.student_id e =? uid)%string
                          then with_progress e p c else e)
              (enrollments db) in
  In (with_progress e p c) es /\
  forall e', In e' es -> Enrollment.id e' = eid ->
             Enrollment.student_id e' = uid ->
             Enrollment.progress_percentage e' = p /\
             Enrollment.completed_at e' = c.
Proof.
  intros Hin H1 H2 es. split.
  - apply in_map_iff. exists e. by rewrite H1, H2, !String.eqb_refl.
  - intros e' (q & Hq & _)%in_map_iff E1 E2.
    destruct (_ && _) eqn:E; [by subst e'|]. subst e'.
    by rewrite E1, E2, !String.eqb_refl in E.
Qed.

(** ** The percentage *)


(** For a course of fewer than 40 lessons the double arithmetic of
    [Math.round((completed / total) * 100)] gives the exactly rounded
    percentage, a half rounding up. *)
Lemma progressPercentage_exact_below_40 c t :
  0 <= c <= t -> 0 < t < 40 ->
  progressPercentage c t = (200 * c + t) / (2 * t).
Proof.
  intros Hc Ht.
  assert (forallb (fun t => forallb (fun c =>
              (progressPercentage (Z.of_nat c) (Z.of_nat t) =?
               (200 * Z.of_nat c + Z.of_nat t) / (2 * Z.of_nat t))%Z)
            (seq 0 (S t))) (seq 1 39) = true) as H
    by (vm_compute; reflexivity).
  rewrite forallb_forall in H.
  specialize (H (Z.to_nat t)). rewrite forallb_forall in H.
  specialize (H ltac:(apply in_seq; lia) (Z.to_nat c) ltac:(apply in_seq; lia)).
  rewrite !Z2Nat.id in H by lia. by apply Z.eqb_eq.
Qed.

(** At 40 lessons it no longer does: 23 of 40 is 57.5 exactly, the
    double product is 57.49999999999999. *)
Example progressPercentage_23_of_40 :
  progressPercentage 23 40 = 57 /\ (200 * 23 + 40) / (2 * 40) = 58.
Proof. split; reflexivity. Qed.

(** More completed rows than lessons on screen: the value leaves the
    range of the column and the update is refused. *)
Example progressPercentage_above_100 :
  progressPercentage 2 1 = 200 /\ progress_percentage_check 200 = false.
Proof. split; reflexivity. Qed.

(** C1, as the code has it.  When the recomputation yields a percentage
    below 100 for the caller's own enrollment, the new percentage is
    stored and [completed_at] is set to null, whatever it was before:
    completion is revocable. *)
Theorem recompute_below_100_clears_completed_at props st db uid now e :
  is_uuid (enrollmentId props) = true ->
  In e (enrollments db) ->
  Enrollment.id e = enrollmentId props ->
  Enrollment.student_id e = uid ->
  0 <= progressPercentage (completedLessons st) (totalLessons st) < 100 ->
  let db' := (updateEnrollmentProgress props st db (Some uid) now).1 in
  In (with_progress e
        (progressPercentage (completedLessons st) (totalLessons st)) None)
     (enrollments db') /\
  forall e', In e' (enrollments db') ->
             Enrollment.id e' = enrollmentId props ->
             Enrollment.student_id e' = uid ->
             Enrollment.progress_percentage e' =
               progressPercentage (completedLessons st) (totalLessons st) /\
             Enrollment.completed_at e' = None.
Proof.
  intros Hid%is_uuid_in Hin H1 H2 Hp db'. unfold db'.
  rewrite (updateEnrollmentProgress_in_range props st db uid now
             (enrollmentId props)) by (done || lia).
  assert ((progressPercentage (completedLessons st) (totalLessons st)
           =? 100)%Z = false) as -> by lia.
  by apply (rewritten_rows db uid (enrollmentId props) _ None e).
Qed.

Lemma recompute_below_100_clears_completed_at_witness :
  In (with_progress (Ex.enrollment (Some 50) 100) 75 None)
     (enrollments
        (updateEnrollmentProgress Ex.props
           (mount Ex.props (Ex.enrolled_db 4 3 (Some 50) 100)
              (Some Ex.student_id))
           (Ex.enrolled_db 4 3 (Some 50) 100) (Some Ex.student_id) 60).1).
Proof.
  refine (proj1 (recompute_below_100_clears_completed_at Ex.props
            (mount Ex.props (Ex.enrolled_db 4 3 (Some 50) 100)
               (Some Ex.student_id))
            (Ex.enrolled_db 4 3 (Some 50) 100) Ex.student_id 60
            (Ex.enrollment (Some 50) 100) _ _ _ _ _)).
  - reflexivity.
  - vm_compute. auto.
  - reflexivity.
  - reflexivity.
  - vm_compute. split; [discriminate|reflexivity].
Defined.

(** C1, as the specification states it, fails: the enrollment was
    completed with three lessons, a fourth lesson was added, the student
    opens the player and replays lesson 1, and the stored [completed_at]
    becomes null. *)
Lemma completion_is_revoked_by_recompute :
  enrollments (Ex.enrolled_db 4 3 (Some 50) 100) =
  [Ex.enrollment (Some 50) 100] /\
  enrollments
    (updateEnrollmentProgress Ex.props
       (mount Ex.props (Ex.enrolled_db 4 3 (Some 50) 100)
          (Some Ex.student_id))
       (Ex.enrolled_db 4 3 (Some 50) 100) (Some Ex.student_id) 60).1 =
  [Ex.enrollment None 75] /\
  enrollments
    (handleProgressUpdate Ex.props
       (mount Ex.props (Ex.enrolled_db 4 3 (Some 50) 100)
          (Some Ex.student_id))
       (Ex.enrolled_db 4 3 (Some 50) 100) (Some Ex.student_id)
       (Ex.progress_id 9) 59 60 (Ex.lesson_id 1) 5 true).1.1 =
  [Ex.enrollment None 75].
Proof. repeat split; vm_compute; reflexivity. Qed.

(** C5, as the code has it.  [updateEnrollmentProgress] computes
    [Math.round((completed / total) * 100)] in double arithmetic, where
    [total] counts the lessons of the sections held in the player's
    state and [completed] the completed entries of the player's progress
    map; the result is 0 when [total] is 0, it is the exactly rounded
    percentage for fewer than 40 lessons, and when it lies in 0..100 it
    is what the caller's own enrollment row holds afterwards.  Two of
    four gives 50 and two of five gives 40. *)
Theorem stored_percentage_comes_from_player_state props st db uid now e :
  is_uuid (enrollmentId props) = true ->
  In e (enrollments db) ->
  Enrollment.id e = enrollmentId props ->
  Enrollment.student_id e = uid ->
  let percentage :=
    progressPercentage (completedLessons st) (totalLessons st) in
  let db' := (updateEnrollmentProgress props st db (Some uid) now).1 in
  (totalLessons st = 0 -> percentage = 0) /\
  (0 <= completedLessons st <= totalLessons st -> 0 < totalLessons st < 40 ->
   percentage =
   (200 * completedLessons st + totalLessons st) / (2 * totalLessons st)) /\
  (0 <= percentage <= 100 ->
   In (with_progress e percentage
         (if (percentage =? 100)%Z then Some now else None))
      (enrollments db') /\
   forall e', In e' (enrollments db') ->
              Enrollment.id e' = enrollmentId props ->
              Enrollment.student_id e' = uid ->
              Enrollment.progress_percentage e' = percentage) /\
  progressPercentage 2 4 = 50 /\ progressPercentage 2 5 = 40.
Proof.
  intros Hid%is_uuid_in Hin H1 H2 percentage db'.
  split; [|split; [|split; [|split; reflexivity]]].
  - unfold percentage. by intros ->.
  - apply progressPercentage_exact_below_40.
  - intros Hp. unfold db'.
    rewrite (updateEnrollmentProgress_in_range props st db uid now
               (enrollmentId props)) by done. simpl.
    destruct (rewritten_rows db uid (enrollmentId props) percentage
                (if (percentage =? 100)%Z then Some now else None) e
                Hin H1 H2) as [Ha Hb].
    split; [done|]. intros e' He' E1 E2. by apply Hb.
Qed.

Lemma stored_percentage_comes_from_player_state_witness :
  In (with_progress (Ex.enrollment None 0) 50 None)
     (enrollments
        (updateEnrollmentProgress Ex.props
           (mount Ex.props (Ex.enrolled_db 4 2 None 0) (Some Ex.student_id))
           (Ex.enrolled_db 4 2 None 0) (Some Ex.student_id) 60).1).
Proof.
  refine (proj1 (proj1 (proj2 (proj2
            (stored_percentage_comes_from_player_state Ex.props
               (mount Ex.props (Ex.enrolled_db 4 2 None 0)
                  (Some Ex.student_id))
               (Ex.enrolled_db 4 2 None 0) Ex.student_id 60
               (Ex.enrollment None 0) _ _ _ _))) _)).
  - reflexivity.
  - vm_compute. auto.
  - reflexivity.
  - reflexivity.
  - vm_compute. split; discriminate.
Defined.

(** C5, as the specification states it, fails: the total is not taken
    from the course when the percentage is recomputed.  The player was
    opened on the course of four lessons with two completed; a fifth
    lesson is added; the next progress update from the open player
    stores 50, where the course as it stands gives 40. *)
Lemma percentage_ignores_lesson_added_after_mount :
  length (course_lessons (Ex.enrolled_db 5 2 None 50) Ex.course_id) = 5%nat /\
  (let r := handleProgressUpdate Ex.props
              (mount Ex.props (Ex.enrolled_db 4 2 None 50)
                 (Some Ex.student_id))
              (Ex.enrolled_db 5 2 None 50) (Some Ex.student_id)
              (Ex.progress_id 9) 59 60 (Ex.lesson_id 1) 60 true in
   r.2 = None /\
   enrollments r.1.1 = [Ex.enrollment None 50] /\
   spec_percentage r.1.1 (Ex.enrollment None 50) = 40).
Proof. repeat split; vm_compute; reflexivity. Qed.

(** Once the player is opened again it counts the fifth lesson. *)
Example percentage_after_remount :
  enrollments
    (updateEnrollmentProgress Ex.props
       (mount Ex.props (Ex.enrolled_db 5 2 None 50) (Some Ex.student_id))
       (Ex.enrolled_db 5 2 None 50) (Some Ex.student_id) 60).1 =
  [Ex.enrollment None 40].
Proof. vm_compute. reflexivity. Qed.

(** The count of completed lessons is the one of the render that made
    the handler: completing the last open lesson stores 75, and only
    the update after that one stores 100. *)
Example percentage_lags_one_update :
  let st := mount Ex.props (Ex.enrolled_db 4 3 None 75) (Some Ex.student_id) in
  let r := handleProgressUpdate Ex.props st (Ex.enrolled_db 4 3 None 75)
             (Some Ex.student_id) (Ex.progress_id 4) 59 60 (Ex.lesson_id 4)
             60 true in
  completedLessons r.1.2 = 4 /\
  enrollments r.1.1 = [Ex.enrollment None 75] /\
  enrollments
    (handleProgressUpdate Ex.props r.1.2 r.1.1 (Some Ex.student_id)
       (Ex.progress_id 9) 61 62 (Ex.lesson_id 4) 60 true).1.1 =
  [Ex.enrollment (Some 62) 100].
Proof. repeat split; vm_compute; reflexivity. Qed.

(** ** Enrollments: who may write the aggregate fields *)

(** C9, as the code has it.  The UPDATE policy of [enrollments] lets
    the enrollment's own student, and nobody else, write
    [progress_percentage] and [completed_at]: the student's update with
    any percentage in 0..100 and any [completed_at] is stored as sent,
    and an update by anyone else leaves the row as it was. *)
Theorem own_student_writes_progress_fields db actor p c id e :
  is_uuid id = true ->
  In e (enrollments db) ->
  Enrollment.id e = id ->
  (actor = Some (Enrollment.student_id e) -> 0 <= p <= 100 ->
   exists db', update_enrollment db actor p c id = Ok db' /\
               In (with_progress e p c) (enrollments db')) /\
  (actor <> Some (Enrollment.student_id e) ->
   In e (enrollments
           (match update_enrollment db actor p c id with
            | Ok db' => db'
            | Err _ => db
            end))).
Proof.
  intros Hid%is_uuid_in Hin H1. split.
  - intros -> Hp. eexists. split.
    + apply (update_enrollment_in_range db _ p c id id);
        [done|by apply percentage_in_range].
    + by apply (rewritten_rows db (Enrollment.student_id e) id p c e).
  - by apply update_enrollment_keeps_foreign_rows.
Qed.

Lemma own_student_writes_progress_fields_witness :
  exists db',
    update_enrollment (Ex.enrolled_db 4 0 None 0) (Some Ex.student_id)
      100 (Some 99) Ex.enrollment_id = Ok db' /\
    In (with_progress (Ex.enrollment None 0) 100 (Some 99)) (enrollments db').
Proof.
  refine (proj1 (own_student_writes_progress_fields
            (Ex.enrolled_db 4 0 None 0) (Some Ex.student_id) 100 (Some 99)
            Ex.enrollment_id (Ex.enrollment None 0) _ _ _) _ _).
  - reflexivity.
  - vm_compute. auto.
  - reflexivity.
  - reflexivity.
  - lia.
Defined.

(** C9, as the specification states it, fails: with no lesson progress
    at all, the student's own update of the enrollment row is accepted
    and marks the course as completed at 100 percent. *)
Lemma student_sets_completion_without_progress :
  lesson_progress (Ex.enrolled_db 4 0 None 0) = [] /\
  spec_percentage (Ex.enrolled_db 4 0 None 0) (Ex.enrollment None 0) = 0 /\
  Students_can_update_own_enrollments Ex.student_id (Ex.enrollment None 0)
  = true /\
  update_enrollment (Ex.enrolled_db 4 0 None 0) (Some Ex.student_id)
    100 (Some 99) Ex.enrollment_id =
  Ok (set_enrollments (Ex.enrolled_db 4 0 None 0)
        [Ex.enrollment (Some 99) 100]).
Proof. repeat split; vm_compute; reflexivity. Qed.

(** ** Enrolling *)

Lemma insert_enrollment_first db uid cid id1 t1 :
  is_uuid uid = true -> is_uuid cid = true ->
  (exists p, In p (profiles db) /\ Profile.id p = uid) ->
  (exists c, In c (courses db) /\ Course.id c = cid) ->
  existsb (same_enrollment_key uid cid) (enrollments db) = false ->
  existsb (fun e => (Enrollment.id e =? id1)%string) (enrollments db) = false ->
  insert_enrollment db (Some uid) id1 t1 uid cid =
  Ok (set_enrollments db
        (enrollments db ++ [Enrollment.mk id1 uid cid t1 None 0]),
      Enrollment.mk id1 uid cid t1 None 0).
Proof.
  intros Hu Hc (p & Hp & Hpid) (c & Hcin & Hcid) Hnone Hfresh.
  unfold insert_enrollment.
  apply is_uuid_in in Hu, Hc.
  rewrite bind_cast, Hu, bind_cast, Hc. cbn [authenticated].
  rewrite bind_Ok, bind_require.
  unfold enrollments_insert_check, Students_can_create_enrollments.
  cbn [Enrollment.student_id Enrollment.progress_percentage].
  rewrite String.eqb_refl, bind_require.
  change (progress_percentage_check 0) with true. cbn iota.
  rewrite bind_require, Hfresh. cbn [negb].
  rewrite bind_require, Hnone. cbn [negb].
  rewrite bind_require.
  assert (existsb (fun p => (Profile.id p =? uid)%string) (profiles db)
          = true) as ->.
  { apply existsb_exists. exists p. by rewrite Hpid, String.eqb_refl. }
  rewrite bind_require.
  assert (existsb (fun c' => (Course.id c' =? cid)%string) (courses db)
          = true) as ->.
  { apply existsb_exists. exists c. by rewrite Hcid, String.eqb_refl. }
  rewrite bind_require.
  unfold enrollments_select_using, Students_can_view_own_enrollments.
  cbn [Enrollment.student_id]. by rewrite String.eqb_refl.
Qed.

Lemma insert_enrollment_duplicate db uid cid id2 t2 :
  is_uuid uid = true -> is_uuid cid = true ->
  existsb (same_enrollment_key uid cid) (enrollments db) = true ->
  exists constraint,
    insert_enrollment db (Some uid) id2 t2 uid cid =
    Err (unique_violation constraint).
Proof.
  intros Hu%is_uuid_in Hc%is_uuid_in Hdup. unfold insert_enrollment.
  rewrite bind_cast, Hu, bind_cast, Hc. cbn [authenticated].
  rewrite bind_Ok, bind_require.
  unfold enrollments_insert_check, Students_can_create_enrollments.
  cbn [Enrollment.student_id Enrollment.progress_percentage].
  rewrite String.eqb_refl, bind_require.
  change (progress_percentage_check 0) with true. cbn iota.
  rewrite bind_require.
  destruct (existsb (fun e => (Enrollment.id e =? id2)%string) _).
  - by exists "enrollments_pkey".
  - cbn [negb]. rewrite bind_require, Hdup.
    by exists "enrollments_student_id_course_id_key".
Qed.

(** C7.  For a signed-in student without an enrollment in the course on
    screen, [handleEnroll] creates the enrollment with
    [progress_percentage = 0] and [completed_at] null; a second
    [handleEnroll] for the same student and course is refused with a
    uniqueness violation and leaves the table as it was, with exactly
    one row for the pair. *)
Theorem enrolling_twice_keeps_one_row db uid c id1 t1 id2 t2 :
  is_uuid uid = true -> is_uuid (Course.id c) = true ->
  (exists p, In p (profiles db) /\ Profile.id p = uid) ->
  In c (courses db) ->
  ~ enrolled db uid (Course.id c) ->
  (forall e, In e (enrollments db) -> Enrollment.id e <> id1) ->
  let row := Enrollment.mk id1 uid (Course.id c) t1 None 0 in
  let db1 := set_enrollments db (enrollments db ++ [row]) in
  handleEnroll (Some uid) (Some c) None db id1 t1 = (db1, Some row, None) /\
  Enrollment.progress_percentage row = 0 /\
  Enrollment.completed_at row = None /\
  (exists constraint,
     handleEnroll (Some uid) (Some c) (Some row) db1 id2 t2 =
     (db1, Some row, Some (unique_violation constraint))) /\
  is_conflict (insert_enrollment db1 (Some uid) id2 t2 uid (Course.id c))
  = true /\
  List.filter (same_enrollment_key uid (Course.id c)) (enrollments db1) = [row].
Proof.
  intros Hu Hc Hprofile Hcourse Hnot Hfresh row db1.
  assert (forall e, In e (enrollments db) ->
            same_enrollment_key uid (Course.id c) e = false) as Hnone.
  { intros e He. destruct (same_enrollment_key _ _ e) eqn:E; [|done].
    exfalso. apply Hnot. exists e.
    apply andb_true_iff in E as [E1%eqb_true E2%eqb_true]. done. }
  assert (same_enrollment_key uid (Course.id c) row = true) as Hrow
    by (unfold same_enrollment_key; simpl; by rewrite !String.eqb_refl).
  assert (existsb (same_enrollment_key uid (Course.id c)) (enrollments db1)
          = true) as Hdup.
  { apply existsb_exists. exists row. split; [|done].
    simpl. apply in_or_app. right. by left. }
  destruct (insert_enrollment_duplicate db1 uid (Course.id c) id2 t2
              Hu Hc Hdup) as [constraint Hsecond].
  split; [|split; [done|split; [done|split; [|split]]]].
  - unfold handleEnroll.
    rewrite (insert_enrollment_first db uid (Course.id c) id1 t1); try done.
    + by exists c.
    + by apply existsb_false_iff.
    + apply existsb_false_iff. intros e He. apply String.eqb_neq.
      by apply Hfresh.
  - exists constraint. unfold handleEnroll. by rewrite Hsecond.
  - by rewrite Hsecond.
  - simpl. rewrite List.filter_app. simpl. rewrite Hrow.
    assert (List.filter (same_enrollment_key uid (Course.id c))
              (enrollments db) = []) as ->; [|done].
    clear -Hnone. induction (enrollments db) as [|e l IH]; [done|].
    simpl. rewrite (Hnone e) by (by left). apply IH.
    intros x Hx. apply Hnone. by right.
Qed.

Lemma enrolling_twice_keeps_one_row_witness :
  handleEnroll (Some Ex.student_id) (Some (Ex.course true)) None
    (Ex.catalogue true 4 [] [] []) Ex.enrollment_id 10 =
  (set_enrollments (Ex.catalogue true 4 [] [] []) [Ex.enrollment None 0],
   Some (Ex.enrollment None 0), None).
Proof.
  refine (proj1 (enrolling_twice_keeps_one_row (Ex.catalogue true 4 [] [] [])
            Ex.student_id (Ex.course true) Ex.enrollment_id 10
            (Ex.progress_id 1) 11 _ _ _ _ _ _)).
  - reflexivity.
  - reflexivity.
  - exists Ex.learner. vm_compute. auto.
  - vm_compute. auto.
  - intros (e & [] & _).
  - intros e [].
Defined.

(** ** Certificates: issuing twice *)

(** Once an enrollment has a certificate, the upsert takes the ON
    CONFLICT branch, whose UPDATE no policy allows: for the owner the
    statement ends in a row-level-security error, and for nobody does it
    succeed. *)
Lemma upsert_certificate_conflict db actor new_id now text url old :
  In old (certificates db) ->
  uuid_in text = Some (Certificate.enrollment_id old) ->
  is_ok (upsert_certificate db actor new_id now text url) = false /\
  (forall uid, actor = Some uid ->
     owns db uid (Certificate.enrollment_id old) ->
     upsert_certificate db actor new_id now text url =
     Err (insufficient_privilege "certificates")).
Proof.
  intros Hold Hk.
  assert (exists old0,
            List.find (fun c => (Certificate.enrollment_id c =?
                                 Certificate.enrollment_id old)%string)
              (certificates db) = Some old0) as [old0 Hfind].
  { destruct (List.find _ (certificates db)) as [old0|] eqn:E; [by eexists|].
    apply find_none with (x := old) in E; [|done].
    by rewrite String.eqb_refl in E. }
  unfold upsert_certificate. rewrite bind_cast, Hk. split.
  - destruct actor as [uid|]; [|done]. cbn [authenticated].
    rewrite bind_Ok, bind_require.
    destruct (certificates_insert_check _ _ _); [|done].
    by rewrite Hfind.
  - intros uid -> Hown.
    cbn [authenticated]. rewrite bind_Ok, bind_require.
    assert (certificates_insert_check db uid
              (Certificate.mk new_id (Certificate.enrollment_id old)
                 (Some url) now) = true) as ->
      by (by apply owns_iff).
    by rewrite Hfind.
Qed.

(** The part of C8 that the code keeps: the upsert never leads to two
    certificate rows for one enrollment. *)
Lemma upsert_certificate_at_most_one db actor new_id now eid url db' :
  upsert_certificate db actor new_id now eid url = Ok db' ->
  one_certificate_per_enrollment db ->
  one_certificate_per_enrollment db'.
Proof.
  unfold upsert_certificate, one_certificate_per_enrollment.
  casts u E.
  destruct actor as [uid|]; [|done]. cbn [authenticated].
  rewrite bind_Ok, bind_require.
  destruct (certificates_insert_check _ _ _); [|done].
  destruct (List.find _ (certificates db)) as [old|] eqn:Hfind; [done|].
  do 2 passes. intros [= <-] Hnodup. simpl. rewrite map_app. simpl.
  apply NoDup_app. split; [done|]. split; [|apply NoDup_singleton].
  intros x (c & <- & Hc)%list_elem_of_In%in_map_iff Hx%list_elem_of_singleton.
  apply find_none with (x := c) in Hfind; [|done].
  cbn beta in Hfind. apply String.eqb_neq in Hfind. done.
Qed.

(** C8 at the input where the code departs from it.  The student of a
    completed enrollment generates the certificate: a row is created.
    The student generates it again: the upsert is refused by row-level
    security, the handler logs the error, and the stored row keeps its
    id and its first artifact. *)
Theorem certificate_regeneration_is_refused :
  let db0 := Ex.enrolled_db 4 4 (Some 50) 100 in
  let cert := Certificate.mk (Ex.certificate_id 1) Ex.enrollment_id
                (Some "data:image/png;base64,AAAA") 70 in
  let r1 := handleGenerateCertificate Ex.student_id [] db0
              (Ex.certificate_id 1) 70 "data:image/png;base64,AAAA"
              Ex.enrollment_id in
  let r2 := handleGenerateCertificate Ex.student_id r1.1.2 r1.1.1
              (Ex.certificate_id 2) 80 "data:image/png;base64,BBBB"
              Ex.enrollment_id in
  r1 = (set_certificates db0 [cert],
        [(Ex.enrollment (Some 50) 100, Some cert)], None) /\
  r2 = (set_certificates db0 [cert],
        [(Ex.enrollment (Some 50) 100, Some cert)],
        Some (insufficient_privilege "certificates")).
Proof. split; vm_compute; reflexivity. Qed.

(** ** The player as App.tsx mounts it *)

(** A successful upsert was made by the enrollment's student, and it
    leaves the enrollments alone. *)
Lemma upsert_lesson_progress_inv
    db actor new_id etext ltext w c now db1 data :
  upsert_lesson_progress db actor new_id etext ltext w c now = Ok (db1, data) ->
  uuid_in etext = Some (LessonProgress.enrollment_id data) /\
  uuid_in ltext = Some (LessonProgress.lesson_id data) /\
  int4 w = true /\
  (exists uid, actor = Some uid /\
               owns db uid (LessonProgress.enrollment_id data)) /\
  enrollments db1 = enrollments db.
Proof.
  unfold upsert_lesson_progress. intros H.
  casted H eid He. casted H lid Hl.
  rewrite bind_integer in H. destruct (int4 w); [|done].
  destruct actor as [uid|]; [|done]. cbn [authenticated] in H.
  rewrite bind_Ok, bind_require in H.
  destruct (lesson_progress_insert_check _ _ _) eqn:Hpol; [|done].
  apply manage_progress_iff in Hpol. cbn [LessonProgress.enrollment_id] in Hpol.
  destruct (List.find _ _) as [old|].
  - do 2 passed H. injection H as <- <-. cbn.
    repeat split; try done. by exists uid.
  - do 4 passed H. injection H as <- <-. cbn.
    repeat split; try done. by exists uid.
Qed.





(** The same on the worked example: all four lessons are completed in
    the database, and an update from the player opened by "Continue"
    stores 0 percent and clears the completion. *)
Example start_learning_player_on_completed_course :
  let props := mkProps "" Ex.enrollment_id in
  let db := Ex.enrolled_db 4 4 (Some 50) 100 in
  let st := mount props db (Some Ex.student_id) in
  completedLessons st = 4 /\ totalLessons st = 0 /\ currentLesson st = None /\
  enrollments
    (handleProgressUpdate props st db (Some Ex.student_id)
       (Ex.progress_id 9) 59 60 (Ex.lesson_id 1) 60 true).1.1 =
  [Ex.enrollment None 0].
Proof. repeat split; vm_compute; reflexivity. Qed.

(** * Further properties of the code *)

(** ** Ordering by an integer key *)

Section Sorting.
Context {A : Type} (key : A -> Z).

Lemma insert_by_perm x l : Permutation (insert_by key x l) (x :: l).
Proof.
  induction l as [|y l IH]; simpl; [done|].
  destruct (key x <=? key y)%Z; [done|].
  rewrite IH. apply perm_swap.
Qed.

Lemma sort_by_perm l : Permutation (sort_by key l) l.
Proof.
  induction l as [|x l IH]; simpl; [done|].
  rewrite insert_by_perm. by constructor.
Qed.

Lemma sort_by_In x l : In x (sort_by key l) <-> In x l.
Proof.
  split; apply Permutation_in; [|symmetry]; apply sort_by_perm.
Qed.

Lemma sort_by_length l : length (sort_by key l) = length l.
Proof. apply Permutation_length, sort_by_perm. Qed.

Lemma insert_by_sorted x l :
  StronglySorted (fun a b => key a <= key b) l ->
  StronglySorted (fun a b => key a <= key b) (insert_by key x l).
Proof.
  induction 1 as [|y l Hl IH Hy]; simpl; [by repeat constructor|].
  destruct (key x <=? key y)%Z eqn:E.
  - apply Z.leb_le in E. constructor; [by constructor|].
    constructor; [done|]. eapply Forall_impl; [exact Hy|].
    intros z Hz. simpl in Hz. lia.
  - apply Z.leb_gt in E. constructor; [done|].
    apply Forall_forall. intros z Hz%list_elem_of_In.
    apply (Permutation_in _ (insert_by_perm x l)) in Hz as [<-|Hz]; [lia|].
    rewrite Forall_forall in Hy. by apply Hy, list_elem_of_In.
Qed.

Lemma sort_by_sorted l :
  StronglySorted (fun a b => key a <= key b) (sort_by key l).
Proof.
  induction l as [|x l IH]; simpl; [constructor|]. by apply insert_by_sorted.
Qed.
End Sorting.

Lemma StronglySorted_map {A B} (f : A -> B) (R : B -> B -> Prop) l :
  StronglySorted (fun a b => R (f a) (f b)) l ->
  StronglySorted R (map f l).
Proof.
  induction 1 as [|x l Hl IH Hx]; simpl; constructor; [done|].
  apply Forall_forall. intros y (z & <- & Hz)%list_elem_of_In%in_map_iff.
  rewrite Forall_forall in Hx. by apply Hx, list_elem_of_In.
Qed.

(** ** CoursePlayer.tsx: what [loadCourseContent] shows *)

Lemma loadCourseContent_loaded props db actor st cid :
  uuid_in (courseId props) = Some cid ->
  (loadCourseContent props db actor st).1 =
  let shown :=
    map (fun cs =>
           mkSection cs
             (sort_by Lesson.order_index
                (List.filter
                   (fun l => (Lesson.section_id l =? CourseSection.id cs)%string)
                   (rows_for actor (visible_lessons db)))))
      (sort_by CourseSection.order_index
         (List.filter
            (fun cs => (CourseSection.course_id cs =? cid)%string)
            (rows_for actor (visible_course_sections db)))) in
  match shown with
  | first :: _ =>
      match section_lessons first with
      | lesson :: _ =>
          mkState shown (Some lesson) (progress st)
            {[ CourseSection.id (section_row first) ]} false
      | [] =>
          mkState shown (currentLesson st) (progress st)
            (expandedSections st) false
      end
  | [] =>
      mkState shown (currentLesson st) (progress st) (expandedSections st)
        false
  end.
Proof.
  intros Hid. unfold loadCourseContent, select_sections_with_lessons.
  rewrite bind_cast, Hid. cbn iota. rewrite map_map. cbn [section_row section_lessons].
  cbv zeta.
  destruct (map _ _) as [|first rest]; [done|].
  by destruct (section_lessons first).
Qed.

Lemma loadCourseContent_sections props db actor st cid :
  uuid_in (courseId props) = Some cid ->
  sections (loadCourseContent props db actor st).1 =
  map (fun cs =>
         mkSection cs
           (sort_by Lesson.order_index
              (List.filter
                 (fun l => (Lesson.section_id l =? CourseSection.id cs)%string)
                 (rows_for actor (visible_lessons db)))))
    (sort_by CourseSection.order_index
       (List.filter
          (fun cs => (CourseSection.course_id cs =? cid)%string)
          (rows_for actor (visible_course_sections db)))).
Proof.
  intros Hid. rewrite (loadCourseContent_loaded props db actor st cid Hid).
  cbv zeta. destruct (map _ _) as [|first rest] eqn:E; [done|].
  by destruct (section_lessons first).
Qed.

(** When the text is no uuid the query fails and the sections on screen
    stay as they were. *)
Lemma loadCourseContent_not_loaded props db actor st :
  uuid_in (courseId props) = None ->
  loadCourseContent props db actor st =
  (mkState (sections st) (currentLesson st) (progress st)
     (expandedSections st) false,
   Some invalid_text_representation).
Proof.
  intros Hid. unfold loadCourseContent, select_sections_with_lessons.
  by rewrite bind_cast, Hid.
Qed.

Lemma loadCourseContent_shown props db actor st cid :
  uuid_in (courseId props) = Some cid ->
  let shown := sections (loadCourseContent props db actor st).1 in
  StronglySorted
    (fun a b => CourseSection.order_index (section_row a) <=
                CourseSection.order_index (section_row b)) shown /\
  (forall s, In s shown ->
     In (section_row s) (rows_for actor (visible_course_sections db)) /\
     CourseSection.course_id (section_row s) = cid /\
     StronglySorted
       (fun a b => Lesson.order_index a <= Lesson.order_index b)
       (section_lessons s) /\
     (forall l, In l (section_lessons s) <->
                In l (rows_for actor (visible_lessons db)) /\
                Lesson.section_id l = CourseSection.id (section_row s))) /\
  (forall cs, In cs (rows_for actor (visible_course_sections db)) ->
              CourseSection.course_id cs = cid ->
              exists s, In s shown /\ section_row s = cs).
Proof.
  intros Hid shown. unfold shown.
  rewrite (loadCourseContent_sections props db actor st cid Hid).
  split; [|split].
  - apply StronglySorted_map. cbn [section_row]. apply sort_by_sorted.
  - intros s (cs & <- & Hcs)%in_map_iff. cbn [section_row section_lessons].
    apply sort_by_In in Hcs. apply filter_In in Hcs as [Hcs Hc%eqb_true].
    split; [done|]. split; [done|].
    split; [apply sort_by_sorted|].
    intros l. rewrite sort_by_In, filter_In. by rewrite eqb_true.
  - intros cs Hcs Hc.
    exists (mkSection cs
              (sort_by Lesson.order_index
                 (List.filter
                    (fun l => (Lesson.section_id l =? CourseSection.id cs)%string)
                    (rows_for actor (visible_lessons db))))).
    split; [|done]. apply in_map_iff. exists cs. split; [done|].
    apply sort_by_In, filter_In. split; [done|]. by apply eqb_true.
Qed.

(** X1.  [loadCourseContent] casts [courseId] to a uuid.  When the text
    denotes one, in whatever spelling, the player lists exactly the
    sections of that course that the caller may read, in ascending
    [order_index]; each section lists exactly its lessons that the
    caller may read, in ascending [order_index].  When it denotes none,
    the sections on screen stay as they were and the error is logged. *)
Theorem player_lists_sections_and_lessons_in_order props db actor st :
  let shown := sections (loadCourseContent props db actor st).1 in
  (forall cid, uuid_in (courseId props) = Some cid ->
     StronglySorted
       (fun a b => CourseSection.order_index (section_row a) <=
                   CourseSection.order_index (section_row b)) shown /\
     (forall s, In s shown ->
        In (section_row s) (rows_for actor (visible_course_sections db)) /\
        CourseSection.course_id (section_row s) = cid /\
        StronglySorted
          (fun a b => Lesson.order_index a <= Lesson.order_index b)
          (section_lessons s) /\
        (forall l, In l (section_lessons s) <->
                   In l (rows_for actor (visible_lessons db)) /\
                   Lesson.section_id l = CourseSection.id (section_row s))) /\
     (forall cs, In cs (rows_for actor (visible_course_sections db)) ->
                 CourseSection.course_id cs = cid ->
                 exists s, In s shown /\ section_row s = cs)) /\
  (uuid_in (courseId props) = None ->
   shown = sections st /\
   (loadCourseContent props db actor st).2 = Some invalid_text_representation).
Proof.
  intros shown. split.
  - intros cid Hid. exact (loadCourseContent_shown props db actor st cid Hid).
  - intros Hid. unfold shown.
    by rewrite (loadCourseContent_not_loaded props db actor st Hid).
Qed.

Lemma player_lists_sections_and_lessons_in_order_witness :
  exists s,
    In s (sections
            (loadCourseContent
               (mkProps "{00000000000000000000-0000000000C1}" Ex.enrollment_id)
               (Ex.enrolled_db 4 0 None 0)
               (Some Ex.student_id) initialState).1) /\
    section_row s = Ex.section.
Proof.
  refine (proj2 (proj2 (proj1 (player_lists_sections_and_lessons_in_order
            (mkProps "{00000000000000000000-0000000000C1}" Ex.enrollment_id)
            (Ex.enrolled_db 4 0 None 0) (Some Ex.student_id) initialState)
            Ex.course_id _))
            Ex.section _ _).
  - reflexivity.
  - vm_compute. auto.
  - reflexivity.
Defined.

(** X2.  [loadCourseContent] opens the player on the lesson with the
    lowest [order_index] of the section with the lowest [order_index],
    and expands that section alone.  When that first section has no
    readable lesson, no lesson is selected, whatever the later sections
    hold. *)
Theorem player_opens_on_first_lesson_of_first_section
    props db actor st first rest :
  is_uuid (courseId props) = true ->
  sections (loadCourseContent props db actor st).1 = first :: rest ->
  let st' := (loadCourseContent props db actor st).1 in
  (forall s, In s rest ->
     CourseSection.order_index (section_row first) <=
     CourseSection.order_index (section_row s)) /\
  (section_lessons first = [] ->
   currentLesson st' = currentLesson st /\
   expandedSections st' = expandedSections st) /\
  (forall lesson others,
     section_lessons first = lesson :: others ->
     currentLesson st' = Some lesson /\
     expandedSections st' = {[ CourseSection.id (section_row first) ]} /\
     (forall l, In l others ->
        Lesson.order_index lesson <= Lesson.order_index l)).
Proof.
  intros Hid%is_uuid_in Hshown st'.
  destruct (loadCourseContent_shown props db actor st (courseId props) Hid)
    as (Hsorted & Hsound & _).
  rewrite Hshown in Hsorted, Hsound.
  assert (st' =
          match section_lessons first with
          | lesson :: _ =>
              mkState (first :: rest) (Some lesson) (progress st)
                {[ CourseSection.id (section_row first) ]} false
          | [] =>
              mkState (first :: rest) (currentLesson st) (progress st)
                (expandedSections st) false
          end) as ->.
  { unfold st'.
    rewrite (loadCourseContent_sections props db actor st _ Hid) in Hshown.
    rewrite (loadCourseContent_loaded props db actor st _ Hid).
    cbv zeta. by rewrite Hshown. }
  apply StronglySorted_inv in Hsorted as [_ Hfirst].
  rewrite Forall_forall in Hfirst.
  destruct (Hsound first) as (_ & _ & Hl & _); [by left|].
  split; [intros s Hin; by apply Hfirst, list_elem_of_In|]. split.
  - by intros ->.
  - intros lesson others E. rewrite E in Hl |- *.
    split; [done|]. split; [done|].
    apply StronglySorted_inv in Hl as [_ Hl]. rewrite Forall_forall in Hl.
    intros l Hlin. by apply Hl, list_elem_of_In.
Qed.

Lemma player_opens_on_first_lesson_of_first_section_witness :
  currentLesson (loadCourseContent Ex.props (Ex.enrolled_db 4 0 None 0)
                   (Some Ex.student_id) initialState).1 =
  Some (Ex.lesson 1 true) /\
  expandedSections (loadCourseContent Ex.props (Ex.enrolled_db 4 0 None 0)
                      (Some Ex.student_id) initialState).1 =
  {[ CourseSection.id Ex.section ]}.
Proof.
  destruct (player_opens_on_first_lesson_of_first_section Ex.props
              (Ex.enrolled_db 4 0 None 0) (Some Ex.student_id) initialState
              (mkSection Ex.section
                 [Ex.lesson 1 true; Ex.lesson 2 false; Ex.lesson 3 false;
                  Ex.lesson 4 false])
              [])
    as (_ & _ & H).
  - reflexivity.
  - vm_compute. reflexivity.
  - destruct (H (Ex.lesson 1 true)
                [Ex.lesson 2 false; Ex.lesson 3 false; Ex.lesson 4 false]
                eq_refl) as (H1 & H2 & _).
    split; [exact H1|exact H2].
Defined.

(** ** CoursePlayer.tsx: the progress map *)

Lemma progressMap_lookup_Some (l : list LessonProgress.t)
    (m : gmap string LessonProgress.t) k p :
  fold_left (fun m p => <[LessonProgress.lesson_id p := p]> m) l m !! k
  = Some p ->
  (In p l /\ LessonProgress.lesson_id p = k) \/ m !! k = Some p.
Proof.
  revert m. induction l as [|x l IH]; intros m; simpl; [by right|].
  intros [[Hin Hk]|H]%IH; [left; by split; [right|]|].
  destruct (decide (LessonProgress.lesson_id x = k)) as [<-|Hne].
  - rewrite lookup_insert_eq in H. injection H as <-. left. by split; [left|].
  - rewrite lookup_insert_ne in H by done. by right.
Qed.

Lemma progressMap_lookup_kept (l : list LessonProgress.t)
    (m : gmap string LessonProgress.t) k :
  is_Some (m !! k) ->
  is_Some (fold_left (fun m p => <[LessonProgress.lesson_id p := p]> m) l m
           !! k).
Proof.
  revert m. induction l as [|x l IH]; intros m Hm; simpl; [done|].
  apply IH. destruct (decide (LessonProgress.lesson_id x = k)) as [<-|Hne].
  - by rewrite lookup_insert_eq.
  - by rewrite lookup_insert_ne.
Qed.

Lemma progressMap_lookup_is_Some (l : list LessonProgress.t)
    (m : gmap string LessonProgress.t) p :
  In p l ->
  is_Some (fold_left (fun m p => <[LessonProgress.lesson_id p := p]> m) l m
           !! LessonProgress.lesson_id p).
Proof.
  revert m. induction l as [|x l IH]; intros m; simpl; [done|].
  intros [->|Hin]; [|by apply IH].
  apply progressMap_lookup_kept. by rewrite lookup_insert_eq.
Qed.

Lemma unique_by_key {A B} (f : A -> B) (l : list A) a b :
  NoDup (map f l) -> In a l -> In b l -> f a = f b -> a = b.
Proof.
  induction l as [|x l IH]; simpl; [done|].
  intros [Hx Hl]%NoDup_cons [<-|Ha] [<-|Hb] E; try done.
  - exfalso. apply Hx. rewrite E. apply list_elem_of_In, in_map_iff. eauto.
  - exfalso. apply Hx. rewrite <- E. apply list_elem_of_In, in_map_iff. eauto.
  - by apply IH.
Qed.

Lemma loadProgress_loaded props db actor st eid :
  uuid_in (enrollmentId props) = Some eid ->
  progress (loadProgress props db actor st).1 =
  fold_left (fun m p => <[LessonProgress.lesson_id p := p]> m)
    (List.filter
       (fun p => (LessonProgress.enrollment_id p =? eid)%string)
       (rows_for actor
          (fun uid => List.filter (lesson_progress_select_using db uid)
                        (lesson_progress db))))
    (∅ : gmap string LessonProgress.t).
Proof.
  intros Hid. unfold loadProgress, select_lesson_progress.
  by rewrite bind_cast, Hid.
Qed.

Lemma select_progress_iff_owner db uid p :
  lesson_progress_select_using db uid p = true <->
  owns db uid (LessonProgress.enrollment_id p).
Proof.
  split; [|by intros (_ & _ & _ & ?)%progress_policies_of_owner].
  unfold lesson_progress_select_using.
  intros [H|H]%orb_true_iff; by apply manage_progress_iff.
Qed.

Lemma loadProgress_rows props db actor st eid :
  uuid_in (enrollmentId props) = Some eid ->
  let m := progress (loadProgress props db actor st).1 in
  (forall lid p, m !! lid = Some p ->
     In p (lesson_progress db) /\
     LessonProgress.enrollment_id p = eid /\
     LessonProgress.lesson_id p = lid /\
     exists uid, actor = Some uid /\ owns db uid (eid)) /\
  (forall uid p, actor = Some uid -> owns db uid (eid) ->
     In p (lesson_progress db) ->
     LessonProgress.enrollment_id p = eid ->
     is_Some (m !! LessonProgress.lesson_id p) /\
     (one_progress_row_per_lesson db ->
      m !! LessonProgress.lesson_id p = Some p)).
Proof.
  intros Hid m. unfold m. rewrite (loadProgress_loaded props db actor st eid Hid).
  assert (forall lid p,
            fold_left (fun m p => <[LessonProgress.lesson_id p := p]> m)
              (List.filter
                 (fun p => (LessonProgress.enrollment_id p
                            =? eid)%string)
                 (rows_for actor
                    (fun uid => List.filter (lesson_progress_select_using db uid)
                                  (lesson_progress db))))
              (∅ : gmap string LessonProgress.t) !! lid = Some p ->
            In p (lesson_progress db) /\
            LessonProgress.enrollment_id p = eid /\
            LessonProgress.lesson_id p = lid /\
            exists uid, actor = Some uid /\ owns db uid (eid))
    as Hsound.
  { intros lid p [[Hin Hk]|H]%progressMap_lookup_Some; [|done].
    apply filter_In in Hin as [Hin He%eqb_true].
    destruct actor as [uid|]; [|done]. simpl in Hin.
    apply filter_In in Hin as [Hin Hsel%select_progress_iff_owner].
    repeat split; try done. exists uid. by rewrite <- He. }
  split; [done|].
  intros uid p -> Hown Hin He.
  assert (In p (List.filter
                  (fun p => (LessonProgress.enrollment_id p
                             =? eid)%string)
                  (rows_for (Some uid)
                     (fun uid => List.filter (lesson_progress_select_using db uid)
                                   (lesson_progress db))))) as Hshown.
  { apply filter_In. split; [|by apply eqb_true]. simpl.
    apply filter_In. split; [done|].
    apply select_progress_iff_owner. by rewrite He. }
  pose proof (progressMap_lookup_is_Some _ ∅ p Hshown) as [p' Hp'].
  split; [by exists p'|].
  intros Hunique. rewrite Hp'. f_equal.
  destruct (Hsound _ _ Hp') as (Hin' & He' & Hl' & _).
  apply (unique_by_key progress_key (lesson_progress db)); try done.
  unfold progress_key. by rewrite He, He', Hl'.
Qed.

Lemma loadProgress_not_loaded props db actor st :
  uuid_in (enrollmentId props) = None ->
  loadProgress props db actor st = (st, Some invalid_text_representation).
Proof.
  intros Hid. unfold loadProgress, select_lesson_progress.
  by rewrite bind_cast, Hid.
Qed.

(** X3.  [loadProgress] casts [enrollmentId] to a uuid.  When the text
    denotes one, in whatever spelling, the player's progress map holds,
    under each lesson id, a [lesson_progress] row of that enrollment for
    that lesson, and only when the caller is the enrollment's student;
    for that student every stored row of the enrollment is found under
    its lesson, and it is that very row when the table has one row per
    (enrollment, lesson).  When the text denotes none, the map stays as
    it was and the error is logged. *)
Theorem player_progress_map_holds_own_rows props db actor st :
  let m := progress (loadProgress props db actor st).1 in
  (forall eid, uuid_in (enrollmentId props) = Some eid ->
     (forall lid p, m !! lid = Some p ->
        In p (lesson_progress db) /\
        LessonProgress.enrollment_id p = eid /\
        LessonProgress.lesson_id p = lid /\
        exists uid, actor = Some uid /\ owns db uid eid) /\
     (forall uid p, actor = Some uid -> owns db uid eid ->
        In p (lesson_progress db) ->
        LessonProgress.enrollment_id p = eid ->
        is_Some (m !! LessonProgress.lesson_id p) /\
        (one_progress_row_per_lesson db ->
         m !! LessonProgress.lesson_id p = Some p))) /\
  (uuid_in (enrollmentId props) = None ->
   m = progress st /\
   (loadProgress props db actor st).2 = Some invalid_text_representation).
Proof.
  intros m. split.
  - intros eid Hid. exact (loadProgress_rows props db actor st eid Hid).
  - intros Hid. unfold m.
    by rewrite (loadProgress_not_loaded props db actor st Hid).
Qed.

Lemma player_progress_map_holds_own_rows_witness :
  progress (loadProgress
              (mkProps Ex.course_id "00000000-0000-0000-0000-0000000000E1")
              (Ex.enrolled_db 4 2 None 50)
              (Some Ex.student_id) initialState).1
  !! LessonProgress.lesson_id (Ex.watched 2 true) = Some (Ex.watched 2 true).
Proof.
  refine (proj2 (proj2 (proj1 (player_progress_map_holds_own_rows
            (mkProps Ex.course_id "00000000-0000-0000-0000-0000000000E1")
            (Ex.enrolled_db 4 2 None 50) (Some Ex.student_id) initialState)
            Ex.enrollment_id _)
            Ex.student_id (Ex.watched 2 true) _ _ _ _) _).
  - reflexivity.
  - reflexivity.
  - exists (Ex.enrollment None 50). vm_compute. auto.
  - vm_compute. auto.
  - reflexivity.
  - unfold one_progress_row_per_lesson.
    apply (bool_decide_unpack _). vm_compute. exact I.
Defined.

Lemma loadCourseContent_progress props db actor st :
  progress (loadCourseContent props db actor st).1 = progress st.
Proof.
  unfold loadCourseContent.
  destruct (select_sections_with_lessons _ _ _) as [sectionsData|]; [|done].
  destruct (map _ sectionsData) as [|first rest]; [done|].
  by destruct (section_lessons first).
Qed.

(** X4.  A caller who is not the student of the enrollment that
    [enrollmentId] denotes gets an empty progress map when the player is
    opened: nobody else's progress is shown, not even to the instructor
    of the course. *)
Theorem player_of_a_stranger_shows_no_progress props db actor :
  (forall uid eid, actor = Some uid ->
     uuid_in (enrollmentId props) = Some eid -> ~ owns db uid eid) ->
  progress (mount props db actor) = ∅.
Proof.
  intros Hnot. unfold mount.
  destruct (uuid_in (enrollmentId props)) as [eid|] eqn:Hid.
  - apply map_eq. intros lid. rewrite lookup_empty.
    destruct (_ !! lid) as [p|] eqn:E; [|done]. exfalso.
    destruct (loadProgress_rows props db actor
                (loadCourseContent props db actor initialState).1 eid Hid)
      as [Hsound _].
    destruct (Hsound lid p E) as (_ & _ & _ & uid & Hactor & Hown).
    by apply (Hnot uid eid).
  - rewrite (loadProgress_not_loaded props db actor _ Hid). cbn [fst].
    apply loadCourseContent_progress.
Qed.

Lemma player_of_a_stranger_shows_no_progress_witness :
  progress (mount Ex.props (Ex.enrolled_db 4 2 None 50)
              (Some Ex.instructor_id)) = ∅.
Proof.
  apply (player_of_a_stranger_shows_no_progress Ex.props
           (Ex.enrolled_db 4 2 None 50) (Some Ex.instructor_id)).
  intros uid eid [= <-] Hid. vm_compute in Hid. injection Hid as <-.
  intros (e & [<-|[]] & _ & H). discriminate H.
Defined.

(** The player opened with another spelling of the same enrollment id
    shows the student the same progress. *)
Example progress_under_another_spelling :
  let db := Ex.enrolled_db 4 2 None 50 in
  let props :=
    mkProps Ex.course_id "{0000000000000000-000000000000-00E1}" in
  progress (mount props db (Some Ex.student_id)) =
  progress (mount Ex.props db (Some Ex.student_id)) /\
  completedLessons (mount props db (Some Ex.student_id)) = 2 /\
  progress (mount props db (Some Ex.instructor_id)) = ∅.
Proof. repeat split; vm_compute; reflexivity. Qed.

(** ** CoursePlayer.tsx: one progress update, start to end *)

Lemma upsert_lesson_progress_result
    db actor new_id etext ltext w c now db1 data :
  upsert_lesson_progress db actor new_id etext ltext w c now = Ok (db1, data) ->
  (uuid_in etext = Some (LessonProgress.enrollment_id data) /\
   uuid_in ltext = Some (LessonProgress.lesson_id data) /\
   LessonProgress.watched_seconds data = w /\
   LessonProgress.is_completed data = c /\
   LessonProgress.last_watched_at data = now) /\
  In data (lesson_progress db1) /\
  (forall p, In p (lesson_progress db1) ->
             same_progress_key (LessonProgress.enrollment_id data)
               (LessonProgress.lesson_id data) p = true -> p = data) /\
  (forall p, In p (lesson_progress db) ->
             same_progress_key (LessonProgress.enrollment_id data)
               (LessonProgress.lesson_id data) p = false ->
             In p (lesson_progress db1)) /\
  (one_progress_row_per_lesson db -> one_progress_row_per_lesson db1) /\
  (profiles db1 = profiles db /\ courses db1 = courses db /\
   course_sections db1 = course_sections db /\ lessons db1 = lessons db /\
   certificates db1 = certificates db).
Proof.
  unfold upsert_lesson_progress. intros H.
  casted H eid He. casted H lid Hl.
  rewrite bind_integer in H. destruct (int4 w); [|done].
  destruct actor as [uid|]; [|done]. cbn [authenticated] in H.
  rewrite bind_Ok in H. passed H.
  destruct (List.find _ _) as [old|] eqn:Hfind.
  - do 2 passed H. injection H as <- <-.
    apply find_some in Hfind as [Hold Hkey].
    cbn [lesson_progress set_lesson_progress LessonProgress.enrollment_id
         LessonProgress.lesson_id LessonProgress.watched_seconds
         LessonProgress.is_completed LessonProgress.last_watched_at].
    split; [done|]. split; [|split; [|split; [|split; [|done]]]].
    + apply in_map_iff. exists old. by rewrite Hkey.
    + intros p (q & Hq & _)%in_map_iff Hp.
      destruct (same_progress_key eid lid q) eqn:E; [done|]. subst p. congruence.
    + intros p Hp E. apply in_map_iff. exists p. by rewrite E.
    + unfold one_progress_row_per_lesson.
      cbn [lesson_progress set_lesson_progress]. rewrite map_map.
      assert (map (fun x => progress_key
                     (if same_progress_key eid lid x
                      then LessonProgress.mk (LessonProgress.id old) eid lid w c now
                      else x)) (lesson_progress db) =
              map progress_key (lesson_progress db)) as ->; [|done].
      apply map_ext. intros p.
      destruct (same_progress_key eid lid p) eqn:E; [|done].
      apply same_progress_key_true in E as [E1 E2].
      unfold progress_key. simpl. by rewrite E1, E2.
  - do 4 passed H. injection H as <- <-.
    cbn [lesson_progress set_lesson_progress LessonProgress.enrollment_id
         LessonProgress.lesson_id LessonProgress.watched_seconds
         LessonProgress.is_completed LessonProgress.last_watched_at].
    split; [done|]. split; [|split; [|split; [|split; [|done]]]].
    + apply in_or_app. right. by left.
    + intros p [Hp|[<-|[]]]%in_app_or Hk; [|done].
      apply find_none with (x := p) in Hfind; [congruence|done].
    + intros p Hp _. apply in_or_app. by left.
    + unfold one_progress_row_per_lesson.
      cbn [lesson_progress set_lesson_progress].
      rewrite map_app. intros Hnodup. apply NoDup_app.
      split; [done|]. split; [|apply NoDup_singleton].
      intros k (p & <- & Hp)%list_elem_of_In%in_map_iff
        Hk%list_elem_of_singleton.
      apply find_none with (x := p) in Hfind; [|done].
      unfold progress_key in Hk. simpl in Hk. injection Hk as E1 E2.
      assert (same_progress_key eid lid p = true)
        by (by apply same_progress_key_true). congruence.
Qed.

Lemma update_enrollment_rows db actor p c text db' :
  update_enrollment db actor p c text = Ok db' ->
  (profiles db' = profiles db /\ courses db' = courses db /\
   course_sections db' = course_sections db /\ lessons db' = lessons db /\
   lesson_progress db' = lesson_progress db /\
   certificates db' = certificates db) /\
  map Enrollment.id (enrollments db') = map Enrollment.id (enrollments db) /\
  map enrollment_key (enrollments db') = map enrollment_key (enrollments db) /\
  (forall e, In e (enrollments db) ->
             uuid_in text <> Some (Enrollment.id e) \/
             actor <> Some (Enrollment.student_id e) ->
             In e (enrollments db')).
Proof.
  unfold update_enrollment. intros H. casted H eid Hid.
  destruct actor as [uid|]; [|injection H as <-; by repeat split].
  do 2 passed H. injection H as <-. cbn [enrollments set_enrollments].
  split; [done|]. rewrite !map_map. split; [|split].
  - apply map_ext. intros e. by destruct (_ && _).
  - apply map_ext. intros e. by destruct (_ && _).
  - intros e Hin Hne. apply in_map_iff. exists e. split; [|done].
    rewrite targeted_iff_own.
    destruct (_ =? eid)%string eqn:E1; [|done].
    destruct (_ =? uid)%string eqn:E2; [|done].
    apply eqb_true in E1, E2. destruct Hne; congruence.
Qed.

Lemma updateEnrollmentProgress_owns props st db actor now uid eid :
  owns db uid eid ->
  owns (updateEnrollmentProgress props st db actor now).1 uid eid.
Proof.
  unfold updateEnrollmentProgress.
  destruct (update_enrollment _ _ _ _ _) as [db'|] eqn:E; [|done].
  revert E. unfold update_enrollment. intros H. casted H id' Hid.
  destruct actor as [uid'|]; [|by injection H as <-].
  do 2 passed H. injection H as <-.
  intros (e & Hin & H1 & H2). cbn [fst enrollments set_enrollments].
  eexists. split; [apply in_map_iff; exists e; split; [reflexivity|done]|].
  by destruct (_ && _).
Qed.

(** X5.  When the upsert of a progress update goes through, the row it
    returns carries the position and the flag that were sent; the
    player's map holds it under the lesson id the handler was called
    with, so the side bar's check mark and the resume position of that
    lesson are the values sent; and a player opened afterwards on the
    resulting database finds the same row under the id of the lesson,
    which is the id the handler was called with when that is spelled as
    the server prints it. *)
Theorem progress_update_is_what_a_reload_shows
    props st st0 db actor new_id now now' lid w c db1 data :
  upsert_lesson_progress db actor new_id (enrollmentId props) lid w c now
  = Ok (db1, data) ->
  let r := handleProgressUpdate props st db actor new_id now now' lid w c in
  (LessonProgress.watched_seconds data = w /\
   LessonProgress.is_completed data = c) /\
  progress r.1.2 !! lid = Some data /\
  (forall lesson, Lesson.id lesson = lid ->
     isCompleted r.1.2 lesson = c /\ initialProgress r.1.2 lesson = w) /\
  uuid_in lid = Some (LessonProgress.lesson_id data) /\
  progress (loadProgress props r.1.1 actor st0).1
    !! LessonProgress.lesson_id data = Some data /\
  (is_uuid lid = true ->
   progress (loadProgress props r.1.1 actor st0).1 !! lid = Some data).
Proof.
  intros Hup r.
  destruct (upsert_lesson_progress_result _ _ _ _ _ _ _ _ _ _ Hup)
    as ((He & Hl & Hw & Hc & _) & Hin & Hall & _).
  destruct (upsert_lesson_progress_inv _ _ _ _ _ _ _ _ _ _ Hup)
    as (_ & _ & _ & (uid & -> & Hown) & Henr).
  assert (r = ((updateEnrollmentProgress props st db1 (Some uid) now').1,
               mkState (sections st) (currentLesson st)
                 (<[lid := data]> (progress st))
                 (expandedSections st) (loading st),
               (updateEnrollmentProgress props st db1 (Some uid) now').2))
    as Hr by (by apply handleProgressUpdate_after_upsert).
  rewrite Hr. cbn [fst snd progress].
  split; [done|]. split; [apply lookup_insert_eq|]. split.
  { intros lesson <-. unfold isCompleted, initialProgress. cbn [progress].
    by rewrite lookup_insert_eq. }
  split; [done|].
  set (db' := (updateEnrollmentProgress props st db1 (Some uid) now').1).
  assert (progress (loadProgress props db' (Some uid) st0).1
            !! LessonProgress.lesson_id data = Some data) as Hreload.
  { assert (owns db' uid (LessonProgress.enrollment_id data)) as Hown'.
    { apply updateEnrollmentProgress_owns.
      destruct Hown as (e & ? & ? & ?). exists e. by rewrite Henr. }
    assert (lesson_progress db' = lesson_progress db1) as Hlp
      by apply updateEnrollmentProgress_frame.
    destruct (loadProgress_rows props db' (Some uid) st0 _ He)
      as [Hsound Hcomplete].
    destruct (Hcomplete uid data eq_refl Hown') as [[p Hp] _];
      [by rewrite Hlp|done|].
    rewrite Hp. f_equal.
    destruct (Hsound _ p Hp) as (Hpin & Hpe & Hpl & _).
    apply Hall; [by rewrite <- Hlp|]. by apply same_progress_key_true. }
  split; [exact Hreload|].
  intros Hcanon%is_uuid_in. rewrite Hcanon in Hl. injection Hl as Hl.
  rewrite Hl. exact Hreload.
Qed.

Lemma progress_update_is_what_a_reload_shows_witness :
  progress
    (loadProgress Ex.props
       (handleProgressUpdate Ex.props initialState (Ex.enrolled_db 4 1 None 25)
          (Some Ex.student_id) (Ex.progress_id 9) 30 31 (Ex.lesson_id 2)
          12 false).1.1
       (Some Ex.student_id) initialState).1
  !! Ex.lesson_id 2 =
  Some (LessonProgress.mk (Ex.progress_id 9) Ex.enrollment_id (Ex.lesson_id 2)
          12 false 30).
Proof.
  refine (proj2 (proj2 (proj2 (proj2 (proj2
            (progress_update_is_what_a_reload_shows Ex.props
            initialState initialState (Ex.enrolled_db 4 1 None 25)
            (Some Ex.student_id) (Ex.progress_id 9) 30 31 (Ex.lesson_id 2)
            12 false
            (set_lesson_progress (Ex.enrolled_db 4 1 None 25)
               [Ex.watched 1 true;
                LessonProgress.mk (Ex.progress_id 9) Ex.enrollment_id
                  (Ex.lesson_id 2) 12 false 30])
            _ _))))) _).
  - vm_compute. reflexivity.
  - reflexivity.
Defined.

(** X6.  A progress update sent by anyone but the student of the
    enrollment that [enrollmentId] denotes, or without a session,
    changes neither the database nor the player's state; the error is
    logged. *)
Theorem progress_update_by_a_stranger_changes_nothing
    props st db actor new_id now now' lid w c :
  (forall uid eid, actor = Some uid ->
     uuid_in (enrollmentId props) = Some eid -> ~ owns db uid eid) ->
  exists error,
    handleProgressUpdate props st db actor new_id now now' lid w c =
    (db, st, Some error).
Proof.
  intros Hnot. unfold handleProgressUpdate.
  destruct (upsert_lesson_progress _ _ _ _ _ _ _ _) as [[db1 data]|error] eqn:E;
    [|by exists error].
  apply upsert_lesson_progress_inv in E
    as (Hid & _ & _ & (uid & Hactor & Hown) & _).
  by destruct (Hnot uid _ Hactor Hid).
Qed.

Lemma progress_update_by_a_stranger_changes_nothing_witness :
  exists error,
    handleProgressUpdate Ex.props initialState (Ex.enrolled_db 4 1 None 25)
      (Some Ex.instructor_id) (Ex.progress_id 9) 30 31 (Ex.lesson_id 1)
      0 false =
    (Ex.enrolled_db 4 1 None 25, initialState, Some error).
Proof.
  apply (progress_update_by_a_stranger_changes_nothing Ex.props initialState
           (Ex.enrolled_db 4 1 None 25) (Some Ex.instructor_id)).
  intros uid eid [= <-] Hid. vm_compute in Hid. injection Hid as <-.
  intros (e & [<-|[]] & _ & H). discriminate H.
Defined.

(** X7.  When the recomputed percentage falls outside 0..100 (more
    completed rows in the progress map than lessons on screen), the
    CHECK constraint refuses the update of the caller's enrollment: the
    database stays as it was and the error is logged. *)
Theorem out_of_range_percentage_is_refused props st db uid now e :
  is_uuid (enrollmentId props) = true ->
  In e (enrollments db) ->
  Enrollment.id e = enrollmentId props ->
  Enrollment.student_id e = uid ->
  ~ 0 <= progressPercentage (completedLessons st) (totalLessons st) <= 100 ->
  updateEnrollmentProgress props st db (Some uid) now =
  (db, Some (check_violation "enrollments_progress_percentage_check")).
Proof.
  intros Hid%is_uuid_in Hin H1 H2 Hp.
  unfold updateEnrollmentProgress, update_enrollment.
  rewrite bind_cast, Hid, bind_require.
  assert (forallb _ (enrollments db) = true) as ->.
  { apply forallb_forall. intros x _. rewrite targeted_iff_own.
    destruct (_ && _) eqn:E; [simpl|done].
    by apply andb_true_iff in E as [_ E]. }
  rewrite bind_require.
  assert (forallb _ (enrollments db) = false) as ->; [|done].
  apply not_true_is_false. intros Hall. rewrite forallb_forall in Hall.
  specialize (Hall e Hin). rewrite targeted_iff_own in Hall.
  rewrite H1, H2, !String.eqb_refl in Hall. simpl in Hall.
  apply Hp. unfold progress_percentage_check in Hall. lia.
Qed.

Lemma out_of_range_percentage_is_refused_witness :
  updateEnrollmentProgress Ex.mismatched_props
    (mount Ex.mismatched_props (Ex.enrolled_db 4 2 None 50)
       (Some Ex.student_id))
    (Ex.enrolled_db 4 2 None 50) (Some Ex.student_id) 60 =
  (Ex.enrolled_db 4 2 None 50,
   Some (check_violation "enrollments_progress_percentage_check")).
Proof.
  apply (out_of_range_percentage_is_refused Ex.mismatched_props _
           (Ex.enrolled_db 4 2 None 50) Ex.student_id 60
           (Ex.enrollment None 50)).
  - reflexivity.
  - vm_compute. auto.
  - reflexivity.
  - reflexivity.
  - vm_compute. intros [_ H]. by apply H.
Defined.

(** X8.  A progress update writes at most one [lesson_progress] key and
    one enrollment: the catalogue, the profiles and the certificates
    are untouched, no enrollment is added or removed, every enrollment
    other than the caller's own one that [enrollmentId] denotes is kept
    as it is, and so is every progress row of another (enrollment,
    lesson) than the pair the two texts denote. *)
Theorem progress_update_touches_one_enrollment
    props st db actor new_id now now' lid w c :
  let db' :=
    (handleProgressUpdate props st db actor new_id now now' lid w c).1.1 in
  (profiles db' = profiles db /\ courses db' = courses db /\
   course_sections db' = course_sections db /\ lessons db' = lessons db /\
   certificates db' = certificates db) /\
  map Enrollment.id (enrollments db') = map Enrollment.id (enrollments db) /\
  (forall e, In e (enrollments db) ->
     uuid_in (enrollmentId props) <> Some (Enrollment.id e) \/
     actor <> Some (Enrollment.student_id e) ->
     In e (enrollments db')) /\
  (forall p, In p (lesson_progress db) ->
     uuid_in (enrollmentId props) <> Some (LessonProgress.enrollment_id p) \/
     uuid_in lid <> Some (LessonProgress.lesson_id p) ->
     In p (lesson_progress db')).
Proof.
  intros db'. unfold db', handleProgressUpdate.
  destruct (upsert_lesson_progress _ _ _ _ _ _ _ _) as [[db1 data]|error] eqn:E;
    [|done].
  destruct (upsert_lesson_progress_result _ _ _ _ _ _ _ _ _ _ E)
    as ((He & Hl & _) & _ & _ & Hkeep & _ & (F1 & F2 & F3 & F4 & F5)).
  destruct (upsert_lesson_progress_inv _ _ _ _ _ _ _ _ _ _ E)
    as (_ & _ & _ & _ & Henr).
  assert (forall p, In p (lesson_progress db) ->
            uuid_in (enrollmentId props) <>
              Some (LessonProgress.enrollment_id p) \/
            uuid_in lid <> Some (LessonProgress.lesson_id p) ->
            In p (lesson_progress db1)) as Hkeep'.
  { intros p Hp Hne. apply Hkeep; [done|].
    destruct (same_progress_key _ _ p) eqn:Hk; [|done].
    apply same_progress_key_true in Hk as [K1 K2].
    rewrite He, Hl, K1, K2 in Hne. by destruct Hne. }
  unfold updateEnrollmentProgress.
  destruct (update_enrollment _ _ _ _ _) as [db2|error] eqn:E2; cbn [fst].
  - destruct (update_enrollment_rows _ _ _ _ _ _ E2)
      as ((G1 & G2 & G3 & G4 & G5 & G6) & Hids & _ & Hother).
    split; [by rewrite G1, G2, G3, G4, G6|].
    split; [by rewrite Hids, Henr|]. split.
    + intros e Hin Hne. apply Hother; [by rewrite Henr|done].
    + intros p Hp Hk. rewrite G5. by apply Hkeep'.
  - rewrite Henr. by repeat split; try apply Hkeep'.
Qed.

(** X9.  [toggleSection] changes the expanded state of the one section
    it is called for and nothing else, and calling it twice for the
    same section restores the player's state. *)
Theorem toggleSection_twice_restores sectionId st :
  toggleSection sectionId (toggleSection sectionId st) = st /\
  (sectionId ∈ expandedSections (toggleSection sectionId st) <->
   sectionId ∉ expandedSections st) /\
  (forall other, other <> sectionId ->
     (other ∈ expandedSections (toggleSection sectionId st) <->
      other ∈ expandedSections st)).
Proof.
  destruct st as [ss cl pr ex ld]. unfold toggleSection. simpl.
  split; [|split].
  - f_equal. destruct (bool_decide (sectionId ∈ ex)) eqn:E.
    + apply bool_decide_eq_true in E.
      rewrite bool_decide_eq_false_2 by set_solver.
      apply set_eq. intros x. destruct (decide (x = sectionId)); set_solver.
    + apply bool_decide_eq_false in E.
      rewrite bool_decide_eq_true_2 by set_solver. set_solver.
  - destruct (bool_decide (sectionId ∈ ex)) eqn:E.
    + apply bool_decide_eq_true in E. set_solver.
    + apply bool_decide_eq_false in E. set_solver.
  - intros other Hne. destruct (bool_decide (sectionId ∈ ex)); set_solver.
Qed.

(** X10.  A progress update keeps the table's uniqueness constraints:
    one [lesson_progress] row per (enrollment, lesson) and one
    enrollment per (student, course), whether the update goes through
    or is refused. *)
Theorem progress_update_keeps_rows_unique
    props st db actor new_id now now' lid w c :
  one_progress_row_per_lesson db ->
  one_enrollment_per_course db ->
  let db' :=
    (handleProgressUpdate props st db actor new_id now now' lid w c).1.1 in
  one_progress_row_per_lesson db' /\ one_enrollment_per_course db'.
Proof.
  intros Hp He db'. unfold db', handleProgressUpdate.
  destruct (upsert_lesson_progress _ _ _ _ _ _ _ _) as [[db1 data]|error] eqn:E;
    [|done].
  destruct (upsert_lesson_progress_result _ _ _ _ _ _ _ _ _ _ E)
    as (_ & _ & _ & _ & Hinv & _).
  destruct (upsert_lesson_progress_inv _ _ _ _ _ _ _ _ _ _ E)
    as (_ & _ & _ & _ & Henr).
  unfold updateEnrollmentProgress.
  destruct (update_enrollment _ _ _ _ _) as [db2|error] eqn:E2; cbn [fst].
  - destruct (update_enrollment_rows _ _ _ _ _ _ E2)
      as ((_ & _ & _ & _ & G5 & _) & _ & Hkeys & _).
    unfold one_progress_row_per_lesson, one_enrollment_per_course in *.
    rewrite G5, Hkeys, Henr. split; [by apply Hinv|done].
  - unfold one_enrollment_per_course in *. rewrite Henr. split; [by apply Hinv|done].
Qed.

Lemma progress_update_keeps_rows_unique_witness :
  one_progress_row_per_lesson
    (handleProgressUpdate Ex.props initialState (Ex.enrolled_db 4 2 None 50)
       (Some Ex.student_id) (Ex.progress_id 9) 30 31 (Ex.lesson_id 3)
       12 true).1.1 /\
  one_enrollment_per_course
    (handleProgressUpdate Ex.props initialState (Ex.enrolled_db 4 2 None 50)
       (Some Ex.student_id) (Ex.progress_id 9) 30 31 (Ex.lesson_id 3)
       12 true).1.1.
Proof.
  apply (progress_update_keeps_rows_unique Ex.props initialState
           (Ex.enrolled_db 4 2 None 50) (Some Ex.student_id)).
  - unfold one_progress_row_per_lesson.
    apply (bool_decide_unpack _). vm_compute. exact I.
  - unfold one_enrollment_per_course.
    apply (bool_decide_unpack _). vm_compute. exact I.
Defined.

(** ** App.tsx: which screen is shown *)

Ltac by_view :=
  repeat match goal with
         | |- context [(?v =? ?s)%string] =>
             is_var v; destruct (String.eqb_spec v s) as [->|?]; simpl
         end.

(** X11.  Whatever the view name, the selections and the profile are,
    [AppContent] shows at most one screen under the header. *)
Theorem at_most_one_screen loading profile st :
  (length (AppContent loading profile st) <= 1)%nat.
Proof.
  unfold AppContent. destruct loading; [simpl; lia|].
  destruct st as [v c e]. simpl. by_view;
    repeat case_match; simpl; lia.
Qed.

(** X12.  After [handleNavigate], whatever view it is asked for, neither
    the course page nor the player is shown: both selections are
    cleared, so these two screens are reached only through
    [handleCourseClick] and [handleStartLearning]. *)
Theorem navigation_never_opens_course_or_player newView loading profile st :
  (forall courseId,
     ~ In (CourseDetail courseId)
          (AppContent loading profile (handleNavigate newView st))) /\
  (forall props,
     ~ In (CoursePlayer props)
          (AppContent loading profile (handleNavigate newView st))).
Proof.
  unfold AppContent, handleNavigate.
  destruct loading; [split; intros ? []|].
  simpl. split; intros x; by_view;
    repeat case_match; simpl; intros Hin;
    repeat (destruct Hin as [Hin|Hin]; [discriminate Hin|]); done.
Qed.

(** X13.  A click on a course shows that course's page, "Continue"
    shows the player with an empty course id, and after enrolling the
    dashboard of the profile's role is shown; without a loaded profile
    the dashboard view shows nothing. *)
Theorem screens_after_the_handlers profile st id :
  id <> "" ->
  AppContent false profile (handleCourseClick id st) = [CourseDetail id] /\
  AppContent false profile (handleStartLearning id st) =
  [CoursePlayer (mkProps "" id)] /\
  AppContent false profile (App_handleEnroll st) =
  match profile with
  | Some p => match Profile.role p with
              | student => [StudentDashboard]
              | instructor => [InstructorDashboard]
              end
  | None => []
  end.
Proof.
  intros Hne%String.eqb_neq.
  unfold AppContent, handleCourseClick, handleStartLearning, App_handleEnroll.
  simpl. rewrite Hne. split; [done|]. split; [done|].
  destruct profile as [p|]; [|done]. by destruct (Profile.role p).
Qed.

Lemma screens_after_the_handlers_witness :
  AppContent false (Some Ex.learner)
    (handleCourseClick Ex.course_id (mkApp "courses" None None)) =
  [CourseDetail Ex.course_id].
Proof.
  refine (proj1 (screens_after_the_handlers (Some Ex.learner)
                   (mkApp "courses" None None) Ex.course_id _)).
  discriminate.
Defined.

(** ** Lists of rows *)

Lemma StronglySorted_weaken {A} (R R' : A -> A -> Prop) (l : list A) :
  (forall a b, R a b -> R' a b) ->
  StronglySorted R l -> StronglySorted R' l.
Proof.
  intros HR. induction 1 as [|x l Hl IH Hx]; constructor; [done|].
  eapply Forall_impl; [exact Hx|]. intros y. apply HR.
Qed.

Lemma filter_twice {A} (f g : A -> bool) (l : list A) :
  List.filter f (List.filter g l) = List.filter (fun x => g x && f x) l.
Proof.
  induction l as [|x l IH]; simpl; [done|].
  destruct (g x); simpl; [|done]. destruct (f x); by rewrite IH.
Qed.

Lemma filter_perm {A} (f : A -> bool) (l l' : list A) :
  Permutation l l' -> Permutation (List.filter f l) (List.filter f l').
Proof.
  induction 1 as [|x l l' _ IH|x y l|l l' l'' _ IH1 _ IH2]; simpl.
  - done.
  - destruct (f x); by rewrite IH.
  - destruct (f x), (f y); try done. apply perm_swap.
  - by rewrite IH1.
Qed.

Lemma filter_split {A} (f : A -> bool) (l : list A) :
  Permutation (List.filter (fun x => negb (f x)) l ++ List.filter f l) l.
Proof.
  induction l as [|x l IH]; simpl; [done|].
  destruct (f x); simpl.
  - rewrite <- Permutation_middle. by constructor.
  - by constructor.
Qed.

Lemma filter_none {A} (f : A -> bool) (l : list A) :
  (forall x, In x l -> f x = false) -> List.filter f l = [].
Proof.
  induction l as [|x l IH]; simpl; [done|]. intros H.
  rewrite (H x) by (by left). apply IH. intros y Hy. apply H. by right.
Qed.

Lemma NoDup_map_filter {A B} (f : A -> B) (g : A -> bool) (l : list A) :
  NoDup (map f l) -> NoDup (map f (List.filter g l)).
Proof.
  induction l as [|x l IH]; simpl; [done|].
  intros [Hx Hl]%NoDup_cons. destruct (g x); simpl; [|by apply IH].
  apply NoDup_cons. split; [|by apply IH].
  intros (y & E & [Hy _]%filter_In)%list_elem_of_In%in_map_iff.
  apply Hx, list_elem_of_In, in_map_iff. eauto.
Qed.

(** ** Enrollments: who reads them *)

Lemma enrollments_select_iff db uid e :
  enrollments_select_using db uid e = true <->
  Enrollment.student_id e = uid \/
  exists c, In c (courses db) /\ Course.id c = Enrollment.course_id e /\
            Course.instructor_id c = uid.
Proof.
  unfold enrollments_select_using, Students_can_view_own_enrollments,
    Instructors_can_view_course_enrollments.
  rewrite orb_true_iff, eqb_true, existsb_exists. split.
  - intros [H|(c & [Hc _]%filter_In & [H1%eqb_true H2%eqb_true]%andb_true_iff)];
      [by left|right; by exists c].
  - intros [H|(c & Hc & H1 & H2)]; [by left|right].
    exists c. split.
    + apply filter_In. split; [done|].
      unfold courses_select_using, Anyone_can_view_published_courses.
      by rewrite H2, String.eqb_refl, orb_true_r.
    + by rewrite H1, H2, !String.eqb_refl.
Qed.

(** X14.  A caller reads an enrollment exactly when it is the caller's
    own or belongs to a course the caller teaches; the instructor
    policy's sub-select on [courses] hides nothing from the instructor. *)
Theorem enrollment_is_read_by_student_and_instructor db uid e :
  enrollments_select_using db uid e = true <->
  Enrollment.student_id e = uid \/
  exists c, In c (courses db) /\ Course.id c = Enrollment.course_id e /\
            Course.instructor_id c = uid.
Proof. exact (enrollments_select_iff db uid e). Qed.

(** X15.  The number of students shown for a course is the number of
    its enrollments that the viewer may read: every enrollment of the
    course for its instructor, the viewer's own enrollment only (at
    most one) for anybody else, and none for a visitor without a
    session. *)
Theorem enrollment_count_is_what_the_viewer_reads db uid c :
  (Course.instructor_id c = uid -> In c (courses db) ->
   embedded_enrollments db (Some uid) (Course.id c) =
   List.filter (fun e => (Enrollment.course_id e =? Course.id c)%string)
     (enrollments db)) /\
  ((forall c', In c' (courses db) -> Course.id c' = Course.id c ->
               Course.instructor_id c' <> uid) ->
   embedded_enrollments db (Some uid) (Course.id c) =
   List.filter (same_enrollment_key uid (Course.id c)) (enrollments db) /\
   (one_enrollment_per_course db -> enrollmentCount db (Some uid) c <= 1)) /\
  enrollmentCount db None c = 0.
Proof.
  unfold enrollmentCount, embedded_enrollments. simpl.
  unfold visible_enrollments. rewrite filter_twice.
  split; [|split; [|done]].
  - intros Hi Hc. apply filter_ext_in. intros e He.
    destruct (_ =? Course.id c)%string eqn:E; [|by rewrite andb_false_r].
    rewrite andb_true_r. apply enrollments_select_iff.
    right. exists c. by apply eqb_true in E.
  - intros Hnot.
    assert (List.filter
              (fun x => enrollments_select_using db uid x &&
                        (Enrollment.course_id x =? Course.id c)%string)
              (enrollments db) =
            List.filter (same_enrollment_key uid (Course.id c))
              (enrollments db)) as ->.
    { apply filter_ext_in. intros e He. unfold same_enrollment_key.
      destruct (_ =? Course.id c)%string eqn:E;
        [|by rewrite !andb_false_r].
      rewrite !andb_true_r. apply eqb_true in E.
      destruct (enrollments_select_using db uid e) eqn:Hs.
      - apply enrollments_select_iff in Hs
          as [Hs|(c' & Hc' & H1 & H2)]; [by symmetry; apply eqb_true|].
        destruct (Hnot c' Hc'); congruence.
      - symmetry. apply not_true_is_false. intros Hs'%eqb_true.
        apply not_true_iff_false in Hs. apply Hs.
        apply enrollments_select_iff. by left. }
    split; [done|]. intros Hunique.
    pose proof (NoDup_map_filter enrollment_key
                  (same_enrollment_key uid (Course.id c)) _ Hunique) as Hn.
    destruct (List.filter _ _) as [|a [|b l]] eqn:E; simpl; [lia|lia|].
    exfalso.
    assert (In a (a :: b :: l)) as Ha by (by left).
    assert (In b (a :: b :: l)) as Hb by (right; by left).
    rewrite <- E in Ha, Hb.
    apply filter_In in Ha as [_ [Ha1%eqb_true Ha2%eqb_true]%andb_true_iff].
    apply filter_In in Hb as [_ [Hb1%eqb_true Hb2%eqb_true]%andb_true_iff].
    simpl in Hn. apply NoDup_cons in Hn as [Hn _]. apply Hn.
    unfold enrollment_key. rewrite Ha1, Ha2, Hb1, Hb2. by left.
Qed.

Lemma enrollment_count_is_what_the_viewer_reads_witness :
  embedded_enrollments (Ex.enrolled_db 4 0 None 0) (Some Ex.instructor_id)
    (Course.id (Ex.course true)) =
  List.filter
    (fun e => (Enrollment.course_id e =? Course.id (Ex.course true))%string)
    (enrollments (Ex.enrolled_db 4 0 None 0)).
Proof.
  refine (proj1 (enrollment_count_is_what_the_viewer_reads
                   (Ex.enrolled_db 4 0 None 0) Ex.instructor_id
                   (Ex.course true)) _ _).
  - reflexivity.
  - vm_compute. auto.
Defined.

(** ** CourseDetail.tsx: the viewer's enrollment *)

Lemma own_key_rows db user cid :
  List.filter (same_enrollment_key user cid) (visible_enrollments db user) =
  List.filter (same_enrollment_key user cid) (enrollments db).
Proof.
  unfold visible_enrollments. rewrite filter_twice.
  apply filter_ext_in. intros e He.
  destruct (same_enrollment_key user cid e) eqn:E; [|by rewrite andb_false_r].
  rewrite andb_true_r. apply enrollments_select_iff.
  left. by apply andb_true_iff in E as [E%eqb_true _].
Qed.

Lemma checkEnrollment_cast user courseId cid previous db :
  uuid_in courseId = Some cid ->
  checkEnrollment user courseId previous db =
  match List.filter (same_enrollment_key user cid) (enrollments db) with
  | [] => (None, None)
  | [data] => (Some data, None)
  | _ => (previous, Some multiple_rows)
  end.
Proof.
  intros Hid. unfold checkEnrollment, cast_uuid.
  by rewrite Hid, own_key_rows.
Qed.

(** X16.  [checkEnrollment] casts [courseId] to a uuid.  With one
    enrollment per (student, course) in the table and a text that
    denotes a uuid, in whatever spelling, it never fails, and it leaves
    an enrollment in the state cell exactly when the caller has one in
    that course: the page offers "Continue Learning" to the enrolled and
    "Enroll Now" to the others.  With a text that denotes none, the
    query fails and the state cell stays as it was. *)
Theorem checkEnrollment_finds_the_callers_enrollment
    user courseId previous db :
  one_enrollment_per_course db ->
  (forall cid, uuid_in courseId = Some cid ->
     exists found,
       checkEnrollment user courseId previous db = (found, None) /\
       (forall e, found = Some e <->
                  In e (enrollments db) /\ Enrollment.student_id e = user /\
                  Enrollment.course_id e = cid)) /\
  (uuid_in courseId = None ->
   checkEnrollment user courseId previous db =
   (previous, Some (server_error invalid_text_representation))).
Proof.
  intros Hunique. split.
  2:{ intros Hid. unfold checkEnrollment, cast_uuid. by rewrite Hid. }
  intros cid Hid. rewrite (checkEnrollment_cast user courseId cid previous db Hid).
  pose proof (NoDup_map_filter enrollment_key
                (same_enrollment_key user cid) _ Hunique) as Hn.
  assert (forall e, In e (List.filter (same_enrollment_key user cid)
                            (enrollments db)) <->
                    In e (enrollments db) /\ Enrollment.student_id e = user /\
                    Enrollment.course_id e = cid) as Hin.
  { intros e. rewrite filter_In. unfold same_enrollment_key.
    by rewrite andb_true_iff, !eqb_true. }
  destruct (List.filter _ _) as [|a [|b l]].
  - exists None. split; [done|]. intros e. split; [done|].
    by intros []%Hin.
  - exists (Some a). split; [done|]. intros e. rewrite <- Hin. simpl. split.
    + intros [= <-]. by left.
    + by intros [<-|[]].
  - exfalso.
    destruct (proj1 (Hin a)) as (_ & A1 & A2); [by left|].
    destruct (proj1 (Hin b)) as (_ & B1 & B2); [right; by left|].
    simpl in Hn. apply NoDup_cons in Hn as [Hn _]. apply Hn.
    unfold enrollment_key. rewrite A1, A2, B1, B2. by left.
Qed.

Lemma checkEnrollment_finds_the_callers_enrollment_witness :
  exists found,
    checkEnrollment Ex.student_id "00000000-0000-0000-0000-0000000000C1" None
      (Ex.enrolled_db 4 0 None 0) = (found, None) /\
    (forall e, found = Some e <->
               In e (enrollments (Ex.enrolled_db 4 0 None 0)) /\
               Enrollment.student_id e = Ex.student_id /\
               Enrollment.course_id e = Ex.course_id).
Proof.
  refine (proj1 (checkEnrollment_finds_the_callers_enrollment Ex.student_id
           "00000000-0000-0000-0000-0000000000C1" None
           (Ex.enrolled_db 4 0 None 0) _) Ex.course_id _).
  - unfold one_enrollment_per_course.
    apply (bool_decide_unpack _). vm_compute. exact I.
  - reflexivity.
Defined.

(** X17.  Enrolling and then looking the enrollment up agree: before
    [handleEnroll] the page of the course finds no enrollment of the
    student, after it [checkEnrollment] finds the row that was
    inserted. *)
Theorem enrollment_is_found_after_enrolling db uid c id1 t1 previous :
  is_uuid uid = true -> is_uuid (Course.id c) = true ->
  (exists p, In p (profiles db) /\ Profile.id p = uid) ->
  In c (courses db) ->
  ~ enrolled db uid (Course.id c) ->
  (forall e, In e (enrollments db) -> Enrollment.id e <> id1) ->
  checkEnrollment uid (Course.id c) previous db = (None, None) /\
  checkEnrollment uid (Course.id c) previous
    (handleEnroll (Some uid) (Some c) None db id1 t1).1.1 =
  (Some (Enrollment.mk id1 uid (Course.id c) t1 None 0), None).
Proof.
  intros Hu Hc Hprofile Hcourse Hnot Hfresh.
  assert (forall e, In e (enrollments db) ->
            same_enrollment_key uid (Course.id c) e = false) as Hnone.
  { intros e He. destruct (same_enrollment_key _ _ e) eqn:E; [|done].
    exfalso. apply Hnot. exists e.
    by apply andb_true_iff in E as [E1%eqb_true E2%eqb_true]. }
  rewrite !(checkEnrollment_cast uid (Course.id c) (Course.id c))
    by (by apply is_uuid_in).
  split; [by rewrite (filter_none _ _ Hnone)|].
  unfold handleEnroll.
  rewrite (insert_enrollment_first db uid (Course.id c) id1 t1); try done.
  - cbn [fst enrollments set_enrollments].
    rewrite List.filter_app, (filter_none _ _ Hnone). simpl.
    unfold same_enrollment_key. simpl. by rewrite !String.eqb_refl.
  - by exists c.
  - by apply existsb_false_iff.
  - apply existsb_false_iff. intros e He. apply String.eqb_neq.
    by apply Hfresh.
Qed.

Lemma enrollment_is_found_after_enrolling_witness :
  checkEnrollment Ex.student_id (Course.id (Ex.course true)) None
    (handleEnroll (Some Ex.student_id) (Some (Ex.course true)) None
       (Ex.catalogue true 4 [] [] []) Ex.enrollment_id 10).1.1 =
  (Some (Ex.enrollment None 0), None).
Proof.
  refine (proj2 (enrollment_is_found_after_enrolling
                   (Ex.catalogue true 4 [] [] []) Ex.student_id
                   (Ex.course true) Ex.enrollment_id 10 None _ _ _ _ _ _)).
  - reflexivity.
  - reflexivity.
  - exists Ex.learner. vm_compute. auto.
  - vm_compute. auto.
  - intros (e & [] & _).
  - intros e [].
Defined.

(** ** StudentDashboard.tsx: the lists *)

Lemma is_set_iff (c : option Z) : bool_decide (c ≠ None) = is_set c.
Proof. by destruct c. Qed.

(** X18.  The dashboard lists exactly the caller's own enrollments,
    newest first; "Continue Learning" and "Completed" split them with
    nothing lost, and the "Certificates" counter is the number of
    completed courses, whether or not a certificate row exists. *)
Theorem dashboard_lists_own_enrollments user db :
  (forall e, In e (loadEnrollments user db) <->
             In e (enrollments db) /\ Enrollment.student_id e = user) /\
  StronglySorted
    (fun a b => Enrollment.enrolled_at b <= Enrollment.enrolled_at a)
    (loadEnrollments user db) /\
  Permutation
    (inProgressCourses (loadEnrollments user db) ++
     completedCourses (loadEnrollments user db))
    (loadEnrollments user db) /\
  length (loadCertificates user db) =
  length (completedCourses (loadEnrollments user db)).
Proof.
  unfold loadEnrollments. split; [|split; [|split]].
  - intros e. rewrite sort_by_In, filter_In. unfold visible_enrollments.
    rewrite filter_In, eqb_true. split; [by intros [[? _] ?]|].
    intros [Hin Hs]. split; [|done]. split; [done|].
    apply enrollments_select_iff. by left.
  - eapply StronglySorted_weaken; [|apply sort_by_sorted].
    intros a b. simpl. lia.
  - apply filter_split.
  - unfold loadCertificates, completedCourses. rewrite length_map.
    rewrite (Permutation_length
               (filter_perm _ _ _ (sort_by_perm _ _))).
    rewrite !filter_twice. f_equal. apply filter_ext. intros e.
    by rewrite is_set_iff.
Qed.

(** ** StudentDashboard.tsx: certificates *)

Lemma loadCertificates_entry user db e c :
  In (e, c) (loadCertificates user db) <->
  (In e (enrollments db) /\ Enrollment.student_id e = user /\
   Enrollment.completed_at e <> None) /\
  c = List.find
        (fun c => (Certificate.enrollment_id c =? Enrollment.id e)%string)
        (rev (List.filter
                (fun c => existsb
                   (fun e => (Enrollment.id e =? Certificate.enrollment_id c)%string)
                   (List.filter
                      (fun e => (Enrollment.student_id e =? user)%string &&
                                bool_decide (Enrollment.completed_at e ≠ None))
                      (visible_enrollments db user)))
                (List.filter (certificates_select_using db user)
                   (certificates db)))).
Proof.
  unfold loadCertificates. rewrite in_map_iff. split.
  - intros (e0 & [= <- <-] & [[Hin _]%filter_In H]%filter_In).
    by apply andb_true_iff in H as [H1%eqb_true H2%bool_decide_eq_true].
  - intros ((Hin & Hs & Hc) & ->). exists e. split; [done|].
    apply filter_In. split.
    + by apply own_row_visible.
    + rewrite Hs, String.eqb_refl. by apply bool_decide_eq_true.
Qed.

(** X19.  An entry of the dashboard's completed list carries a
    certificate exactly when the table holds one for that enrollment
    (the button reads "View Certificate"), and carries none exactly
    when the table holds none ("Get Certificate"). *)
Theorem dashboard_entry_has_the_stored_certificate user db e c :
  In (e, c) (loadCertificates user db) ->
  match c with
  | Some cert =>
      In cert (certificates db) /\
      Certificate.enrollment_id cert = Enrollment.id e
  | None =>
      forall cert, In cert (certificates db) ->
                   Certificate.enrollment_id cert <> Enrollment.id e
  end.
Proof.
  intros [(Hin & Hs & Hc) ->]%loadCertificates_entry.
  destruct (List.find _ _) as [cert|] eqn:Hfind.
  - apply find_some in Hfind as [Hcert Hk%eqb_true].
    rewrite <- in_rev in Hcert.
    by apply filter_In in Hcert as [[Hcert _]%filter_In _].
  - intros cert Hcert Hk.
    apply find_none with (x := cert) in Hfind.
    + by rewrite Hk, String.eqb_refl in Hfind.
    + rewrite <- in_rev. apply filter_In. split.
      * apply filter_In. split; [done|]. apply owns_iff.
        exists e. by rewrite Hk.
      * apply existsb_exists. exists e. split.
        -- apply filter_In. split; [by apply own_row_visible|].
           rewrite Hs, String.eqb_refl. by apply bool_decide_eq_true.
        -- by rewrite Hk, String.eqb_refl.
Qed.

Lemma dashboard_entry_has_the_stored_certificate_witness :
  In (Certificate.mk (Ex.certificate_id 1) Ex.enrollment_id None 70)
     (certificates
        (set_certificates (Ex.enrolled_db 4 4 (Some 50) 100)
           [Certificate.mk (Ex.certificate_id 1) Ex.enrollment_id None 70])) /\
  Certificate.enrollment_id
    (Certificate.mk (Ex.certificate_id 1) Ex.enrollment_id None 70) =
  Enrollment.id (Ex.enrollment (Some 50) 100).
Proof.
  apply (dashboard_entry_has_the_stored_certificate Ex.student_id
           (set_certificates (Ex.enrolled_db 4 4 (Some 50) 100)
              [Certificate.mk (Ex.certificate_id 1) Ex.enrollment_id None 70])
           (Ex.enrollment (Some 50) 100)
           (Some (Certificate.mk (Ex.certificate_id 1) Ex.enrollment_id
                    None 70))).
  vm_compute. auto.
Defined.

(** X20.  When the student of a completed enrollment without a
    certificate generates one, the upsert goes through and the reloaded
    dashboard list shows that enrollment with the new certificate and
    its artifact. *)
Theorem generated_certificate_is_listed
    user previous db new_id now url e :
  is_uuid (Enrollment.id e) = true ->
  In e (enrollments db) ->
  Enrollment.student_id e = user ->
  Enrollment.completed_at e <> None ->
  (forall c, In c (certificates db) ->
             Certificate.enrollment_id c <> Enrollment.id e) ->
  (forall c, In c (certificates db) -> Certificate.id c <> new_id) ->
  exists db',
    handleGenerateCertificate user previous db new_id now url
      (Enrollment.id e) =
    (db', loadCertificates user db', None) /\
    certificates db' =
    (certificates db ++
     [Certificate.mk new_id (Enrollment.id e) (Some url) now])%list /\
    In (e, Some (Certificate.mk new_id (Enrollment.id e) (Some url) now))
       (loadCertificates user db').
Proof.
  intros Hid Hin Hs Hc Hnone Hfresh.
  assert (owns db user (Enrollment.id e)) as Hown by (by exists e).
  eexists. unfold handleGenerateCertificate.
  rewrite (upsert_certificate_first db user new_id now _ _ url
             (proj1 (is_uuid_in _) Hid) Hown Hnone Hfresh).
  split; [reflexivity|]. split; [reflexivity|].
  set (cert := Certificate.mk new_id (Enrollment.id e) (Some url) now).
  set (db' := set_certificates db _).
  assert (In e (enrollments db')) as Hin' by done.
  assert (In cert (certificates db')) as Hcert
    by (apply in_or_app; right; by left).
  apply loadCertificates_entry. split; [done|].
  destruct (List.find _ _) as [found|] eqn:Hfind.
  - f_equal. apply find_some in Hfind as [Hf Hk%eqb_true].
    rewrite <- in_rev in Hf. apply filter_In in Hf as [[Hf _]%filter_In _].
    apply in_app_or in Hf as [Hf|[<-|[]]]; [|done].
    by destruct (Hnone found Hf).
  - exfalso. apply find_none with (x := cert) in Hfind.
    + by rewrite String.eqb_refl in Hfind.
    + rewrite <- in_rev. apply filter_In. split.
      * apply filter_In. split; [done|]. apply owns_iff. by exists e.
      * apply existsb_exists. exists e. split.
        -- apply filter_In. split; [by apply own_row_visible|].
           rewrite Hs, String.eqb_refl. by apply bool_decide_eq_true.
        -- by rewrite String.eqb_refl.
Qed.

Lemma generated_certificate_is_listed_witness :
  exists db',
    handleGenerateCertificate Ex.student_id []
      (Ex.enrolled_db 4 4 (Some 50) 100) (Ex.certificate_id 1) 70
      "data:image/png;base64,AAAA" (Enrollment.id (Ex.enrollment (Some 50) 100)) =
    (db', loadCertificates Ex.student_id db', None) /\
    certificates db' =
    (certificates (Ex.enrolled_db 4 4 (Some 50) 100) ++
     [Certificate.mk (Ex.certificate_id 1)
        (Enrollment.id (Ex.enrollment (Some 50) 100))
        (Some "data:image/png;base64,AAAA") 70])%list /\
    In (Ex.enrollment (Some 50) 100,
        Some (Certificate.mk (Ex.certificate_id 1)
                (Enrollment.id (Ex.enrollment (Some 50) 100))
                (Some "data:image/png;base64,AAAA") 70))
       (loadCertificates Ex.student_id db').
Proof.
  apply (generated_certificate_is_listed Ex.student_id []
           (Ex.enrolled_db 4 4 (Some 50) 100) (Ex.certificate_id 1) 70
           "data:image/png;base64,AAAA" (Ex.enrollment (Some 50) 100)).
  - reflexivity.
  - vm_compute. auto.
  - reflexivity.
  - discriminate.
  - intros c [].
  - intros c [].
Defined.

(** X21.  [handleGenerateCertificate] never changes or removes a
    certificate that is already stored, never touches another table,
    and keeps at most one certificate per enrollment, whether the
    upsert goes through or is refused. *)
Theorem certificate_generation_keeps_stored_certificates
    user previous db new_id now url enrollmentId :
  let db' :=
    (handleGenerateCertificate user previous db new_id now url
       enrollmentId).1.1 in
  (forall c, In c (certificates db) -> In c (certificates db')) /\
  (enrollments db' = enrollments db /\
   lesson_progress db' = lesson_progress db /\
   courses db' = courses db /\ lessons db' = lessons db) /\
  (one_certificate_per_enrollment db -> one_certificate_per_enrollment db').
Proof.
  intros db'. unfold db', handleGenerateCertificate.
  destruct (upsert_certificate _ _ _ _ _ _) as [db1|error] eqn:E; [|done].
  cbn [fst]. split; [|split].
  - revert E. unfold upsert_certificate. intros H. casted H eid Hid.
    cbn [authenticated] in H. rewrite bind_Ok in H. passed H.
    destruct (List.find _ _); [done|]. do 2 passed H.
    injection H as <-. intros c Hc. apply in_or_app. by left.
  - revert E. unfold upsert_certificate. intros H. casted H eid Hid.
    cbn [authenticated] in H. rewrite bind_Ok in H. passed H.
    destruct (List.find _ _); [done|]. do 2 passed H.
    by injection H as <-.
  - by apply (upsert_certificate_at_most_one _ _ _ _ _ _ _ E).
Qed.

(** ** Lessons: what decides the read *)

Lemma readable_course_visible db uid c :
  In c (courses db) ->
  Course.is_published c = true \/ Course.instructor_id c = uid ->
  In c (visible_courses db uid) /\
  (Course.is_published c || (Course.instructor_id c =? uid)%string) = true.
Proof.
  intros Hin Hread.
  assert ((Course.is_published c || (Course.instructor_id c =? uid)%string)
          = true) as H.
  { destruct Hread as [-> | ->]; [done|].
    by rewrite String.eqb_refl, orb_true_r. }
  split; [|done]. by apply filter_In.
Qed.

(** X22.  A caller reads a lesson exactly when the course the lesson is
    under is published or taught by the caller.  The enrollments play
    no part: with any other content of the enrollments table the
    decision is the same. *)
Theorem lesson_is_read_through_its_course_only db uid l :
  (lessons_select_using db uid l = true <->
   exists c, lesson_under db l c /\
             (Course.is_published c = true \/ Course.instructor_id c = uid)) /\
  (forall es, lessons_select_using (set_enrollments db es) uid l =
              lessons_select_using db uid l).
Proof.
  assert (forall db,
            lessons_select_using db uid l = true <->
            exists c, lesson_under db l c /\
                      (Course.is_published c = true \/
                       Course.instructor_id c = uid)) as Hchar.
  { clear db. intros db. unfold lessons_select_using. split.
    - assert (forall cs c,
                In cs (visible_course_sections db uid) ->
                (CourseSection.id cs =? Lesson.section_id l)%string = true ->
                In c (visible_courses db uid) ->
                (Course.id c =? CourseSection.course_id cs)%string = true ->
                exists c, lesson_under db l c /\
                          (Course.is_published c = true \/
                           Course.instructor_id c = uid)) as Hfound.
      { intros cs c [Hcs _]%filter_In E1%eqb_true
          [Hc Hread]%visible_course_readable E2%eqb_true.
        exists c. split; [|done]. split; [done|]. by exists cs. }
      intros [H|H]%orb_true_iff;
        apply existsb_exists in H as (cs & Hcs & H);
        apply andb_true_iff in H as [E1 H];
        apply existsb_exists in H as (c & Hc & H);
        apply andb_true_iff in H as [E2 _];
        by apply (Hfound cs c).
    - intros (c & (Hc & cs & Hcs & E1 & E2) & Hread).
      destruct (readable_course_visible db uid c Hc Hread) as [Hvis Hb].
      apply orb_true_iff. left.
      apply existsb_exists. exists cs. split.
      + apply filter_In. split; [done|].
        unfold course_sections_select_using. apply orb_true_iff. left.
        apply existsb_exists. exists c. split; [done|].
        by rewrite E2, String.eqb_refl, Hb.
      + rewrite E1, String.eqb_refl. simpl.
        apply existsb_exists. exists c. split; [done|].
        rewrite E2, String.eqb_refl. simpl.
        apply orb_true_iff. by left. }
  split; [apply Hchar|].
  intros es. apply eq_true_iff_eq. by rewrite !Hchar.
Qed.

(** ** InstructorDashboard.tsx: the numbers *)

Lemma own_courses_visible db user :
  List.filter (fun c => (Course.instructor_id c =? user)%string)
    (visible_courses db user) =
  List.filter (fun c => (Course.instructor_id c =? user)%string) (courses db).
Proof.
  unfold visible_courses. rewrite filter_twice. apply filter_ext. intros c.
  unfold courses_select_using, Anyone_can_view_published_courses.
  destruct (_ =? user)%string; [by rewrite orb_true_r|by rewrite andb_false_r].
Qed.

Lemma instructor_reads_course_enrollments db user c :
  In c (courses db) -> Course.instructor_id c = user ->
  embedded_enrollments db (Some user) (Course.id c) =
  List.filter (fun e => (Enrollment.course_id e =? Course.id c)%string)
    (enrollments db).
Proof.
  intros Hc Hi. unfold embedded_enrollments. simpl.
  unfold visible_enrollments. rewrite filter_twice.
  apply filter_ext_in. intros e He.
  destruct (_ =? Course.id c)%string eqn:E; [|by rewrite andb_false_r].
  rewrite andb_true_r. apply enrollments_select_iff.
  right. exists c. by apply eqb_true in E.
Qed.

Lemma length_filter_disjoint {A} (f g : A -> bool) (l : list A) :
  (forall x, In x l -> f x = true -> g x = false) ->
  length (List.filter (fun x => f x || g x) l) =
  (length (List.filter f l) + length (List.filter g l))%nat.
Proof.
  induction l as [|x l IH]; simpl; [done|]. intros H.
  specialize (IH (fun y Hy => H y (or_intror Hy))).
  pose proof (H x (or_introl eq_refl)) as Hx.
  destruct (f x), (g x); simpl; rewrite ?IH; try lia;
    by specialize (Hx eq_refl).
Qed.

Lemma total_of_counts {S} (count : S -> Z) (l : list S) (a : Z) :
  fold_left (fun total s => total + count s) l a =
  a + fold_right (fun s total => count s + total) 0 l.
Proof.
  revert a. induction l as [|s l IH]; intros a; simpl; [lia|].
  rewrite IH. lia.
Qed.

(** X23.  The instructor dashboard has one row per course the caller
    teaches; the enrollments of a row are all the enrollments stored
    for that course, none being hidden from the instructor; and, course
    ids being unique, the total is the number of enrollments in the
    caller's courses. *)
Theorem instructor_dashboard_counts_every_enrollment user db reviews :
  NoDup (map Course.id (courses db)) ->
  let own :=
    List.filter (fun c => (Course.instructor_id c =? user)%string)
      (courses db) in
  map stats_id (loadDashboardData user db reviews).1.1 = map Course.id own /\
  (forall s, In s (loadDashboardData user db reviews).1.1 ->
     stats_enrollments s =
     Z.of_nat (length (List.filter
                 (fun e => (Enrollment.course_id e =? stats_id s)%string)
                 (enrollments db)))) /\
  (loadDashboardData user db reviews).1.2 =
  Z.of_nat (length (List.filter
              (fun e => existsb
                 (fun c => (Enrollment.course_id e =? Course.id c)%string) own)
              (enrollments db))).
Proof.
  intros Hunique own. unfold loadDashboardData. cbn [fst snd].
  rewrite own_courses_visible. fold own.
  assert (forall c, In c own ->
            In c (courses db) /\ Course.instructor_id c = user) as Hown.
  { intros c [Hc Hi%eqb_true]%filter_In. done. }
  split; [|split].
  - rewrite map_map. by apply map_ext.
  - intros s (c & <- & Hc)%in_map_iff. cbn [stats_enrollments stats_id].
    destruct (Hown c Hc) as [Hin Hi].
    by rewrite (instructor_reads_course_enrollments db user c Hin Hi).
  - rewrite total_of_counts, Z.add_0_l.
    assert (NoDup (map Course.id own)) as Hn by (by apply NoDup_map_filter).
    clearbody own. induction own as [|c own IH]; cbn [map fold_right existsb].
    + by rewrite (filter_none _ (enrollments db)).
    + apply NoDup_cons in Hn as [Hc Hn]. cbn [stats_enrollments].
      rewrite IH; [|intros c' Hc'; apply Hown; by right|done].
      destruct (Hown c) as [Hin Hi]; [by left|].
      rewrite (instructor_reads_course_enrollments db user c Hin Hi).
      rewrite length_filter_disjoint; [lia|].
      intros e He E%eqb_true. apply existsb_false_iff.
      intros c' Hc'. apply String.eqb_neq. intros E'. apply Hc.
      apply list_elem_of_In, in_map_iff. exists c'. split; [congruence|done].
Qed.

Lemma instructor_dashboard_counts_every_enrollment_witness :
  (loadDashboardData Ex.instructor_id (Ex.enrolled_db 4 0 None 0) []).1.2 =
  Z.of_nat (length (List.filter
              (fun e => existsb
                 (fun c => (Enrollment.course_id e =? Course.id c)%string)
                 (List.filter
                    (fun c => (Course.instructor_id c =? Ex.instructor_id)%string)
                    (courses (Ex.enrolled_db 4 0 None 0))))
              (enrollments (Ex.enrolled_db 4 0 None 0)))).
Proof.
  refine (proj2 (proj2 (instructor_dashboard_counts_every_enrollment
                          Ex.instructor_id (Ex.enrolled_db 4 0 None 0) [] _))).
  apply (bool_decide_unpack _). vm_compute. exact I.
Defined.

(** ** CourseBrowser.tsx: the catalogue *)

Lemma seen_category (category : string) (seen : list string) :
  existsb (String.eqb category) seen = true <-> In category seen.
Proof.
  rewrite existsb_exists. split.
  - by intros (x & Hx & ->%eqb_true).
  - intros H. exists category. by rewrite String.eqb_refl.
Qed.

Lemma uniqueCategories_step (l seen : list string) :
  NoDup seen ->
  NoDup (fold_left (fun seen category =>
                      if existsb (String.eqb category) seen then seen
                      else (seen ++ [category])%list) l seen) /\
  (forall c, In c (fold_left (fun seen category =>
                                if existsb (String.eqb category) seen then seen
                                else (seen ++ [category])%list) l seen) <->
             In c seen \/ In c l).
Proof.
  revert seen. induction l as [|x l IH]; intros seen Hseen; simpl.
  - split; [done|]. intros c. tauto.
  - destruct (existsb (String.eqb x) seen) eqn:E.
    + apply seen_category in E. destruct (IH seen Hseen) as [H1 H2].
      split; [done|]. intros c. rewrite H2. split; [tauto|].
      intros [H|[<-|H]]; tauto.
    + assert (~ In x seen) as Hx.
      { intros H%seen_category. congruence. }
      destruct (IH (seen ++ [x])%list) as [H1 H2].
      { apply NoDup_app. split; [done|]. split; [|apply NoDup_singleton].
        intros y Hy%list_elem_of_In ->%list_elem_of_singleton. done. }
      split; [done|]. intros c. rewrite H2, in_app_iff. simpl. tauto.
Qed.

(** X24.  The category selector of the course browser offers every
    category of the loaded courses, and each of them once. *)
Theorem categories_are_offered_once data :
  NoDup (uniqueCategories data) /\
  (forall c, In c (uniqueCategories data) <->
             exists course, In course data /\ Course.category course = c).
Proof.
  unfold uniqueCategories.
  destruct (uniqueCategories_step (map Course.category data) [])
    as [H1 H2]; [constructor|].
  split; [done|]. intros c. rewrite H2, in_map_iff. simpl.
  split; [intros [[]|(x & ? & ?)]; by exists x|intros (x & ? & ?); right; by exists x].
Qed.

Lemma includes_empty s : includes s "" = true.
Proof. by destruct s. Qed.

(** X25.  The course browser shows published courses only, each
    satisfying the selected category and level; to a visitor without a
    session it shows nothing; a signed-in visitor finds every published
    course in the loaded list, and with an empty search box and both
    selectors on "all" the whole loaded list is shown. *)
Theorem browser_shows_published_courses
    (toLowerCase : string -> string) db actor q cat lvl :
  toLowerCase "" = "" ->
  (forall course,
     In course (filteredCourses toLowerCase (loadCourses db actor) q cat lvl) ->
     In course (courses db) /\ Course.is_published course = true /\
     (cat = "all" \/ Course.category course = cat) /\
     (lvl = "all" \/ level_text (Course.level course) = lvl)) /\
  filteredCourses toLowerCase (loadCourses db actor) "" "all" "all" =
  loadCourses db actor /\
  loadCourses db None = [] /\
  (forall uid course, In course (courses db) ->
     Course.is_published course = true ->
     In course (loadCourses db (Some uid))).
Proof.
  intros Hlower. split; [|split; [|split]].
  - intros course [Hin H]%filter_In.
    apply andb_true_iff in H as [[_ Hc]%andb_true_iff Hl].
    apply sort_by_In, filter_In in Hin as [Hin Hpub].
    split.
    { destruct actor as [uid|]; [|done]. by apply filter_In in Hin as [? _]. }
    split; [done|]. split.
    + apply orb_true_iff in Hc as [Hc|Hc]; apply eqb_true in Hc; auto.
    + apply orb_true_iff in Hl as [Hl|Hl]; apply eqb_true in Hl; auto.
  - unfold filteredCourses. rewrite Hlower.
    induction (loadCourses db actor) as [|course l IH]; [done|].
    cbn [List.filter]. rewrite IH.
    by rewrite includes_empty.
  - done.
  - intros uid course Hin Hpub. apply sort_by_In, filter_In.
    split; [|done]. simpl. apply filter_In. split; [done|].
    unfold courses_select_using, Anyone_can_view_published_courses.
    by rewrite Hpub.
Qed.

Lemma browser_shows_published_courses_witness :
  filteredCourses (fun s => s)
    (loadCourses (Ex.catalogue false 4 [] [] []) (Some Ex.student_id))
    "" "all" "all" =
  loadCourses (Ex.catalogue false 4 [] [] []) (Some Ex.student_id).
Proof.
  refine (proj1 (proj2 (browser_shows_published_courses (fun s => s)
                          (Ex.catalogue false 4 [] [] [])
                          (Some Ex.student_id) "" "all" "all" _))).
  reflexivity.
Defined.
